(** * SpurStore support chat backend: conversation, prompt and HTTP logic

    A shallow embedding of the backend of the support chat widget
    (services/chat.service.ts, services/llm.service.ts, the validation
    middleware, the chat controller and the unique index of the
    migration), followed by the properties of the specification.

    Conventions of the embedding.
    - A JavaScript string is a [string]; one [ascii] stands for one UTF-16
      code unit in the range 0..255, so [String.length] is [.length].
    - The two tables are lists of rows in insertion order.  Row identifiers
      are drawn from a counter kept with the tables (the generator of the
      persistence layer never repeats an identifier).
    - An [async] method that reads and writes the tables is a function from
      the store to an [outcome] and the store it leaves behind: a thrown
      error does not roll anything back, as there is no transaction.
    - What the process cannot decide (wall clock, random suffix, environment
      variables, the answer of the remote model) is read from an [Env]. *)

From Stdlib Require Import String Ascii List Sorted Permutation Arith NArith Bool Lia.
From Stdlib Require Import Numbers.DecimalString.
Import ListNotations.

Open Scope string_scope.
Open Scope list_scope.
Open Scope nat_scope.

(* ------------------------------------------------------------------ *)
(** ** JavaScript string and array primitives used by the code *)

Module Js.

(** White space and line terminators removed by [String.prototype.trim],
    among the code units 0..255: TAB, LF, VT, FF, CR, SP and NBSP. *)
Definition isWhiteSpace (c : ascii) : bool :=
  let n := nat_of_ascii c in
  (n =? 9) || (n =? 10) || (n =? 11) || (n =? 12) || (n =? 13)
  || (n =? 32) || (n =? 160).

Fixpoint trimStart (s : string) : string :=
  match s with
  | EmptyString => EmptyString
  | String c t => if isWhiteSpace c then trimStart t else s
  end.

Fixpoint trimEnd (s : string) : string :=
  match s with
  | EmptyString => EmptyString
  | String c t =>
      match trimEnd t with
      | EmptyString => if isWhiteSpace c then EmptyString else String c EmptyString
      | t' => String c t'
      end
  end.

(** [s.trim()] *)
Definition trim (s : string) : string := trimEnd (trimStart s).

(** [s.includes(sub)] *)
Fixpoint includes (s sub : string) : bool :=
  String.prefix sub s
  || match s with
     | EmptyString => false
     | String _ t => includes t sub
     end.

(** [s.replace(/c/g, by)] for a one-character pattern *)
Fixpoint replaceAll (c : ascii) (by_ : string) (s : string) : string :=
  match s with
  | EmptyString => EmptyString
  | String d t =>
      if Ascii.eqb d c then (by_ ++ replaceAll c by_ t)%string
      else String d (replaceAll c by_ t)
  end.

(** [s.substring(0, n)] *)
Definition substring0 (n : nat) (s : string) : string := String.substring 0 n s.

(** [a.slice(-n)]: the last [n] elements, all of them when there are fewer *)
Definition sliceLast {A : Type} (n : nat) (a : list A) : list A :=
  skipn (List.length a - n) a.

(** Truthiness of a string: only the empty string is falsy. *)
Definition truthy (s : string) : bool := negb (String.eqb s "").

(** Truthiness of an optional string ([undefined] is falsy). *)
Definition truthyOpt (o : option string) : bool :=
  match o with
  | Some s => truthy s
  | None => false
  end.

(** [`${n}`] for a non-negative integer *)
Definition ofN (n : N) : string := NilEmpty.string_of_uint (N.to_uint n).

(** The double quote character, as a one-character string. *)
Definition dq : string := String (ascii_of_nat 34) EmptyString.

(** A string of [n] copies of [c]. *)
Fixpoint repeat (c : ascii) (n : nat) : string :=
  match n with
  | O => EmptyString
  | S k => String c (repeat c k)
  end.

(** [`${n}`] for a non-negative integer that is a length *)
Definition ofNat (n : nat) : string := NilEmpty.string_of_uint (Nat.to_uint n).

(** [s.toLowerCase()] on the letters A to Z *)
Definition toLowerCaseChar (c : ascii) : ascii :=
  let n := nat_of_ascii c in
  if (65 <=? n) && (n <=? 90) then ascii_of_nat (n + 32) else c.

Fixpoint toLowerCase (s : string) : string :=
  match s with
  | EmptyString => EmptyString
  | String c t => String (toLowerCaseChar c) (toLowerCase t)
  end.

End Js.

(* ------------------------------------------------------------------ *)
(** ** Data model: the two tables *)

Definition Id := nat.

Inductive Sender := USER | AI.

Definition Sender_eqb (a b : Sender) : bool :=
  match a, b with
  | USER, USER | AI, AI => true
  | _, _ => false
  end.

(** The JSON object stored, as text, in the [metadata] column. *)
Record Metadata := {
  startedAt : N;
  llmProvider : option string
}.

Module Conversation.
Record t := {
  id : Id;
  sessionId : string;
  createdAt : N;
  updatedAt : N;
  metadata : Metadata
}.

Definition withUpdatedAt (now : N) (c : t) : t :=
  {| id := id c; sessionId := sessionId c; createdAt := createdAt c;
     updatedAt := now; metadata := metadata c |}.
End Conversation.

Module Message.
Record t := {
  id : Id;
  conversationId : Id;
  sender : Sender;
  text : string;
  createdAt : N
}.
End Message.

Record Store := {
  conversations : list Conversation.t;
  messages : list Message.t;
  nextId : Id
}.

Definition emptyStore : Store :=
  {| conversations := []; messages := []; nextId := 0 |}.

(* ------------------------------------------------------------------ *)
(** ** Outcomes and the store-passing monad *)

(** A call either returns a value or throws an [Error] with a message. *)
Inductive outcome (A : Type) : Type :=
| Returns (a : A)
| Throws (message : string).
Arguments Returns {A} a.
Arguments Throws {A} message.

Definition Task (A : Type) : Type := Store -> outcome A * Store.

Definition ret {A} (a : A) : Task A := fun st => (Returns a, st).

Definition throw {A} (message : string) : Task A := fun st => (Throws message, st).

Definition bind {A B} (m : Task A) (k : A -> Task B) : Task B :=
  fun st =>
    match m st with
    | (Returns a, st') => k a st'
    | (Throws e, st') => (Throws e, st')
    end.

Notation "x <- m ;; k" := (bind m (fun x => k))
  (at level 61, m at next level, right associativity).
Notation "m ;;; k" := (bind m (fun _ => k))
  (at level 61, right associativity).

(** Lift a pure outcome. *)
Definition liftOutcome {A} (o : outcome A) : Task A := fun st => (o, st).

(* ------------------------------------------------------------------ *)
(** ** The persistence layer (the calls the services make) *)

Module prisma.

Definition hasSessionId (sid : string) (c : Conversation.t) : bool :=
  String.eqb (Conversation.sessionId c) sid.

Definition hasId (i : Id) (c : Conversation.t) : bool :=
  Nat.eqb (Conversation.id c) i.

(** [prisma.conversation.findUnique({ where: { sessionId } })] *)
Definition conversation_findUnique (sid : string) : Task (option Conversation.t) :=
  fun st => (Returns (find (hasSessionId sid) (conversations st)), st).

(** [prisma.conversation.create({ data: { sessionId, metadata } })];
    [now] is the time the row is written.  The unique index
    [conversations_sessionId_key] rejects a second row with the same
    session identifier. *)
Definition conversation_create (now : N) (sid : string) (meta : Metadata)
  : Task Conversation.t :=
  fun st =>
    if existsb (hasSessionId sid) (conversations st)
    then (Throws "Unique constraint failed on the fields: (sessionId)", st)
    else
      let c := {| Conversation.id := nextId st;
                  Conversation.sessionId := sid;
                  Conversation.createdAt := now;
                  Conversation.updatedAt := now;
                  Conversation.metadata := meta |} in
      (Returns c,
       {| conversations := conversations st ++ [c];
          messages := messages st;
          nextId := S (nextId st) |}).

(** [prisma.conversation.update({ where: { id }, data: { updatedAt } })] *)
Definition conversation_update (i : Id) (now : N) : Task unit :=
  fun st =>
    if existsb (hasId i) (conversations st)
    then (Returns tt,
          {| conversations :=
               map (fun c => if hasId i c then Conversation.withUpdatedAt now c else c)
                   (conversations st);
             messages := messages st;
             nextId := nextId st |})
    else (Throws "Record to update not found", st).

(** [prisma.message.create({ data: { conversationId, sender, text } })];
    the foreign key [messages_conversationId_fkey] requires the owning
    conversation to exist. *)
Definition message_create (now : N) (cid : Id) (s : Sender) (txt : string)
  : Task Message.t :=
  fun st =>
    if existsb (hasId cid) (conversations st)
    then
      let m := {| Message.id := nextId st;
                  Message.conversationId := cid;
                  Message.sender := s;
                  Message.text := txt;
                  Message.createdAt := now |} in
      (Returns m,
       {| conversations := conversations st;
          messages := messages st ++ [m];
          nextId := S (nextId st) |})
    else (Throws "Foreign key constraint failed on the field: conversationId", st).

(** [orderBy: { createdAt: 'asc' }]: a stable sort, rows with equal
    time stamps stay in insertion order. *)
Fixpoint insertByCreatedAt (m : Message.t) (l : list Message.t) : list Message.t :=
  match l with
  | [] => [m]
  | x :: r =>
      if (Message.createdAt m <=? Message.createdAt x)%N then m :: l
      else x :: insertByCreatedAt m r
  end.

Definition orderByCreatedAtAsc (l : list Message.t) : list Message.t :=
  fold_right insertByCreatedAt [] l.

Definition ofConversation (cid : Id) (m : Message.t) : bool :=
  Nat.eqb (Message.conversationId m) cid.

(** [prisma.message.findMany({ where: { conversationId },
      orderBy: { createdAt: 'asc' }, take })] *)
Definition message_findMany (cid : Id) (take : nat) : Task (list Message.t) :=
  fun st =>
    (Returns (firstn take (orderByCreatedAtAsc (filter (ofConversation cid) (messages st)))),
     st).

(** [prisma.$queryRaw`SELECT 1`]: succeeds when the database answers. *)
Definition queryRaw_select1 (reachable : bool) : outcome unit :=
  if reachable then Returns tt else Throws "Can't reach database server".

End prisma.

(* ------------------------------------------------------------------ *)
(** ** The world outside the process *)

(** Environment variables read by the services. *)
Record ProcessEnv := {
  LLM_PROVIDER : option string;
  GEMINI_API_KEY : option string;
  GEMINI_MODEL : option string
}.

(** The handle built by [new GoogleGenAI({ apiKey })]. *)
Record GoogleGenAI := { apiKey : string }.

(** What [models.generateContent] does: it rejects with an error, or it
    resolves to a response whose [text] may be missing. *)
Inductive GeminiResult :=
| GeminiRejects (message : string)
| GeminiResolves (text : option string).

(** Everything one request reads from outside: the environment variables,
    the remote model, [Date.now()], the random suffix
    [Math.random().toString(36).substr(2, 9)], and the wall clock at each
    of the five moments a time stamp is taken. *)
Record Env := {
  processEnv : ProcessEnv;
  generateContent : GoogleGenAI -> string -> string -> GeminiResult;
  dateNow : N;
  randomSuffix : string;
  timeMetadata : N;
  timeConversation : N;
  timeUserMessage : N;
  timeAiMessage : N;
  timeTouch : N;
  databaseReachable : bool
}.

(** [v || fallback] on an optional string *)
Definition orDefault (v : option string) (fallback : string) : string :=
  match v with
  | Some s => if Js.truthy s then s else fallback
  | None => fallback
  end.

(* ------------------------------------------------------------------ *)
(** ** services/llm.service.ts *)

Module LLMResponse.
Record t := {
  content : string;
  provider : string;
  model : string
}.
End LLMResponse.

Module MessageHistory.
Record t := {
  sender : Sender;
  text : string;
  createdAt : N
}.
End MessageHistory.

Module LLMService.

Record t := {
  provider : string;
  geminiClient : option GoogleGenAI;
  geminiApiKey : string;
  geminiModel : string
}.

(** [constructor()], with [initializeClient()] inlined at its end *)
Definition new (pe : ProcessEnv) : outcome t :=
  let provider := orDefault (LLM_PROVIDER pe) "gemini" in
  let geminiApiKey := orDefault (GEMINI_API_KEY pe) "" in
  let geminiModel := orDefault (GEMINI_MODEL pe) "gemini-2.0-flash-exp" in
  if String.eqb provider "gemini" && negb (Js.truthy geminiApiKey)
  then Throws "GEMINI_API_KEY is required in environment variables"
  else
    Returns {| provider := provider;
               geminiClient :=
                 if String.eqb provider "gemini"
                 then Some {| apiKey := geminiApiKey |}
                 else None;
               geminiApiKey := geminiApiKey;
               geminiModel := geminiModel |}.

Definition getStoreKnowledge : string :=
  ("You are a helpful support agent for " ++ Js.dq ++ "SpurStore" ++ Js.dq ++ ", a small e-commerce store.

STORE KNOWLEDGE BASE:

1. SHIPPING POLICY:
   - Free shipping on orders over $50
   - Standard shipping: 3-5 business days ($4.99)
   - Express shipping: 1-2 business days ($9.99)
   - We ship to USA, Canada, UK, Australia, and EU countries

2. RETURN & REFUND POLICY:
   - 30-day return policy
   - Items must be in original condition
   - Refunds processed within 5-7 business days
   - Free returns for defective items

3. SUPPORT HOURS:
   - Monday-Friday: 9 AM - 6 PM EST
   - Saturday: 10 AM - 4 PM EST
   - Sunday: Closed
   - Email: support@spurstore.com

4. PRODUCTS:
   - Smartphones, laptops, headphones, smartwatches
   - 1-year manufacturer warranty
   - Price match guarantee for 7 days

5. PAYMENT OPTIONS:
   - Credit/Debit Cards
   - PayPal, Apple Pay, Google Pay

INSTRUCTIONS:
- Identify as " ++ Js.dq ++ "SpurStore Support Agent" ++ Js.dq ++ "
- Be concise and helpful (2-3 sentences usually)
- If unsure: " ++ Js.dq ++ "I'll connect you with a human agent during business hours" ++ Js.dq ++ "
- Never make promises beyond stated policies")%string.

Definition nl : string := String (ascii_of_nat 10) EmptyString.

(** [msg.sender === 'USER' ? 'Customer' : 'Support Agent'] *)
Definition role (s : Sender) : string :=
  match s with
  | USER => "Customer"
  | AI => "Support Agent"
  end.

(** The body of the [forEach]: one line appended to the running context. *)
Definition appendTurn (conversationContext : string) (msg : MessageHistory.t) : string :=
  (conversationContext ++ role (MessageHistory.sender msg) ++ ": "
     ++ MessageHistory.text msg ++ nl)%string.

Definition buildPrompt (history : list MessageHistory.t) (userMessage : string) : string :=
  let knowledgeBase := getStoreKnowledge in
  let conversationContext :=
    if 0 <? List.length history
    then fold_left appendTurn (Js.sliceLast 5 history)
                   (nl ++ nl ++ "CONVERSATION HISTORY:" ++ nl)%string
    else "" in
  (knowledgeBase ++ conversationContext ++ nl ++ nl
     ++ "CURRENT CUSTOMER QUESTION: " ++ Js.dq ++ userMessage ++ Js.dq ++ nl ++ nl
     ++ "Provide a helpful response based ONLY on the store knowledge above.")%string.

Definition generateWithGemini (env : Env) (self : t) (prompt : string)
  : outcome LLMResponse.t :=
  match geminiClient self with
  | None => Throws "Gemini client not initialized"
  | Some client =>
      match generateContent env client (geminiModel self) prompt with
      | GeminiRejects e => Throws e
      | GeminiResolves None => Throws "Empty response from Gemini"
      | GeminiResolves (Some txt) =>
          if Js.truthy txt
          then Returns {| LLMResponse.content := txt;
                          LLMResponse.provider := "gemini";
                          LLMResponse.model := geminiModel self |}
          else Throws "Empty response from Gemini"
      end
  end.

(** The three user-facing messages of the [catch] block. *)
Definition unavailableMessage : string :=
  "AI service is currently unavailable. Please try again later.".
Definition highDemandMessage : string :=
  "We're experiencing high demand. Please wait a moment.".
Definition genericMessage : string :=
  "Unable to generate response. Please try again.".

(** The [catch] block of [generateReply], as a function of [error.message]. *)
Definition rethrow (message : string) : string :=
  if Js.includes message "API key" || Js.includes message "authentication"
  then unavailableMessage
  else if Js.includes message "rate limit" || Js.includes message "quota"
  then highDemandMessage
  else genericMessage.

(** [userMessage.length > 2000 ? userMessage.substring(0, 2000) + '...' : userMessage] *)
Definition trimmedMessage (userMessage : string) : string :=
  if 2000 <? String.length userMessage
  then (Js.substring0 2000 userMessage ++ "...")%string
  else userMessage.

(** The [try] block of [generateReply]. *)
Definition generateReply_try (env : Env) (self : t) (userMessage : string)
    (history : list MessageHistory.t) : outcome LLMResponse.t :=
  if negb (Js.truthy userMessage) || (String.length (Js.trim userMessage) =? 0)
  then Throws "Message cannot be empty"
  else
    let prompt := buildPrompt history (trimmedMessage userMessage) in
    if String.eqb (provider self) "gemini"
    then generateWithGemini env self prompt
    else Throws ("Unsupported provider: " ++ provider self).

Definition generateReply (env : Env) (self : t) (userMessage : string)
    (history : list MessageHistory.t) : outcome LLMResponse.t :=
  match generateReply_try env self userMessage history with
  | Returns r => Returns r
  | Throws message => Throws (rethrow message)
  end.

End LLMService.

(* ------------------------------------------------------------------ *)
(** ** services/chat.service.ts *)

Module ChatRequest.
Record t := {
  message : string;
  sessionId : option string
}.
End ChatRequest.

Module ChatResponse.
Record t := {
  reply : string;
  sessionId : string;
  messageId : Id;
  conversationId : Id
}.
End ChatResponse.

Module ChatService.

Record t := { llmService : LLMService.t }.

(** [constructor()] *)
Definition new (pe : ProcessEnv) : outcome t :=
  match LLMService.new pe with
  | Returns l => Returns {| llmService := l |}
  | Throws e => Throws e
  end.

Definition emptyMessageError : string := "Message cannot be empty".
Definition tooLongMessageError : string :=
  "Message is too long. Please limit to 5000 characters.".

Definition validateMessage (message : string) : outcome unit :=
  if negb (Js.truthy message) || (String.length (Js.trim message) =? 0)
  then Throws emptyMessageError
  else if 5000 <? String.length message
  then Throws tooLongMessageError
  else Returns tt.

(** [`session_${Date.now()}_${Math.random().toString(36).substr(2, 9)}`] *)
Definition mintSessionId (env : Env) : string :=
  ("session_" ++ Js.ofN (dateNow env) ++ "_" ++ randomSuffix env)%string.

(** [sessionId || `session_...`] *)
Definition newSessionId (env : Env) (sessionId : option string) : string :=
  match sessionId with
  | Some s => if Js.truthy s then s else mintSessionId env
  | None => mintSessionId env
  end.

Definition createConversation (env : Env) (sessionId : option string)
  : Task Conversation.t :=
  prisma.conversation_create (timeConversation env)
    (newSessionId env sessionId)
    {| startedAt := timeMetadata env;
       llmProvider := LLM_PROVIDER (processEnv env) |}.

Definition getOrCreateConversation (env : Env) (sessionId : option string)
  : Task Conversation.t :=
  match sessionId with
  | Some sid =>
      if Js.truthy sid
      then
        found <- prisma.conversation_findUnique sid ;;
        match found with
        | Some conversation => ret conversation
        | None => createConversation env sessionId
        end
      else createConversation env sessionId
  | None => createConversation env sessionId
  end.

Definition toHistory (msg : Message.t) : MessageHistory.t :=
  {| MessageHistory.sender := Message.sender msg;
     MessageHistory.text := Message.text msg;
     MessageHistory.createdAt := Message.createdAt msg |}.

Definition getConversationHistory (conversationId : Id)
  : Task (list MessageHistory.t) :=
  msgs <- prisma.message_findMany conversationId 10 ;;
  ret (map toHistory msgs).

Definition fallbackReply : string :=
  "I apologize, but I'm having trouble accessing our knowledge base. Please try again in a moment, or contact support@spurstore.com for immediate assistance.".

Definition fallbackResponse : LLMResponse.t :=
  {| LLMResponse.content := fallbackReply;
     LLMResponse.provider := "fallback";
     LLMResponse.model := "none" |}.

(** The inner [try]/[catch] around the call of the model. *)
Definition replyOrFallback (o : outcome LLMResponse.t) : LLMResponse.t :=
  match o with
  | Returns r => r
  | Throws _ => fallbackResponse
  end.

(** The outer [catch] logs and rethrows the same error, so the method is
    the body of its [try]. *)
Definition processMessage (self : t) (env : Env) (request : ChatRequest.t)
  : Task ChatResponse.t :=
  liftOutcome (validateMessage (ChatRequest.message request)) ;;;
  conversation <- getOrCreateConversation env (ChatRequest.sessionId request) ;;
  userMessage <- prisma.message_create (timeUserMessage env)
                   (Conversation.id conversation) USER (ChatRequest.message request) ;;
  history <- getConversationHistory (Conversation.id conversation) ;;
  let llmResponse :=
    replyOrFallback
      (LLMService.generateReply env (llmService self)
         (ChatRequest.message request) history) in
  aiMessage <- prisma.message_create (timeAiMessage env)
                 (Conversation.id conversation) AI (LLMResponse.content llmResponse) ;;
  prisma.conversation_update (Conversation.id conversation) (timeTouch env) ;;;
  ret {| ChatResponse.reply := LLMResponse.content llmResponse;
         ChatResponse.sessionId := Conversation.sessionId conversation;
         ChatResponse.messageId := Message.id aiMessage;
         ChatResponse.conversationId := Conversation.id conversation |}.

(** [getConversation(sessionId)]: the conversation with its messages in
    ascending creation order (the metadata text is parsed on the way out,
    which the embedding, holding the object, has nothing to do for). *)
Definition getConversation (sessionId : string)
  : Task (option (Conversation.t * list Message.t)) :=
  found <- prisma.conversation_findUnique sessionId ;;
  match found with
  | None => ret None
  | Some c =>
      fun st =>
        (Returns (Some (c, prisma.orderByCreatedAtAsc
                             (filter (prisma.ofConversation (Conversation.id c))
                                     (messages st)))), st)
  end.

Module Health.
Record t := {
  database : string;
  llm : string;
  error : option string
}.
End Health.

Definition getHealth (env : Env) : Health.t :=
  match prisma.queryRaw_select1 (databaseReachable env) with
  | Returns _ =>
      {| Health.database := "healthy"; Health.llm := "healthy"; Health.error := None |}
  | Throws e =>
      {| Health.database := "unhealthy"; Health.llm := "unknown"; Health.error := Some e |}
  end.

End ChatService.

(* ------------------------------------------------------------------ *)
(** ** The HTTP layer: validation middleware, controller and routes *)

(** A JSON value found under a key of the request body, as far as the
    handlers tell them apart: absent, a string, or anything else. *)
Inductive JsValue :=
| JsUndefined
| JsString (s : string)
| JsOther.

Module Body.
Record t := {
  message : JsValue;
  sessionId : option string
}.
End Body.

Module Response.
Record t := {
  status : nat;
  success : option bool;
  data : option ChatResponse.t;
  error : option string;
  code : option string
}.

Definition rejected (st : nat) (e c : string) : t :=
  {| status := st; success := None; data := None; error := Some e; code := Some c |}.

Definition failed (st : nat) (e c : string) : t :=
  {| status := st; success := Some false; data := None; error := Some e; code := Some c |}.

Definition ok (d : ChatResponse.t) : t :=
  {| status := 200; success := Some true; data := Some d; error := None; code := None |}.
End Response.

Module ValidationMiddleware.

(** The sanitising chain of the middleware: both replacements, then
    [.substring(0, 5000)]. *)
Definition sanitize (trimmedMessage : string) : string :=
  Js.substring0 5000
    (Js.replaceAll ">" "&gt;" (Js.replaceAll "<" "&lt;" trimmedMessage)).

(** The same chain in the variant of the file that has no [.substring]. *)
Definition sanitizeUncapped (trimmedMessage : string) : string :=
  Js.replaceAll ">" "&gt;" (Js.replaceAll "<" "&lt;" trimmedMessage).

(** [validateMessage(req, res, next)]: either a response is sent, or
    [next()] runs on the request with [req.body.message] replaced.  The
    two variants of the file differ only in the sanitising chain. *)
Definition validateMessageWith (chain : string -> string) (body : Body.t)
  : Response.t + Body.t :=
  match Body.message body with
  | JsString message =>
      if negb (Js.truthy message)
      then inl (Response.rejected 400 "Message is required and must be a string"
                                  "VALIDATION_ERROR")
      else
        let trimmedMessage := Js.trim message in
        if String.length trimmedMessage =? 0
        then inl (Response.rejected 400 "Message cannot be empty or whitespace only"
                                    "EMPTY_MESSAGE")
        else if 5000 <? String.length trimmedMessage
        then inl (Response.rejected 400
                    "Message is too long. Maximum 5000 characters allowed."
                    "MESSAGE_TOO_LONG")
        else inr {| Body.message := JsString (chain trimmedMessage);
                    Body.sessionId := Body.sessionId body |}
  | _ => inl (Response.rejected 400 "Message is required and must be a string"
                                "VALIDATION_ERROR")
  end.

Definition validateMessage : Body.t -> Response.t + Body.t :=
  validateMessageWith sanitize.

Definition validateMessageUncapped : Body.t -> Response.t + Body.t :=
  validateMessageWith sanitizeUncapped.

End ValidationMiddleware.

Module ChatController.

Definition getErrorCode (message : string) : string :=
  if Js.includes message "cannot be empty" then "EMPTY_MESSAGE"
  else if Js.includes message "too long" then "MESSAGE_TOO_LONG"
  else if Js.includes message "invalid content" then "INVALID_CONTENT"
  else if Js.includes message "unavailable" then "SERVICE_UNAVAILABLE"
  else if Js.includes message "Rate limit" then "RATE_LIMITED"
  else if Js.includes message "Authentication" then "AUTH_ERROR"
  else "INTERNAL_ERROR".

Definition statusCode (message : string) : nat :=
  if Js.includes message "cannot be empty"
     || Js.includes message "too long"
     || Js.includes message "invalid content"
  then 400 else 500.

Definition sendMessage (chatService : ChatService.t) (env : Env) (body : Body.t)
  : Store -> Response.t * Store :=
  fun st =>
    match Body.message body with
    | JsString message =>
        if negb (Js.truthy message)
        then (Response.failed 400 "Message is required and must be a string"
                              "VALIDATION_ERROR", st)
        else
          let trimmedMessage := Js.trim message in
          if String.length trimmedMessage =? 0
          then (Response.failed 400 "Message cannot be empty" "EMPTY_MESSAGE", st)
          else
            match ChatService.processMessage chatService env
                    {| ChatRequest.message := trimmedMessage;
                       ChatRequest.sessionId := Body.sessionId body |} st with
            | (Returns result, st') => (Response.ok result, st')
            | (Throws e, st') =>
                (Response.failed (statusCode e)
                   (if Js.truthy e then e else "Internal server error")
                   (getErrorCode e), st')
            end
    | _ => (Response.failed 400 "Message is required and must be a string"
                            "VALIDATION_ERROR", st)
    end.

Module HealthResponse.
Record t := {
  httpStatus : nat;
  status : string;
  health : option ChatService.Health.t
}.
End HealthResponse.

(** [getHealth] catches its own failures, so the [catch] of the
    controller is never entered. *)
Definition healthCheck (env : Env) : HealthResponse.t :=
  let health := ChatService.getHealth env in
  let isHealthy :=
    String.eqb (ChatService.Health.database health) "healthy"
    && String.eqb (ChatService.Health.llm health) "healthy" in
  {| HealthResponse.httpStatus := if isHealthy then 200 else 503;
     HealthResponse.status := if isHealthy then "healthy" else "unhealthy";
     HealthResponse.health := Some health |}.

Module ConversationResponse.
Record t := {
  status : nat;
  success : bool;
  data : option (Conversation.t * list Message.t);
  error : option string;
  code : option string
}.
End ConversationResponse.

(** [getConversation(req, res)], on [req.params.sessionId] *)
Definition getConversation (sessionId : string)
  : Store -> ConversationResponse.t * Store :=
  fun st =>
    if negb (Js.truthy sessionId)
    then ({| ConversationResponse.status := 400;
             ConversationResponse.success := false;
             ConversationResponse.data := None;
             ConversationResponse.error := Some "sessionId is required";
             ConversationResponse.code := Some "VALIDATION_ERROR" |}, st)
    else
      match ChatService.getConversation sessionId st with
      | (Returns (Some conversation), st') =>
          ({| ConversationResponse.status := 200;
              ConversationResponse.success := true;
              ConversationResponse.data := Some conversation;
              ConversationResponse.error := None;
              ConversationResponse.code := None |}, st')
      | (Returns None, st') =>
          ({| ConversationResponse.status := 404;
              ConversationResponse.success := false;
              ConversationResponse.data := None;
              ConversationResponse.error := Some "Conversation not found";
              ConversationResponse.code := Some "NOT_FOUND" |}, st')
      | (Throws _, st') =>
          ({| ConversationResponse.status := 500;
              ConversationResponse.success := false;
              ConversationResponse.data := None;
              ConversationResponse.error := Some "Internal server error";
              ConversationResponse.code := Some "INTERNAL_ERROR" |}, st')
      end.

End ChatController.

Module Routes.

(** [router.post('/chat/message', validateMessage, sendMessage)] and its
    alias [router.post('/message', ...)]: the middleware, then the
    controller on the request it passes on. *)
Definition postMessageWith (validate : Body.t -> Response.t + Body.t)
    (chatService : ChatService.t) (env : Env) (body : Body.t)
  : Store -> Response.t * Store :=
  fun st =>
    match validate body with
    | inl res => (res, st)
    | inr body' => ChatController.sendMessage chatService env body' st
    end.

Definition postMessage := postMessageWith ValidationMiddleware.validateMessage.

(** [router.get('/health', healthCheck)] *)
Definition getHealth (env : Env) : ChatController.HealthResponse.t :=
  ChatController.healthCheck env.

(** [router.get('/conversation/:sessionId', getConversation)] *)
Definition getConversation (sessionId : string)
  : Store -> ChatController.ConversationResponse.t * Store :=
  ChatController.getConversation sessionId.

End Routes.

(* ------------------------------------------------------------------ *)
(** ** middleware/error.middleware.ts and the application (index.ts) *)

Module ErrorMiddleware.

Module ErrorResponse.
Record t := {
  status : nat;
  success : bool;
  error : string;
  code : string
}.
End ErrorResponse.

(** [errorMiddleware(error, req, res, next)]: whatever the error, the same
    answer (the error is only logged). *)
Definition errorMiddleware (error : string) : ErrorResponse.t :=
  {| ErrorResponse.status := 500;
     ErrorResponse.success := false;
     ErrorResponse.error := "An unexpected error occurred. Please try again later.";
     ErrorResponse.code := "INTERNAL_SERVER_ERROR" |}.

(** [notFoundMiddleware(req, res)], on [req.method] and [req.path] *)
Definition notFoundMiddleware (method path : string) : ErrorResponse.t :=
  {| ErrorResponse.status := 404;
     ErrorResponse.success := false;
     ErrorResponse.error := ("Route " ++ method ++ " " ++ path ++ " not found")%string;
     ErrorResponse.code := "NOT_FOUND" |}.

End ErrorMiddleware.

Module App.

(** The two request methods the client uses. *)
Inductive Method := GET | POST.

Definition methodName (m : Method) : string :=
  match m with
  | GET => "GET"
  | POST => "POST"
  end.

(** A request as the application sees it: the method, the path as its
    list of non-empty segments (already decoded), the parsed JSON body, and
    whether the rate limiter finds the client over its limit. *)
Module Request.
Record t := {
  method : Method;
  path : list string;
  body : Body.t;
  rateLimited : bool
}.
End Request.

(** [req.path]: the segments behind slashes. *)
Fixpoint pathText (segments : list string) : string :=
  match segments with
  | [] => ""
  | s :: r => ("/" ++ s ++ pathText r)%string
  end.

(** What is sent back, by whom. *)
Inductive Answer :=
| ChatAnswer (r : Response.t)
| ConversationAnswer (r : ChatController.ConversationResponse.t)
| HealthAnswer (r : ChatController.HealthResponse.t)
| RateLimitAnswer
| NotFoundAnswer (r : ErrorMiddleware.ErrorResponse.t).

Definition answerStatus (a : Answer) : nat :=
  match a with
  | ChatAnswer r => Response.status r
  | ConversationAnswer r => ChatController.ConversationResponse.status r
  | HealthAnswer r => ChatController.HealthResponse.httpStatus r
  | RateLimitAnswer => 429
  | NotFoundAnswer r => ErrorMiddleware.ErrorResponse.status r
  end.

(** A literal segment of a route matches without regard to case. *)
Definition segmentIs (literal segment : string) : bool :=
  String.eqb (Js.toLowerCase segment) literal.

(** The router of routes/chat.routes.ts on the path below its mount point:
    the rate limiter first, then the four routes; [None] when no route
    matches and the request falls through. *)
Definition chatRoutes (chatService : ChatService.t) (env : Env) (req : Request.t)
    (path : list string) : Store -> option (Answer * Store) :=
  fun st =>
    if Request.rateLimited req then Some (RateLimitAnswer, st)
    else
      match Request.method req, path with
      | GET, [a] =>
          if segmentIs "health" a
          then Some (HealthAnswer (Routes.getHealth env), st)
          else None
      | GET, [a; sessionId] =>
          if segmentIs "conversation" a
          then let (r, st') := Routes.getConversation sessionId st in
               Some (ConversationAnswer r, st')
          else None
      | POST, [a] =>
          if segmentIs "message" a
          then let (r, st') := Routes.postMessage chatService env (Request.body req) st in
               Some (ChatAnswer r, st')
          else None
      | POST, [a; b] =>
          if segmentIs "chat" a && segmentIs "message" b
          then let (r, st') := Routes.postMessage chatService env (Request.body req) st in
               Some (ChatAnswer r, st')
          else None
      | _, _ => None
      end.

(** [app.use('/api', chatRoutes); app.use(notFoundMiddleware)] *)
Definition handle (chatService : ChatService.t) (env : Env) (req : Request.t)
  : Store -> Answer * Store :=
  fun st =>
    let notFound :=
      (NotFoundAnswer
         (ErrorMiddleware.notFoundMiddleware (methodName (Request.method req))
            (pathText (Request.path req))), st) in
    match Request.path req with
    | mount :: rest =>
        if segmentIs "api" mount
        then match chatRoutes chatService env req rest st with
             | Some answer => answer
             | None => notFound
             end
        else notFound
    | [] => notFound
    end.

End App.

(* ------------------------------------------------------------------ *)
(** ** The client: lib/chat-api.ts *)

(** What [fetch] and [response.json()] can do, as far as the client tells
    the cases apart. *)
Module Thrown.
Record t := {
  isTypeError : bool;
  isError : bool;
  name : string;
  message : string
}.
End Thrown.

Module HttpResponse.
Record t (J : Type) := {
  status : nat;
  json : option J
}.
Arguments status {J} _.
Arguments json {J} _.

(** [response.ok] *)
Definition ok {J : Type} (r : t J) : bool :=
  (200 <=? status r) && (status r <=? 299).
End HttpResponse.

Inductive FetchOutcome (J : Type) : Type :=
| FetchRejects (e : Thrown.t)
| FetchResolves (r : HttpResponse.t J).
Arguments FetchRejects {J} e.
Arguments FetchResolves {J} r.

(** The browser, as far as the session functions use it: whether there is
    a [window], whether [localStorage] throws when touched, and what it
    holds. *)
Module Browser.
Record t := {
  hasWindow : bool;
  storageThrows : bool;
  localStorage : list (string * string)
}.

(** [localStorage.getItem(key)] *)
Fixpoint getItem (key : string) (items : list (string * string)) : option string :=
  match items with
  | [] => None
  | (k, v) :: r => if String.eqb k key then Some v else getItem key r
  end.

(** [localStorage.removeItem(key)] *)
Fixpoint removeItem (key : string) (items : list (string * string))
  : list (string * string) :=
  match items with
  | [] => []
  | (k, v) :: r =>
      if String.eqb k key then removeItem key r else (k, v) :: removeItem key r
  end.

(** [localStorage.setItem(key, value)] *)
Definition setItem (key value : string) (items : list (string * string))
  : list (string * string) :=
  (key, value) :: removeItem key items.
End Browser.

Module ChatApi.

(** [process.env.NEXT_PUBLIC_API_URL || "http://localhost:7000/api"] *)
Definition API_BASE_URL (NEXT_PUBLIC_API_URL : option string) : string :=
  orDefault NEXT_PUBLIC_API_URL "http://localhost:7000/api".

Inductive Sender := user | ai.

Module Message.
Record t := {
  id : string;
  sender : Sender;
  text : string;
  timestamp : N
}.
End Message.

Module ChatData.
Record t := {
  reply : string;
  sessionId : string;
  messageId : string;
  conversationId : string
}.
End ChatData.

(** The JSON of an answer to the message request: the [ChatResponse] of
    the client when it has the fields of one; [message] is read from
    error answers only. *)
Module ChatResponse.
Record t := {
  success : option bool;
  data : option ChatData.t;
  error : option string;
  message : option string
}.
End ChatResponse.

Module HistoryEntry.
Record t := {
  id : string;
  sender : Sender;
  text : string;
  createdAt : string
}.
End HistoryEntry.

Module HistoryData.
Record t := {
  messages : list HistoryEntry.t;
  conversationId : string
}.
End HistoryData.

Module ConversationHistoryResponse.
Record t := {
  success : option bool;
  data : option HistoryData.t;
  error : option string
}.
End ConversationHistoryResponse.

Definition MAX_MESSAGE_LENGTH : nat := 4000.
Definition WARNING_THRESHOLD : nat := 3500.

Module Validation.
Record t := {
  valid : bool;
  error : option string;
  warning : option string
}.
End Validation.

Definition validateMessage (message : string) : Validation.t :=
  let trimmed := Js.trim message in
  if negb (Js.truthy trimmed)
  then {| Validation.valid := false;
          Validation.error := Some "Message cannot be empty";
          Validation.warning := None |}
  else if MAX_MESSAGE_LENGTH <? String.length trimmed
  then {| Validation.valid := false;
          Validation.error :=
            Some ("Message too long (" ++ Js.ofNat (String.length trimmed) ++ "/"
                    ++ Js.ofNat MAX_MESSAGE_LENGTH
                    ++ " characters). Please shorten your message.")%string;
          Validation.warning := None |}
  else if WARNING_THRESHOLD <? String.length trimmed
  then {| Validation.valid := true;
          Validation.error := None;
          Validation.warning :=
            Some ("Your message is getting long (" ++ Js.ofNat (String.length trimmed)
                    ++ "/" ++ Js.ofNat MAX_MESSAGE_LENGTH ++ " characters).")%string |}
  else {| Validation.valid := true;
          Validation.error := None;
          Validation.warning := None |}.

(** The request of [sendMessage]: the body is
    [JSON.stringify({ message, sessionId })], in which an undefined
    [sessionId] leaves no key. *)
Module ChatRequestInit.
Record t := {
  url : string;
  method : string;
  message : string;
  sessionId : option string
}.
End ChatRequestInit.

(** The object every failure path of [sendMessage] returns. *)
Definition failure (sessionId error : option string) : ChatResponse.t :=
  {| ChatResponse.success := Some false;
     ChatResponse.data :=
       Some {| ChatData.reply := "";
               ChatData.sessionId := orDefault sessionId "";
               ChatData.messageId := "";
               ChatData.conversationId := "" |};
     ChatResponse.error := error;
     ChatResponse.message := None |}.

(** The message chosen by status when the error answer is not JSON. *)
Definition statusMessage (status : nat) : string :=
  if status =? 429 then "Too many requests. Please wait a moment and try again."
  else if status =? 503 then "Service temporarily unavailable. Please try again later."
  else if 500 <=? status
  then "Server error. Our team has been notified. Please try again later."
  else if status =? 400
  then "Invalid request. Please check your message and try again."
  else "Something went wrong. Please try again.".

(** [a || b] on strings that may be missing *)
Definition orElse (a : option string) (b : string) : string := orDefault a b.

(** The [catch] of [sendMessage], on what was thrown. *)
Definition caught (sessionId : option string) (e : Thrown.t) : ChatResponse.t :=
  if Thrown.isTypeError e
     && (Js.includes (Thrown.message e) "fetch" || Js.includes (Thrown.message e) "network")
  then failure sessionId
         (Some "Unable to connect to the server. Please check your internet connection.")
  else if Thrown.isError e && String.eqb (Thrown.name e) "AbortError"
  then failure sessionId (Some "Request timed out. Please try again.")
  else failure sessionId (Some "An unexpected error occurred. Please try again.").

(** What [response.json()] throws on a body that is not JSON. *)
Definition syntaxError : Thrown.t :=
  {| Thrown.isTypeError := false;
     Thrown.isError := true;
     Thrown.name := "SyntaxError";
     Thrown.message := "Unexpected token in JSON" |}.

Definition sendMessage (apiBaseUrl : string)
    (fetch : ChatRequestInit.t -> FetchOutcome ChatResponse.t)
    (message : string) (sessionId : option string) : ChatResponse.t :=
  let validation := validateMessage message in
  if negb (Validation.valid validation)
  then {| ChatResponse.success := Some false;
          ChatResponse.data :=
            Some {| ChatData.reply := "";
                    ChatData.sessionId := "";
                    ChatData.messageId := "";
                    ChatData.conversationId := "" |};
          ChatResponse.error := Validation.error validation;
          ChatResponse.message := None |}
  else
    match fetch {| ChatRequestInit.url := (apiBaseUrl ++ "/chat/message")%string;
                   ChatRequestInit.method := "POST";
                   ChatRequestInit.message := Js.trim message;
                   ChatRequestInit.sessionId :=
                     if Js.truthyOpt sessionId then sessionId else None |} with
    | FetchRejects e => caught sessionId e
    | FetchResolves response =>
        if negb (HttpResponse.ok response)
        then
          let errorMessage :=
            match HttpResponse.json response with
            | Some errorData =>
                orElse (ChatResponse.error errorData)
                  (orElse (ChatResponse.message errorData)
                     "Something went wrong. Please try again.")
            | None => statusMessage (HttpResponse.status response)
            end in
          failure sessionId (Some errorMessage)
        else
          match HttpResponse.json response with
          | Some data => data
          | None => caught sessionId syntaxError
          end
    end.

Definition emptyHistory : ConversationHistoryResponse.t :=
  {| ConversationHistoryResponse.success := Some true;
     ConversationHistoryResponse.data :=
       Some {| HistoryData.messages := []; HistoryData.conversationId := "" |};
     ConversationHistoryResponse.error := None |}.

(** The request of [getConversationHistory]. *)
Module HistoryRequestInit.
Record t := {
  url : string;
  method : string
}.
End HistoryRequestInit.

Definition getConversationHistory (apiBaseUrl : string)
    (fetch : HistoryRequestInit.t -> FetchOutcome ConversationHistoryResponse.t)
    (sessionId : string) : ConversationHistoryResponse.t :=
  match fetch {| HistoryRequestInit.url :=
                   (apiBaseUrl ++ "/chat/history/" ++ sessionId)%string;
                 HistoryRequestInit.method := "GET" |} with
  | FetchRejects _ => emptyHistory
  | FetchResolves response =>
      if negb (HttpResponse.ok response) then emptyHistory
      else match HttpResponse.json response with
           | Some data => data
           | None => emptyHistory
           end
  end.

Definition SESSION_KEY : string := "spur_chat_session_id".

Definition getStoredSessionId (b : Browser.t) : option string :=
  if negb (Browser.hasWindow b) then None
  else if Browser.storageThrows b then None
  else Browser.getItem SESSION_KEY (Browser.localStorage b).

Definition storeSessionId (sessionId : string) (b : Browser.t) : Browser.t :=
  if negb (Browser.hasWindow b) then b
  else if Browser.storageThrows b then b
  else {| Browser.hasWindow := Browser.hasWindow b;
          Browser.storageThrows := Browser.storageThrows b;
          Browser.localStorage :=
            Browser.setItem SESSION_KEY sessionId (Browser.localStorage b) |}.

Definition clearSession (b : Browser.t) : Browser.t :=
  if negb (Browser.hasWindow b) then b
  else if Browser.storageThrows b then b
  else {| Browser.hasWindow := Browser.hasWindow b;
          Browser.storageThrows := Browser.storageThrows b;
          Browser.localStorage :=
            Browser.removeItem SESSION_KEY (Browser.localStorage b) |}.

End ChatApi.

(* ------------------------------------------------------------------ *)
(** ** The client: components/chat/chat-input.tsx *)

Module ChatInput.

Record State := {
  message : string;
  charWarning : option string
}.

(** [handleSubmit()]: what is passed to [onSend], if anything, and the
    state left. *)
Definition handleSubmit (disabled : bool) (s : State) : option string * State :=
  let trimmed := Js.trim (message s) in
  if negb (Js.truthy trimmed) || disabled then (None, s)
  else
    let validation := ChatApi.validateMessage trimmed in
    if negb (ChatApi.Validation.valid validation) then (None, s)
    else (Some trimmed, {| message := ""; charWarning := None |}).

(** [handleKeyDown(e)], on [e.key] and [e.shiftKey] *)
Definition handleKeyDown (key : string) (shiftKey : bool) (disabled : bool) (s : State)
  : option string * State :=
  if String.eqb key "Enter" && negb shiftKey then handleSubmit disabled s
  else (None, s).

(** [handleChange(e)], on [e.target.value] *)
Definition handleChange (value : string) (s : State) : State :=
  let validation := ChatApi.validateMessage value in
  {| message := value;
     charWarning :=
       match ChatApi.Validation.warning validation with
       | Some w => if Js.truthy w then Some w
                   else match ChatApi.Validation.error validation with
                        | Some e =>
                            if Js.truthy e && (0 <? String.length (Js.trim value))
                            then Some e else None
                        | None => None
                        end
       | None =>
           match ChatApi.Validation.error validation with
           | Some e =>
               if Js.truthy e && (0 <? String.length (Js.trim value))
               then Some e else None
           | None => None
           end
       end |}.

(** [disabled || !message.trim() || !validation.valid], the state of the
    send button *)
Definition isDisabled (disabled : bool) (s : State) : bool :=
  disabled
  || negb (Js.truthy (Js.trim (message s)))
  || negb (ChatApi.Validation.valid (ChatApi.validateMessage (message s))).

End ChatInput.

(* ------------------------------------------------------------------ *)
(** ** The client: components/chat/chat-widget.tsx *)

Module ChatWidget.

Record State := {
  messages : list ChatApi.Message.t;
  isLoading : bool;
  error : option string;
  sessionId : option string;
  isInitialized : bool
}.

(** The clock of the browser at the moments the handlers read it. *)
Record Clock := {
  userNow : N;
  userDate : N;
  aiNow : N;
  aiDate : N
}.

Definition WELCOME_MESSAGE (timestamp : N) : ChatApi.Message.t :=
  {| ChatApi.Message.id := "welcome";
     ChatApi.Message.sender := ChatApi.ai;
     ChatApi.Message.text :=
       "Hi! I'm the SpurStore Support Agent. I'm here to help you with questions about shipping, returns, support hours, and more. How can I assist you today?";
     ChatApi.Message.timestamp := timestamp |}.

(** The state the component starts in; [loadedAt] is when the module was
    loaded. *)
Definition initialState (loadedAt : N) : State :=
  {| messages := [WELCOME_MESSAGE loadedAt];
     isLoading := false;
     error := None;
     sessionId := None;
     isInitialized := false |}.

(** [handleSendMessage(text)], from the call to the end of its [finally],
    given what [sendMessage] answered. *)
Definition handleSendMessage (clock : Clock)
    (sendMessage : string -> option string -> ChatApi.ChatResponse.t)
    (text : string) (s : State) (b : Browser.t) : State * Browser.t :=
  let userMessage :=
    {| ChatApi.Message.id := ("user-" ++ Js.ofN (userNow clock))%string;
       ChatApi.Message.sender := ChatApi.user;
       ChatApi.Message.text := text;
       ChatApi.Message.timestamp := userDate clock |} in
  let sent := messages s ++ [userMessage] in
  let response :=
    sendMessage text (if Js.truthyOpt (sessionId s) then sessionId s else None) in
  match ChatApi.ChatResponse.success response with
  | Some true =>
      match ChatApi.ChatResponse.data response with
      | Some data =>
          let aiMessage :=
            {| ChatApi.Message.id :=
                 if Js.truthy (ChatApi.ChatData.messageId data)
                 then ChatApi.ChatData.messageId data
                 else ("ai-" ++ Js.ofN (aiNow clock))%string;
               ChatApi.Message.sender := ChatApi.ai;
               ChatApi.Message.text := ChatApi.ChatData.reply data;
               ChatApi.Message.timestamp := aiDate clock |} in
          if Js.truthy (ChatApi.ChatData.sessionId data)
          then ({| messages := sent ++ [aiMessage];
                   isLoading := false;
                   error := None;
                   sessionId := Some (ChatApi.ChatData.sessionId data);
                   isInitialized := isInitialized s |},
                ChatApi.storeSessionId (ChatApi.ChatData.sessionId data) b)
          else ({| messages := sent ++ [aiMessage];
                   isLoading := false;
                   error := None;
                   sessionId := sessionId s;
                   isInitialized := isInitialized s |}, b)
      | None =>
          ({| messages := sent;
              isLoading := false;
              error := Some "Something went wrong. Please try again.";
              sessionId := sessionId s;
              isInitialized := isInitialized s |}, b)
      end
  | _ =>
      ({| messages := sent;
          isLoading := false;
          error :=
            Some (orDefault (ChatApi.ChatResponse.error response)
                    "Failed to get a response. Please try again.");
          sessionId := sessionId s;
          isInitialized := isInitialized s |}, b)
  end.

(** [handleNewConversation()]; [now] is the time of the click. *)
Definition handleNewConversation (now : N) (s : State) (b : Browser.t)
  : State * Browser.t :=
  ({| messages := [WELCOME_MESSAGE now];
      isLoading := isLoading s;
      error := None;
      sessionId := None;
      isInitialized := isInitialized s |},
   ChatApi.clearSession b).

(** [handleDismissError()] *)
Definition handleDismissError (s : State) : State :=
  {| messages := messages s;
     isLoading := isLoading s;
     error := None;
     sessionId := sessionId s;
     isInitialized := isInitialized s |}.

(** [new Date(msg.createdAt)] is left to [parseDate]. *)
Definition loadedMessage (parseDate : string -> N) (msg : ChatApi.HistoryEntry.t)
  : ChatApi.Message.t :=
  {| ChatApi.Message.id := ChatApi.HistoryEntry.id msg;
     ChatApi.Message.sender := ChatApi.HistoryEntry.sender msg;
     ChatApi.Message.text := ChatApi.HistoryEntry.text msg;
     ChatApi.Message.timestamp := parseDate (ChatApi.HistoryEntry.createdAt msg) |}.

(** [initSession()], the effect run once after the first render; a missing
    [data] in a successful answer makes the effect throw before
    [setIsInitialized(true)]. *)
Definition initSession (loadedAt : N) (parseDate : string -> N)
    (getConversationHistory : string -> ChatApi.ConversationHistoryResponse.t)
    (s : State) (b : Browser.t) : State :=
  match ChatApi.getStoredSessionId b with
  | Some storedSession =>
      if Js.truthy storedSession
      then
        let history := getConversationHistory storedSession in
        match ChatApi.ConversationHistoryResponse.success history with
        | Some true =>
            match ChatApi.ConversationHistoryResponse.data history with
            | Some data =>
                if 0 <? List.length (ChatApi.HistoryData.messages data)
                then {| messages :=
                          WELCOME_MESSAGE loadedAt
                            :: map (loadedMessage parseDate)
                                   (ChatApi.HistoryData.messages data);
                        isLoading := isLoading s;
                        error := error s;
                        sessionId := Some storedSession;
                        isInitialized := true |}
                else {| messages := messages s;
                        isLoading := isLoading s;
                        error := error s;
                        sessionId := Some storedSession;
                        isInitialized := true |}
            | None =>
                {| messages := messages s;
                   isLoading := isLoading s;
                   error := error s;
                   sessionId := Some storedSession;
                   isInitialized := false |}
            end
        | _ =>
            {| messages := messages s;
               isLoading := isLoading s;
               error := error s;
               sessionId := Some storedSession;
               isInitialized := true |}
        end
      else {| messages := messages s;
              isLoading := isLoading s;
              error := error s;
              sessionId := sessionId s;
              isInitialized := true |}
  | None =>
      {| messages := messages s;
         isLoading := isLoading s;
         error := error s;
         sessionId := sessionId s;
         isInitialized := true |}
  end.

End ChatWidget.

(* ================================================================== *)
(** * Vocabulary of the properties

    Sample worlds for the concrete runs, the specification-side readings of
    the prompt and of the error buckets, and the names given to the rows
    and stores a run of [processMessage] goes through. *)

Definition sampleProcessEnv : ProcessEnv :=
  {| LLM_PROVIDER := Some "gemini";
     GEMINI_API_KEY := Some "test-key";
     GEMINI_MODEL := None |}.

Definition sampleLLMService : LLMService.t :=
  {| LLMService.provider := "gemini";
     LLMService.geminiClient := Some {| apiKey := "test-key" |};
     LLMService.geminiApiKey := "test-key";
     LLMService.geminiModel := "gemini-2.0-flash-exp" |}.

Definition sampleService : ChatService.t :=
  {| ChatService.llmService := sampleLLMService |}.

(** A world whose model answers every prompt with [answer]. *)
Definition worldWith (answer : GeminiResult) : Env :=
  {| processEnv := sampleProcessEnv;
     generateContent := fun _ _ _ => answer;
     dateNow := 1735516800000%N;
     randomSuffix := "k3x9q0abz";
     timeMetadata := 1735516800001%N;
     timeConversation := 1735516800002%N;
     timeUserMessage := 1735516800003%N;
     timeAiMessage := 1735516800004%N;
     timeTouch := 1735516800005%N;
     databaseReachable := true |}.

Definition sampleEnv : Env := worldWith (GeminiResolves (Some "We ship in 3-5 business days.")).

(** A world whose model cannot be reached. *)
Definition llmDownEnv : Env := worldWith (GeminiRejects "fetch failed").

(** Every code unit of the string is white space. *)
Fixpoint whitespaceOnly (s : string) : bool :=
  match s with
  | EmptyString => true
  | String c t => Js.isWhiteSpace c && whitespaceOnly t
  end.

(** The two named buckets, as tests on the message of the provider error. *)
Definition isAuthFailure (e : string) : bool :=
  Js.includes e "API key" || Js.includes e "authentication".

Definition isRateFailure (e : string) : bool :=
  Js.includes e "rate limit" || Js.includes e "quota".

Definition bucketMessage (e : string) : string :=
  if isAuthFailure e then LLMService.unavailableMessage
  else if isRateFailure e then LLMService.highDemandMessage
  else LLMService.genericMessage.

(** The specification of the prompt, written from its description: the
    knowledge block, then the transcript of the last entries, then the
    instruction line with the (possibly shortened) question. *)

(** The last [n] entries of a list, or all of them when there are fewer. *)
Definition lastEntries {A : Type} (n : nat) (l : list A) : list A :=
  rev (firstn n (rev l)).

(** The first [n] characters of a string. *)
Definition firstChars (n : nat) (s : string) : string :=
  string_of_list_ascii (firstn n (list_ascii_of_string s)).

Definition truncate_spec (text : string) : string :=
  if String.length text <=? 2000 then text
  else (firstChars 2000 text ++ "...")%string.

Definition label_spec (s : Sender) : string :=
  match s with
  | USER => "Customer"
  | AI => "Support Agent"
  end.

Definition transcriptLine_spec (m : MessageHistory.t) : string :=
  (label_spec (MessageHistory.sender m) ++ ": " ++ MessageHistory.text m
     ++ LLMService.nl)%string.

Fixpoint joinLines (ls : list string) : string :=
  match ls with
  | [] => ""
  | x :: r => (x ++ joinLines r)%string
  end.

Definition transcriptBlock_spec (entries : list MessageHistory.t) : string :=
  match entries with
  | [] => ""
  | _ => (LLMService.nl ++ LLMService.nl ++ "CONVERSATION HISTORY:" ++ LLMService.nl
            ++ joinLines (map transcriptLine_spec entries))%string
  end.

Definition instructionLine_spec (question : string) : string :=
  (LLMService.nl ++ LLMService.nl ++ "CURRENT CUSTOMER QUESTION: "
     ++ Js.dq ++ question ++ Js.dq ++ LLMService.nl ++ LLMService.nl
     ++ "Provide a helpful response based ONLY on the store knowledge above.")%string.

Definition prompt_spec (history : list MessageHistory.t) (text : string) : string :=
  (LLMService.getStoreKnowledge
     ++ transcriptBlock_spec (lastEntries 5 history)
     ++ instructionLine_spec (truncate_spec text))%string.

Definition sampleHistory : list MessageHistory.t :=
  map (fun p : Sender * string =>
         {| MessageHistory.sender := fst p;
            MessageHistory.text := snd p;
            MessageHistory.createdAt := 0%N |})
      [(USER, "q1"); (AI, "a1"); (USER, "q2"); (AI, "a2");
       (USER, "q3"); (AI, "a3"); (USER, "q4")].

Section ResolutionVocabulary.

Variable env : Env.

(** The row written by [prisma.conversation.create] for a request. *)
Definition createdConversation (sessionId : option string) (st : Store)
  : Conversation.t :=
  {| Conversation.id := nextId st;
     Conversation.sessionId := ChatService.newSessionId env sessionId;
     Conversation.createdAt := timeConversation env;
     Conversation.updatedAt := timeConversation env;
     Conversation.metadata :=
       {| startedAt := timeMetadata env;
          llmProvider := LLM_PROVIDER (processEnv env) |} |}.

(** The conversation a supplied session identifier matches, if any. *)
Definition matching (sessionId : option string) (st : Store)
  : option Conversation.t :=
  match sessionId with
  | Some sid =>
      if Js.truthy sid
      then find (prisma.hasSessionId sid) (conversations st)
      else None
  | None => None
  end.

(** The three ways [getOrCreateConversation] can end. *)
Inductive Resolved (sessionId : option string) (st : Store)
  : outcome Conversation.t -> Store -> Prop :=
| Reused (c : Conversation.t) :
    matching sessionId st = Some c ->
    Resolved sessionId st (Returns c) st
| Created :
    matching sessionId st = None ->
    existsb (prisma.hasSessionId (ChatService.newSessionId env sessionId))
            (conversations st) = false ->
    Resolved sessionId st
      (Returns (createdConversation sessionId st))
      {| conversations := conversations st ++ [createdConversation sessionId st];
         messages := messages st;
         nextId := S (nextId st) |}
| Collided (e : string) :
    matching sessionId st = None ->
    existsb (prisma.hasSessionId (ChatService.newSessionId env sessionId))
            (conversations st) = true ->
    Resolved sessionId st (Throws e) st.

End ResolutionVocabulary.

Section RunVocabulary.

Variable self : ChatService.t.
Variable env : Env.
Variable request : ChatRequest.t.

(** The USER row written for the request in conversation [c]. *)
Definition userRow (c : Conversation.t) (st1 : Store) : Message.t :=
  {| Message.id := nextId st1;
     Message.conversationId := Conversation.id c;
     Message.sender := USER;
     Message.text := ChatRequest.message request;
     Message.createdAt := timeUserMessage env |}.

(** The history read back once the USER row is written. *)
Definition historyRead (c : Conversation.t) (st1 : Store) : list MessageHistory.t :=
  map ChatService.toHistory
    (firstn 10
       (prisma.orderByCreatedAtAsc
          (filter (prisma.ofConversation (Conversation.id c))
                  (messages st1 ++ [userRow c st1])))).

(** What the call of the model ends with. *)
Definition llmOutcome (c : Conversation.t) (st1 : Store) : outcome LLMResponse.t :=
  LLMService.generateReply env (ChatService.llmService self)
    (ChatRequest.message request) (historyRead c st1).

Definition replyText (c : Conversation.t) (st1 : Store) : string :=
  LLMResponse.content (ChatService.replyOrFallback (llmOutcome c st1)).

(** The AI row written for the reply. *)
Definition aiRow (c : Conversation.t) (st1 : Store) : Message.t :=
  {| Message.id := S (nextId st1);
     Message.conversationId := Conversation.id c;
     Message.sender := AI;
     Message.text := replyText c st1;
     Message.createdAt := timeAiMessage env |}.

(** The effect of the final update on one row. *)
Definition touch (i : Id) (now : N) (c : Conversation.t) : Conversation.t :=
  if prisma.hasId i c then Conversation.withUpdatedAt now c else c.

Definition responseFor (c : Conversation.t) (st1 : Store) : ChatResponse.t :=
  {| ChatResponse.reply := replyText c st1;
     ChatResponse.sessionId := Conversation.sessionId c;
     ChatResponse.messageId := S (nextId st1);
     ChatResponse.conversationId := Conversation.id c |}.

Definition storeAfter (c : Conversation.t) (st1 : Store) : Store :=
  {| conversations := map (touch (Conversation.id c) (timeTouch env)) (conversations st1);
     messages := messages st1 ++ [userRow c st1; aiRow c st1];
     nextId := S (S (nextId st1)) |}.

(** Every run is one of: rejected input, failed resolution, full run. *)
Inductive Ran (st : Store) : outcome ChatResponse.t -> Store -> Prop :=
| RanInvalid (e : string) :
    ChatService.validateMessage (ChatRequest.message request) = Throws e ->
    Ran st (Throws e) st
| RanUnresolved (e : string) (st1 : Store) :
    ChatService.validateMessage (ChatRequest.message request) = Returns tt ->
    Resolved env (ChatRequest.sessionId request) st (Throws e) st1 ->
    Ran st (Throws e) st1
| RanThrough (c : Conversation.t) (st1 : Store) :
    ChatService.validateMessage (ChatRequest.message request) = Returns tt ->
    Resolved env (ChatRequest.sessionId request) st (Returns c) st1 ->
    Ran st (Returns (responseFor c st1)) (storeAfter c st1).

End RunVocabulary.

(** The value a call returned, if it returned. *)
Definition returned {A : Type} (o : outcome A) : option A :=
  match o with
  | Returns a => Some a
  | Throws _ => None
  end.

Definition helloRequest (sessionId : option string) : ChatRequest.t :=
  {| ChatRequest.message := "hello"; ChatRequest.sessionId := sessionId |}.

(** The store after a first message without session identifier. *)
Definition storeAfterHello : Store :=
  snd (ChatService.processMessage sampleService sampleEnv (helloRequest None) emptyStore).

Definition helloConversation : Conversation.t :=
  {| Conversation.id := 0;
     Conversation.sessionId := "session_1735516800000_k3x9q0abz";
     Conversation.createdAt := 1735516800002%N;
     Conversation.updatedAt := 1735516800005%N;
     Conversation.metadata :=
       {| startedAt := 1735516800001%N; llmProvider := Some "gemini" |} |}.

(** What the call may do to one existing conversation row: every field but
    [updatedAt] is kept, and the row is left alone altogether unless it is
    the conversation of the request, in which case [updatedAt] is set. *)
Definition onlyTouched (owner : Id) (now : N) (old new : Conversation.t) : Prop :=
  Conversation.id new = Conversation.id old
  /\ Conversation.sessionId new = Conversation.sessionId old
  /\ Conversation.createdAt new = Conversation.createdAt old
  /\ Conversation.metadata new = Conversation.metadata old
  /\ (Conversation.id old = owner -> Conversation.updatedAt new = now)
  /\ (Conversation.id old <> owner -> new = old).

(** The invariant: no two conversation rows carry the same session
    identifier. *)
Definition uniqueSessions (st : Store) : Prop :=
  NoDup (map Conversation.sessionId (conversations st)).

(** Every existing row is still there, in place, under the same
    identifier and the same session identifier. *)
Definition sessionsKept (st st' : Store) : Prop :=
  exists added,
    map (fun c => (Conversation.id c, Conversation.sessionId c)) (conversations st')
    = map (fun c => (Conversation.id c, Conversation.sessionId c)) (conversations st)
        ++ added.

(** The operations that reach the store: the three routes, and the two
    service methods behind the message route. *)
Inductive Operation :=
| PostMessage (self : ChatService.t) (env : Env) (body : Body.t)
| GetConversation (sessionId : string)
| GetHealth (env : Env)
| ProcessMessage (self : ChatService.t) (env : Env) (request : ChatRequest.t)
| GetOrCreateConversation (env : Env) (sessionId : option string).

Definition storeAfterOperation (op : Operation) (st : Store) : Store :=
  match op with
  | PostMessage self env body => snd (Routes.postMessage self env body st)
  | GetConversation sessionId => snd (ChatService.getConversation sessionId st)
  | GetHealth env => let _ := Routes.getHealth env in st
  | ProcessMessage self env request => snd (ChatService.processMessage self env request st)
  | GetOrCreateConversation env sessionId =>
      snd (ChatService.getOrCreateConversation env sessionId st)
  end.

(** Rows in the order of their time stamps. *)
Definition byCreatedAt (a b : Message.t) : Prop :=
  (Message.createdAt a <= Message.createdAt b)%N.

(** The world of the [k]-th request of a session, one second after the
    previous one; the model answers with a numbered answer. *)
Definition envAt (k : N) : Env :=
  {| processEnv := sampleProcessEnv;
     generateContent :=
       fun _ _ _ => GeminiResolves (Some ("answer " ++ Js.ofN k)%string);
     dateNow := (1735516800000 + 1000 * k)%N;
     randomSuffix := "k3x9q0abz";
     timeMetadata := (1735516800001 + 1000 * k)%N;
     timeConversation := (1735516800002 + 1000 * k)%N;
     timeUserMessage := (1735516800003 + 1000 * k)%N;
     timeAiMessage := (1735516800004 + 1000 * k)%N;
     timeTouch := (1735516800005 + 1000 * k)%N;
     databaseReachable := true |}.

Definition questionAt (k : N) : ChatRequest.t :=
  {| ChatRequest.message := ("question " ++ Js.ofN k)%string;
     ChatRequest.sessionId := Some "s1" |}.

(** The store after the requests numbered by [ks], in that order. *)
Definition storeAfterQuestions (ks : list N) : Store :=
  fold_left
    (fun st k => snd (ChatService.processMessage sampleService (envAt k) (questionAt k) st))
    ks emptyStore.

Definition fiveExchanges : Store := storeAfterQuestions [0; 1; 2; 3; 4]%N.

Definition sixExchanges : Store := storeAfterQuestions [0; 1; 2; 3; 4; 5]%N.

Definition conversationS1 : Conversation.t :=
  {| Conversation.id := 0;
     Conversation.sessionId := "s1";
     Conversation.createdAt := 1735516800002%N;
     Conversation.updatedAt := 1735516804005%N;
     Conversation.metadata :=
       {| startedAt := 1735516800001%N; llmProvider := Some "gemini" |} |}.

(** The code unit [c] occurs in [s]. *)
Fixpoint hasChar (c : ascii) (s : string) : bool :=
  match s with
  | EmptyString => false
  | String d t => Ascii.eqb d c || hasChar c t
  end.

Definition boldBody : Body.t :=
  {| Body.message := JsString " <b>hi</b> "; Body.sessionId := None |}.

(** History entries in the order of their time stamps. *)
Definition historyByCreatedAt (a b : MessageHistory.t) : Prop :=
  (MessageHistory.createdAt a <= MessageHistory.createdAt b)%N.

Definition helloBody : Body.t :=
  {| Body.message := JsString "hello"; Body.sessionId := None |}.


(** The string is empty or starts with a code unit that is not white
    space. *)
Definition headOk (s : string) : bool :=
  match s with
  | EmptyString => true
  | String c _ => negb (Js.isWhiteSpace c)
  end.

(** The string starts with a code unit that is not white space. *)
Definition startsVisible (s : string) : bool :=
  match s with
  | EmptyString => false
  | String c _ => negb (Js.isWhiteSpace c)
  end.

(** The number of times the code unit [c] occurs in [s]. *)
Fixpoint occurrences (c : ascii) (s : string) : nat :=
  match s with
  | EmptyString => 0
  | String d t => (if Ascii.eqb d c then 1 else 0) + occurrences c t
  end.

(** A text of 1300 opening angle brackets. *)
Definition manyBrackets : Body.t :=
  {| Body.message := JsString (Js.repeat "<" 1300); Body.sessionId := Some "s1" |}.

(** An environment that selects a provider the service does not support. *)
Definition openaiProcessEnv : ProcessEnv :=
  {| LLM_PROVIDER := Some "openai";
     GEMINI_API_KEY := None;
     GEMINI_MODEL := None |}.

Definition openaiService : ChatService.t :=
  {| ChatService.llmService :=
       {| LLMService.provider := "openai";
          LLMService.geminiClient := None;
          LLMService.geminiApiKey := "";
          LLMService.geminiModel := "gemini-2.0-flash-exp" |} |}.

(** A browser with a working [localStorage] that holds an unrelated key. *)
Definition sampleBrowser : Browser.t :=
  {| Browser.hasWindow := true;
     Browser.storageThrows := false;
     Browser.localStorage := [("theme", "dark")] |}.

(** A text the client accepts with a warning: 3600 letters. *)
Definition longText : string := Js.repeat "a" 3600.

(** A text the client rejects and the server accepts: 4500 letters. *)
Definition longerText : string := Js.repeat "a" 4500.

(** The data part of every failure the client builds itself. *)
Definition blankData (sessionId : string) : ChatApi.ChatData.t :=
  {| ChatApi.ChatData.reply := "";
     ChatApi.ChatData.sessionId := sessionId;
     ChatApi.ChatData.messageId := "";
     ChatApi.ChatData.conversationId := "" |}.

(** The request [sendMessage] makes for a text and a session identifier. *)
Definition chatRequestInit (url message : string) (sessionId : option string)
  : ChatApi.ChatRequestInit.t :=
  {| ChatApi.ChatRequestInit.url := (url ++ "/chat/message")%string;
     ChatApi.ChatRequestInit.method := "POST";
     ChatApi.ChatRequestInit.message := Js.trim message;
     ChatApi.ChatRequestInit.sessionId :=
       if Js.truthyOpt sessionId then sessionId else None |}.

(** A server that answers every message request with 503 and no JSON. *)
Definition unavailableFetch (req : ChatApi.ChatRequestInit.t)
  : FetchOutcome ChatApi.ChatResponse.t :=
  FetchResolves {| HttpResponse.status := 503; HttpResponse.json := None |}.

(** A successful answer of the server, as the client parses it. *)
Definition sampleAnswer : ChatApi.ChatResponse.t :=
  {| ChatApi.ChatResponse.success := Some true;
     ChatApi.ChatResponse.data :=
       Some {| ChatApi.ChatData.reply := "We ship in 3-5 business days.";
               ChatApi.ChatData.sessionId := "session_1735516800000_k3x9q0abz";
               ChatApi.ChatData.messageId := "m2";
               ChatApi.ChatData.conversationId := "c0" |};
     ChatApi.ChatResponse.error := None;
     ChatApi.ChatResponse.message := None |}.

Definition sampleClock : ChatWidget.Clock :=
  {| ChatWidget.userNow := 1735516799000%N;
     ChatWidget.userDate := 1735516799001%N;
     ChatWidget.aiNow := 1735516801000%N;
     ChatWidget.aiDate := 1735516801001%N |}.

(** The request for the history of a session, as it reaches the server:
    GET on a path that starts with /api/chat/history. *)
Definition historyRequest (rest : list string) (body : Body.t) (limited : bool)
  : App.Request.t :=
  {| App.Request.method := App.GET;
     App.Request.path := "api" :: "chat" :: "history" :: rest;
     App.Request.body := body;
     App.Request.rateLimited := limited |}.

(** The USER bubble the widget adds for a text. *)
Definition userBubble (clock : ChatWidget.Clock) (text : string) : ChatApi.Message.t :=
  {| ChatApi.Message.id := ("user-" ++ Js.ofN (ChatWidget.userNow clock))%string;
     ChatApi.Message.sender := ChatApi.user;
     ChatApi.Message.text := text;
     ChatApi.Message.timestamp := ChatWidget.userDate clock |}.

(** The session identifier the widget passes to [sendMessage]. *)
Definition sessionArgument (s : ChatWidget.State) : option string :=
  if Js.truthyOpt (ChatWidget.sessionId s) then ChatWidget.sessionId s else None.

(** *** The client and the server together

    The request of [sendMessage] as it reaches the server (the URL of the
    client is taken to point at the /api mount of the server), the JSON the
    client parses from an answer (row identifiers printed as numbers), and
    one message sent from the widget against a store of the server. *)

Definition serverRequest (limited : bool) (req : ChatApi.ChatRequestInit.t)
  : App.Request.t :=
  {| App.Request.method := App.POST;
     App.Request.path := ["api"; "chat"; "message"];
     App.Request.body :=
       {| Body.message := JsString (ChatApi.ChatRequestInit.message req);
          Body.sessionId := ChatApi.ChatRequestInit.sessionId req |};
     App.Request.rateLimited := limited |}.

Definition chatDataOf (r : ChatResponse.t) : ChatApi.ChatData.t :=
  {| ChatApi.ChatData.reply := ChatResponse.reply r;
     ChatApi.ChatData.sessionId := ChatResponse.sessionId r;
     ChatApi.ChatData.messageId := Js.ofNat (ChatResponse.messageId r);
     ChatApi.ChatData.conversationId := Js.ofNat (ChatResponse.conversationId r) |}.

Definition answerJson (a : App.Answer) : HttpResponse.t ChatApi.ChatResponse.t :=
  match a with
  | App.ChatAnswer r =>
      {| HttpResponse.status := Response.status r;
         HttpResponse.json :=
           Some {| ChatApi.ChatResponse.success := Response.success r;
                   ChatApi.ChatResponse.data := option_map chatDataOf (Response.data r);
                   ChatApi.ChatResponse.error := Response.error r;
                   ChatApi.ChatResponse.message := None |} |}
  | App.RateLimitAnswer =>
      {| HttpResponse.status := 429;
         HttpResponse.json :=
           Some {| ChatApi.ChatResponse.success := None;
                   ChatApi.ChatResponse.data := None;
                   ChatApi.ChatResponse.error :=
                     Some "Too many requests. Please try again later.";
                   ChatApi.ChatResponse.message := None |} |}
  | App.NotFoundAnswer r =>
      {| HttpResponse.status := ErrorMiddleware.ErrorResponse.status r;
         HttpResponse.json :=
           Some {| ChatApi.ChatResponse.success :=
                     Some (ErrorMiddleware.ErrorResponse.success r);
                   ChatApi.ChatResponse.data := None;
                   ChatApi.ChatResponse.error :=
                     Some (ErrorMiddleware.ErrorResponse.error r);
                   ChatApi.ChatResponse.message := None |} |}
  | App.ConversationAnswer r =>
      {| HttpResponse.status := ChatController.ConversationResponse.status r;
         HttpResponse.json := None |}
  | App.HealthAnswer r =>
      {| HttpResponse.status := ChatController.HealthResponse.httpStatus r;
         HttpResponse.json := None |}
  end.

Definition serve (self : ChatService.t) (env : Env) (limited : bool) (st : Store)
    (req : ChatApi.ChatRequestInit.t)
  : FetchOutcome ChatApi.ChatResponse.t * Store :=
  (FetchResolves (answerJson (fst (App.handle self env (serverRequest limited req) st))),
   snd (App.handle self env (serverRequest limited req) st)).

(** One text sent from the widget: the widget and the browser after the
    handler has finished, and the store of the server after the request,
    if the client made one. *)
Definition widgetSend (self : ChatService.t) (env : Env) (limited : bool)
    (url : string) (clock : ChatWidget.Clock) (text : string)
    (w : ChatWidget.State * Browser.t * Store) : ChatWidget.State * Browser.t * Store :=
  let s := fst (fst w) in
  let b := snd (fst w) in
  let st := snd w in
  (ChatWidget.handleSendMessage clock
     (ChatApi.sendMessage url (fun req => fst (serve self env limited st req))) text s b,
   if ChatApi.Validation.valid (ChatApi.validateMessage text)
   then snd (serve self env limited st (chatRequestInit url text (sessionArgument s)))
   else st).

(** The request [processMessage] gets for a text sent by the client. *)
Definition requestFor (text : string) (sessionId : option string) : ChatRequest.t :=
  {| ChatRequest.message := Js.trim (ValidationMiddleware.sanitize (Js.trim text));
     ChatRequest.sessionId := sessionId |}.

(** A fresh widget in the sample browser against the empty store. *)
Definition freshWidget : ChatWidget.State * Browser.t * Store :=
  (ChatWidget.initialState 1735516790000%N, sampleBrowser, emptyStore).

Definition laterClock : ChatWidget.Clock :=
  {| ChatWidget.userNow := 1735516800900%N;
     ChatWidget.userDate := 1735516800901%N;
     ChatWidget.aiNow := 1735516801900%N;
     ChatWidget.aiDate := 1735516801901%N |}.

(* ================================================================== *)
(** * Properties *)

(* ------------------------------------------------------------------ *)
(** ** Sample world used by the concrete runs *)

Lemma sampleService_is_constructed :
  ChatService.new sampleProcessEnv = Returns sampleService.
Proof. reflexivity. Qed.

(* ------------------------------------------------------------------ *)
(** ** Facts about the string primitives *)

Section StringFacts.

Lemma append_assoc (a b c : string) : ((a ++ b) ++ c = a ++ (b ++ c))%string.
Proof. induction a as [|x a IH]; simpl; [reflexivity | now rewrite IH]. Qed.

Lemma append_empty_r (a : string) : (a ++ "" = a)%string.
Proof. induction a as [|x a IH]; simpl; [reflexivity | now rewrite IH]. Qed.

Lemma length_append (a b : string) :
  String.length (a ++ b) = String.length a + String.length b.
Proof. induction a as [|x a IH]; simpl; [reflexivity | now rewrite IH]. Qed.

Lemma length_zero_iff (s : string) : String.length s = 0 <-> s = "".
Proof. destruct s; simpl; split; intro H; try reflexivity; discriminate. Qed.

Lemma trimEnd_empty_iff (s : string) :
  Js.trimEnd s = "" <-> whitespaceOnly s = true.
Proof.
  induction s as [|c t IH]; simpl.
  - split; reflexivity.
  - destruct (Js.trimEnd t) eqn:Et.
    + destruct (Js.isWhiteSpace c); simpl.
      * split; intros _; [now apply IH | reflexivity].
      * split; discriminate.
    + split; [discriminate|].
      intro H. apply andb_true_iff in H as [_ H].
      apply IH in H. discriminate.
Qed.

Lemma whitespaceOnly_trimStart (s : string) :
  whitespaceOnly (Js.trimStart s) = whitespaceOnly s.
Proof.
  induction s as [|c t IH]; simpl; [reflexivity|].
  destruct (Js.isWhiteSpace c) eqn:Ec; simpl.
  - exact IH.
  - now rewrite Ec.
Qed.

Lemma trim_empty_iff (s : string) :
  String.length (Js.trim s) = 0 <-> whitespaceOnly s = true.
Proof.
  unfold Js.trim. rewrite length_zero_iff, trimEnd_empty_iff.
  now rewrite whitespaceOnly_trimStart.
Qed.

Lemma trim_length_eqb (s : string) :
  (String.length (Js.trim s) =? 0) = whitespaceOnly s.
Proof.
  destruct (whitespaceOnly s) eqn:E.
  - apply Nat.eqb_eq. now apply trim_empty_iff.
  - apply Nat.eqb_neq. intro H. apply trim_empty_iff in H. congruence.
Qed.

(** The guard [!message || message.trim().length === 0] is the test
    for a string with nothing but white space in it. *)
Lemma blank_guard (s : string) :
  negb (Js.truthy s) || (String.length (Js.trim s) =? 0) = whitespaceOnly s.
Proof.
  rewrite trim_length_eqb. destruct s; simpl; [reflexivity|].
  unfold Js.truthy. simpl. reflexivity.
Qed.

Lemma whitespaceOnly_repeat_space (n : nat) :
  whitespaceOnly (Js.repeat " " n) = true.
Proof. induction n; simpl; [reflexivity | exact IHn]. Qed.

Lemma length_repeat (c : ascii) (n : nat) : String.length (Js.repeat c n) = n.
Proof. induction n; simpl; [reflexivity | now rewrite IHn]. Qed.

End StringFacts.

(* ------------------------------------------------------------------ *)
(** ** Input validation (C4) *)

Lemma validateMessage_blank (message : string) :
  whitespaceOnly message = true ->
  ChatService.validateMessage message = Throws ChatService.emptyMessageError.
Proof.
  intro H. unfold ChatService.validateMessage. now rewrite blank_guard, H.
Qed.

Lemma validateMessage_too_long (message : string) :
  whitespaceOnly message = false ->
  5000 < String.length message ->
  ChatService.validateMessage message = Throws ChatService.tooLongMessageError.
Proof.
  intros H L. unfold ChatService.validateMessage. rewrite blank_guard, H.
  apply Nat.ltb_lt in L. now rewrite L.
Qed.

Lemma validateMessage_ok_iff (message : string) :
  ChatService.validateMessage message = Returns tt <->
  whitespaceOnly message = false /\ String.length message <= 5000.
Proof.
  unfold ChatService.validateMessage. rewrite blank_guard.
  destruct (whitespaceOnly message); simpl.
  - split; [discriminate | intros [H _]; discriminate].
  - destruct (5000 <? String.length message) eqn:L.
    + apply Nat.ltb_lt in L. split; [discriminate | intros [_ H]; lia].
    + apply Nat.ltb_ge in L. split; auto.
Qed.

Lemma processMessage_invalid (self : ChatService.t) (env : Env)
    (request : ChatRequest.t) (st : Store) (e : string) :
  ChatService.validateMessage (ChatRequest.message request) = Throws e ->
  ChatService.processMessage self env request st = (Throws e, st).
Proof.
  intro H. unfold ChatService.processMessage, bind, liftOutcome.
  now rewrite H.
Qed.

(** C4, as the claim states it, fails: a text of 5001 spaces is longer than
    5000 characters, yet the call fails with the empty-message error, which
    is not the too-long error. *)
Lemma C4_whitespace_over_limit_counterexample :
  (5000 <? String.length (Js.repeat " " (S 5000))) = true
  /\ fst (ChatService.processMessage sampleService sampleEnv
            {| ChatRequest.message := Js.repeat " " (S 5000);
               ChatRequest.sessionId := None |} emptyStore)
     = Throws ChatService.emptyMessageError
  /\ fst (ChatService.processMessage sampleService sampleEnv
            {| ChatRequest.message := Js.repeat " " (S 5000);
               ChatRequest.sessionId := None |} emptyStore)
     <> Throws ChatService.tooLongMessageError.
Proof.
  assert (E : ChatService.processMessage sampleService sampleEnv
            {| ChatRequest.message := Js.repeat " " (S 5000);
               ChatRequest.sessionId := None |} emptyStore
          = (Throws ChatService.emptyMessageError, emptyStore)).
  { apply processMessage_invalid, validateMessage_blank.
    apply whitespaceOnly_repeat_space. }
  split; [| split].
  - rewrite length_repeat. reflexivity.
  - now rewrite E.
  - rewrite E. simpl. discriminate.
Qed.

(** C4 (amended): [processMessage] fails with the empty-message error for
    every text that is empty or consists of white space only (whatever its
    length), fails with the distinct too-long error for every text longer
    than 5000 characters that is not white space only, and in either case
    the store is returned unchanged: no message is persisted and no
    conversation is created. *)
Theorem C4_validation_errors (self : ChatService.t) (env : Env)
    (request : ChatRequest.t) (st : Store) :
  (whitespaceOnly (ChatRequest.message request) = true ->
   ChatService.processMessage self env request st
   = (Throws ChatService.emptyMessageError, st))
  /\ (whitespaceOnly (ChatRequest.message request) = false ->
      5000 < String.length (ChatRequest.message request) ->
      ChatService.processMessage self env request st
      = (Throws ChatService.tooLongMessageError, st))
  /\ ChatService.emptyMessageError <> ChatService.tooLongMessageError.
Proof.
  split; [| split].
  - intro H. now apply processMessage_invalid, validateMessage_blank.
  - intros H L. now apply processMessage_invalid, validateMessage_too_long.
  - discriminate.
Qed.

Lemma C4_validation_errors_witness :
  ChatService.processMessage sampleService sampleEnv
    {| ChatRequest.message := "   "; ChatRequest.sessionId := Some "s1" |} emptyStore
  = (Throws ChatService.emptyMessageError, emptyStore)
  /\ ChatService.processMessage sampleService sampleEnv
       {| ChatRequest.message := Js.repeat "a" (S 5000);
          ChatRequest.sessionId := Some "s1" |} emptyStore
     = (Throws ChatService.tooLongMessageError, emptyStore).
Proof.
  split.
  - apply (proj1 (C4_validation_errors sampleService sampleEnv
             {| ChatRequest.message := "   "; ChatRequest.sessionId := Some "s1" |}
             emptyStore)).
    reflexivity.
  - apply (proj1 (proj2 (C4_validation_errors sampleService sampleEnv
             {| ChatRequest.message := Js.repeat "a" (S 5000);
                ChatRequest.sessionId := Some "s1" |} emptyStore))).
    + reflexivity.
    + cbn [ChatRequest.message]. rewrite length_repeat. apply Nat.lt_succ_diag_r.
Defined.

(* ------------------------------------------------------------------ *)
(** ** The LLM client adapter: error buckets (C7) *)

Lemma rethrow_bucket (e : string) : LLMService.rethrow e = bucketMessage e.
Proof. reflexivity. Qed.

Lemma rethrow_three (e : string) :
  LLMService.rethrow e = LLMService.unavailableMessage
  \/ LLMService.rethrow e = LLMService.highDemandMessage
  \/ LLMService.rethrow e = LLMService.genericMessage.
Proof.
  unfold LLMService.rethrow.
  destruct (Js.includes e "API key" || Js.includes e "authentication"); auto.
  destruct (Js.includes e "rate limit" || Js.includes e "quota"); auto.
Qed.

Lemma generateReply_throws_three (env : Env) (self : LLMService.t)
    (userMessage : string) (history : list MessageHistory.t) (o : string) :
  LLMService.generateReply env self userMessage history = Throws o ->
  o = LLMService.unavailableMessage
  \/ o = LLMService.highDemandMessage
  \/ o = LLMService.genericMessage.
Proof.
  unfold LLMService.generateReply.
  destruct (LLMService.generateReply_try env self userMessage history) as [r|e];
    [discriminate|].
  intro H. injection H as <-. apply rethrow_three.
Qed.

(** With a service configured for Gemini and an acceptable message, the
    [try] block is the call of the backend on the assembled prompt. *)
Lemma generateReply_try_gemini (env : Env) (self : LLMService.t)
    (userMessage : string) (history : list MessageHistory.t) :
  LLMService.provider self = "gemini" ->
  whitespaceOnly userMessage = false ->
  LLMService.generateReply_try env self userMessage history
  = LLMService.generateWithGemini env self
      (LLMService.buildPrompt history (LLMService.trimmedMessage userMessage)).
Proof.
  intros P W. unfold LLMService.generateReply_try.
  rewrite blank_guard, W, P. reflexivity.
Qed.

(** C7: a failure of the provider is put in exactly one of three buckets by
    its message (key or authentication; rate limit or quota; anything else),
    each bucket has its own user-facing string, nothing else is ever thrown,
    and an empty response is thrown as an error of the third bucket. *)
Theorem C7_error_buckets (env : Env) (self : LLMService.t) (client : GoogleGenAI)
    (userMessage : string) (history : list MessageHistory.t) :
  LLMService.provider self = "gemini" ->
  LLMService.geminiClient self = Some client ->
  whitespaceOnly userMessage = false ->
  let answer :=
    generateContent env client (LLMService.geminiModel self)
      (LLMService.buildPrompt history (LLMService.trimmedMessage userMessage)) in
  (forall e, answer = GeminiRejects e ->
     LLMService.generateReply env self userMessage history
     = Throws (if isAuthFailure e then LLMService.unavailableMessage
               else if isRateFailure e then LLMService.highDemandMessage
               else LLMService.genericMessage))
  /\ (answer = GeminiResolves None \/ answer = GeminiResolves (Some "") ->
      LLMService.generateReply env self userMessage history
      = Throws LLMService.genericMessage)
  /\ (forall o, LLMService.generateReply env self userMessage history = Throws o ->
        o = LLMService.unavailableMessage
        \/ o = LLMService.highDemandMessage
        \/ o = LLMService.genericMessage)
  /\ LLMService.unavailableMessage <> LLMService.highDemandMessage
  /\ LLMService.unavailableMessage <> LLMService.genericMessage
  /\ LLMService.highDemandMessage <> LLMService.genericMessage.
Proof.
  intros P C W answer.
  assert (T : LLMService.generateReply_try env self userMessage history
              = match answer with
                | GeminiRejects e => Throws e
                | GeminiResolves None => Throws "Empty response from Gemini"
                | GeminiResolves (Some txt) =>
                    if Js.truthy txt
                    then Returns {| LLMResponse.content := txt;
                                    LLMResponse.provider := "gemini";
                                    LLMResponse.model := LLMService.geminiModel self |}
                    else Throws "Empty response from Gemini"
                end).
  { rewrite (generateReply_try_gemini env self userMessage history P W).
    unfold LLMService.generateWithGemini. rewrite C. reflexivity. }
  repeat split.
  - intros e E. unfold LLMService.generateReply. rewrite T, E. reflexivity.
  - intros [E|E]; unfold LLMService.generateReply; rewrite T, E; reflexivity.
  - apply generateReply_throws_three.
  - discriminate.
  - discriminate.
  - discriminate.
Qed.

Lemma C7_error_buckets_witness :
  LLMService.generateReply (worldWith (GeminiRejects "429: quota exceeded"))
    sampleLLMService "Where is my order?" []
  = Throws LLMService.highDemandMessage
  /\ LLMService.generateReply (worldWith (GeminiResolves None))
       sampleLLMService "Where is my order?" []
     = Throws LLMService.genericMessage.
Proof.
  split.
  - apply (proj1 (C7_error_buckets (worldWith (GeminiRejects "429: quota exceeded"))
                    sampleLLMService {| apiKey := "test-key" |}
                    "Where is my order?" [] eq_refl eq_refl eq_refl)
             "429: quota exceeded" eq_refl).
  - apply (proj1 (proj2 (C7_error_buckets (worldWith (GeminiResolves None))
                    sampleLLMService {| apiKey := "test-key" |}
                    "Where is my order?" [] eq_refl eq_refl eq_refl))).
    left. reflexivity.
Defined.

(* ------------------------------------------------------------------ *)
(** ** The health endpoint (C5) *)

(** The health report reads nothing but the answer of the database. *)
Lemma getHealth_database_only (env : Env) :
  ChatService.getHealth env
  = if databaseReachable env
    then {| ChatService.Health.database := "healthy";
            ChatService.Health.llm := "healthy";
            ChatService.Health.error := None |}
    else {| ChatService.Health.database := "unhealthy";
            ChatService.Health.llm := "unknown";
            ChatService.Health.error := Some "Can't reach database server" |}.
Proof. unfold ChatService.getHealth. now destruct (databaseReachable env). Qed.

Lemma healthCheck_status (env : Env) :
  ChatController.HealthResponse.httpStatus (Routes.getHealth env)
  = if databaseReachable env then 200 else 503.
Proof.
  unfold Routes.getHealth, ChatController.healthCheck.
  rewrite getHealth_database_only. now destruct (databaseReachable env).
Qed.

(** C5 at a failing input: in a world where the database answers and every
    call of the model is rejected (so that [generateReply] throws), the
    health endpoint answers 200 and reports the model as healthy. *)
Theorem C5_health_reports_unreachable_llm_healthy :
  (forall client model prompt,
      generateContent llmDownEnv client model prompt = GeminiRejects "fetch failed")
  /\ LLMService.generateReply llmDownEnv sampleLLMService "Where is my order?" []
     = Throws LLMService.genericMessage
  /\ databaseReachable llmDownEnv = true
  /\ ChatController.HealthResponse.httpStatus (Routes.getHealth llmDownEnv) = 200
  /\ option_map ChatService.Health.llm
       (ChatController.HealthResponse.health (Routes.getHealth llmDownEnv))
     = Some "healthy".
Proof. repeat split. Qed.

(* ------------------------------------------------------------------ *)
(** ** The prompt builder (C6) *)

Section PromptLayout.

Lemma sliceLast_lastEntries {A : Type} (n : nat) (l : list A) :
  Js.sliceLast n l = lastEntries n l.
Proof.
  unfold Js.sliceLast, lastEntries.
  now rewrite firstn_rev, rev_involutive.
Qed.

Lemma lastEntries_length {A : Type} (n : nat) (l : list A) :
  List.length (lastEntries n l) = Nat.min n (List.length l).
Proof.
  unfold lastEntries. now rewrite length_rev, length_firstn, length_rev.
Qed.

Lemma lastEntries_suffix {A : Type} (n : nat) (l : list A) :
  firstn (List.length l - n) l ++ lastEntries n l = l.
Proof.
  rewrite <- sliceLast_lastEntries. unfold Js.sliceLast. apply firstn_skipn.
Qed.

Lemma lastEntries_nil_iff {A : Type} (n : nat) (l : list A) :
  0 < n -> (lastEntries n l = [] <-> l = []).
Proof.
  intro Hn. split.
  - intro H. apply (f_equal (@List.length A)) in H.
    rewrite lastEntries_length in H. simpl in H.
    destruct l; [reflexivity | simpl in H; lia].
  - intros ->. unfold lastEntries. simpl. now rewrite firstn_nil.
Qed.

Lemma substring0_firstChars (n : nat) (s : string) :
  Js.substring0 n s = firstChars n s.
Proof.
  unfold Js.substring0, firstChars. revert n.
  induction s as [|c t IH]; intros [|n]; simpl; try reflexivity.
  now rewrite IH.
Qed.

Lemma trimmedMessage_truncate (text : string) :
  LLMService.trimmedMessage text = truncate_spec text.
Proof.
  unfold LLMService.trimmedMessage, truncate_spec.
  rewrite Nat.ltb_antisym, substring0_firstChars.
  now destruct (String.length text <=? 2000).
Qed.

Lemma firstChars_length (n : nat) (s : string) :
  n <= String.length s -> String.length (firstChars n s) = n.
Proof.
  unfold firstChars. revert n.
  induction s as [|c t IH]; intros [|n] H; simpl in *; try reflexivity; try lia.
  rewrite IH; [reflexivity | lia].
Qed.

Lemma firstChars_prefix (n : nat) (s : string) :
  exists rest, s = (firstChars n s ++ rest)%string.
Proof.
  unfold firstChars. revert n.
  induction s as [|c t IH]; intros [|n]; simpl.
  - now exists "".
  - now exists "".
  - now exists (String c t).
  - destruct (IH n) as [rest E]. exists rest. now rewrite <- E.
Qed.

Lemma appendTurn_fold (entries : list MessageHistory.t) (acc : string) :
  fold_left LLMService.appendTurn entries acc
  = (acc ++ joinLines (map transcriptLine_spec entries))%string.
Proof.
  revert acc. induction entries as [|m r IH]; intro acc; simpl.
  - now rewrite append_empty_r.
  - rewrite IH. unfold LLMService.appendTurn, transcriptLine_spec.
    assert (R : LLMService.role (MessageHistory.sender m)
                = label_spec (MessageHistory.sender m))
      by now destruct (MessageHistory.sender m).
    rewrite R. now rewrite !append_assoc.
Qed.

Lemma buildPrompt_spec (history : list MessageHistory.t) (question : string) :
  LLMService.buildPrompt history question
  = (LLMService.getStoreKnowledge
       ++ transcriptBlock_spec (lastEntries 5 history)
       ++ instructionLine_spec question)%string.
Proof.
  unfold LLMService.buildPrompt. f_equal.
  rewrite sliceLast_lastEntries.
  destruct history as [|h0 hs].
  - reflexivity.
  - change (0 <? List.length (h0 :: hs)) with true. cbv iota.
    rewrite appendTurn_fold.
    unfold transcriptBlock_spec.
    destruct (lastEntries 5 (h0 :: hs)) eqn:E.
    + apply lastEntries_nil_iff in E; [discriminate | lia].
    + unfold instructionLine_spec. now rewrite !append_assoc.
Qed.

End PromptLayout.

(** C6: the prompt handed to the model for a history and a current text is
    the knowledge block, followed by the transcript of the last five (or
    fewer) history entries, each labelled Customer or Support Agent by its
    sender, followed by the instruction line with the current text, that
    text being cut to its first 2000 characters with an ellipsis appended
    exactly when it is longer than 2000 characters. *)
Theorem C6_prompt_layout (history : list MessageHistory.t) (text : string) :
  LLMService.buildPrompt history (LLMService.trimmedMessage text)
  = prompt_spec history text
  /\ List.length (lastEntries 5 history) = Nat.min 5 (List.length history)
  /\ firstn (List.length history - 5) history ++ lastEntries 5 history = history
  /\ (String.length text <= 2000 -> truncate_spec text = text)
  /\ (2000 < String.length text ->
      truncate_spec text = (firstChars 2000 text ++ "...")%string
      /\ String.length (firstChars 2000 text) = 2000
      /\ exists rest, text = (firstChars 2000 text ++ rest)%string)
  /\ (forall env self,
        LLMService.provider self = "gemini" ->
        whitespaceOnly text = false ->
        LLMService.generateReply_try env self text history
        = LLMService.generateWithGemini env self (prompt_spec history text)).
Proof.
  repeat split.
  - rewrite buildPrompt_spec, trimmedMessage_truncate. reflexivity.
  - apply lastEntries_length.
  - apply lastEntries_suffix.
  - intro H. unfold truncate_spec. apply Nat.leb_le in H. now rewrite H.
  - unfold truncate_spec. apply Nat.leb_gt in H. now rewrite H.
  - apply firstChars_length. lia.
  - apply firstChars_prefix.
  - intros env self P W.
    rewrite (generateReply_try_gemini env self text history P W).
    unfold prompt_spec.
    now rewrite buildPrompt_spec, trimmedMessage_truncate.
Qed.

Lemma C6_prompt_layout_witness :
  truncate_spec "Where is my order?" = "Where is my order?"
  /\ truncate_spec (Js.repeat "a" 2001)
     = (firstChars 2000 (Js.repeat "a" 2001) ++ "...")%string
  /\ LLMService.generateReply_try sampleEnv sampleLLMService
       "Where is my order?" sampleHistory
     = LLMService.generateWithGemini sampleEnv sampleLLMService
         (prompt_spec sampleHistory "Where is my order?").
Proof.
  split; [| split].
  - apply (proj1 (proj2 (proj2 (proj2
             (C6_prompt_layout sampleHistory "Where is my order?"))))).
    apply Nat.leb_le. reflexivity.
  - apply (proj1 (proj2 (proj2 (proj2 (proj2
             (C6_prompt_layout sampleHistory (Js.repeat "a" 2001))))))).
    rewrite length_repeat. apply Nat.lt_succ_diag_r.
  - apply (proj2 (proj2 (proj2 (proj2 (proj2
             (C6_prompt_layout sampleHistory "Where is my order?")))))
             sampleEnv sampleLLMService).
    + reflexivity.
    + reflexivity.
Defined.

(* ------------------------------------------------------------------ *)
(** ** Resolving the conversation of a request *)

Section Resolution.

Variable env : Env.

Lemma createConversation_resolved (sessionId : option string) (st : Store) :
  matching sessionId st = None ->
  Resolved env sessionId st
    (fst (ChatService.createConversation env sessionId st))
    (snd (ChatService.createConversation env sessionId st)).
Proof.
  intro M. unfold ChatService.createConversation, prisma.conversation_create.
  destruct (existsb (prisma.hasSessionId (ChatService.newSessionId env sessionId))
                    (conversations st)) eqn:E; simpl.
  - now apply Collided.
  - now apply Created.
Qed.

Lemma getOrCreateConversation_resolved (sessionId : option string) (st : Store) :
  Resolved env sessionId st
    (fst (ChatService.getOrCreateConversation env sessionId st))
    (snd (ChatService.getOrCreateConversation env sessionId st)).
Proof.
  unfold ChatService.getOrCreateConversation.
  destruct sessionId as [sid|].
  - destruct (Js.truthy sid) eqn:T.
    + unfold bind, prisma.conversation_findUnique.
      destruct (find (prisma.hasSessionId sid) (conversations st)) as [c|] eqn:F.
      * simpl. apply Reused. simpl. now rewrite T.
      * apply createConversation_resolved. simpl. now rewrite T.
    + apply createConversation_resolved. simpl. now rewrite T.
  - now apply createConversation_resolved.
Qed.

Lemma getOrCreateConversation_inv (sessionId : option string) (st : Store)
    (o : outcome Conversation.t) (st1 : Store) :
  ChatService.getOrCreateConversation env sessionId st = (o, st1) ->
  Resolved env sessionId st o st1.
Proof.
  intro H. pose proof (getOrCreateConversation_resolved sessionId st) as R.
  now rewrite H in R.
Qed.

Lemma matching_sessionId (sessionId : option string) (st : Store) (c : Conversation.t) :
  matching sessionId st = Some c ->
  sessionId = Some (Conversation.sessionId c)
  /\ Js.truthy (Conversation.sessionId c) = true
  /\ In c (conversations st).
Proof.
  unfold matching. destruct sessionId as [sid|]; [|discriminate].
  destruct (Js.truthy sid) eqn:T; [|discriminate].
  intro F. apply find_some in F as [I E].
  unfold prisma.hasSessionId in E. apply String.eqb_eq in E. subst sid. auto.
Qed.

Lemma hasId_present (c : Conversation.t) (l : list Conversation.t) :
  In c l -> existsb (prisma.hasId (Conversation.id c)) l = true.
Proof.
  intro I. apply existsb_exists. exists c. split; [exact I|].
  unfold prisma.hasId. apply Nat.eqb_refl.
Qed.

(** The conversation returned is a row of the store that is left. *)
Lemma Resolved_present sessionId st c st1 :
  Resolved env sessionId st (Returns c) st1 ->
  existsb (prisma.hasId (Conversation.id c)) (conversations st1) = true.
Proof.
  intro R. inversion R; subst.
  - apply hasId_present. now apply matching_sessionId in H0.
  - apply hasId_present. simpl. apply in_or_app. right. now left.
Qed.

Lemma Resolved_messages sessionId st o st1 :
  Resolved env sessionId st o st1 -> messages st1 = messages st.
Proof. intro R. now inversion R. Qed.

Lemma newSessionId_truthy (sessionId : option string) :
  Js.truthy (ChatService.newSessionId env sessionId) = true.
Proof.
  unfold ChatService.newSessionId.
  destruct sessionId as [s|]; [destruct (Js.truthy s) eqn:T; [exact T|] |];
    reflexivity.
Qed.

End Resolution.

(* ------------------------------------------------------------------ *)
(** ** One run of [processMessage] *)

Section Run.

Variable self : ChatService.t.
Variable env : Env.
Variable request : ChatRequest.t.

Lemma processMessage_resolved (st : Store) (c : Conversation.t) (st1 : Store) :
  ChatService.validateMessage (ChatRequest.message request) = Returns tt ->
  ChatService.getOrCreateConversation env (ChatRequest.sessionId request) st
  = (Returns c, st1) ->
  ChatService.processMessage self env request st
  = (Returns (responseFor self env request c st1), storeAfter self env request c st1).
Proof.
  intros V G.
  pose proof (Resolved_present env _ _ _ _ (getOrCreateConversation_inv env _ _ _ _ G)) as P.
  unfold ChatService.processMessage, bind, liftOutcome.
  rewrite V, G.
  unfold prisma.message_create at 1. rewrite P.
  unfold ChatService.getConversationHistory, bind, prisma.message_findMany, ret.
  cbn [conversations messages nextId].
  unfold prisma.message_create. cbn [conversations messages nextId]. rewrite P.
  unfold prisma.conversation_update. cbn [conversations messages nextId]. rewrite P.
  unfold responseFor, storeAfter, replyText, llmOutcome, historyRead, aiRow, userRow.
  cbn [Message.id]. rewrite <- app_assoc. reflexivity.
Qed.

Lemma processMessage_unresolved (st : Store) (e : string) (st1 : Store) :
  ChatService.validateMessage (ChatRequest.message request) = Returns tt ->
  ChatService.getOrCreateConversation env (ChatRequest.sessionId request) st
  = (Throws e, st1) ->
  ChatService.processMessage self env request st = (Throws e, st1).
Proof.
  intros V G. unfold ChatService.processMessage, bind, liftOutcome.
  now rewrite V, G.
Qed.

Lemma processMessage_ran (st : Store) (o : outcome ChatResponse.t) (st' : Store) :
  ChatService.processMessage self env request st = (o, st') ->
  Ran self env request st o st'.
Proof.
  intro H.
  destruct (ChatService.validateMessage (ChatRequest.message request)) as [[]|e] eqn:V.
  - destruct (ChatService.getOrCreateConversation env (ChatRequest.sessionId request) st)
      as [[c|e] st1] eqn:G.
    + rewrite (processMessage_resolved st c st1 V G) in H.
      injection H as <- <-. apply RanThrough; [exact V|].
      now apply getOrCreateConversation_inv.
    + rewrite (processMessage_unresolved st e st1 V G) in H.
      injection H as <- <-. apply RanUnresolved; [exact V|].
      now apply getOrCreateConversation_inv.
  - rewrite (processMessage_invalid self env request st e V) in H.
    injection H as <- <-. now apply RanInvalid.
Qed.

End Run.

(* ------------------------------------------------------------------ *)
(** ** Session resolution (C1) *)

Section Sessions.

Lemma find_none_existsb {A : Type} (p : A -> bool) (l : list A) :
  find p l = None -> existsb p l = false.
Proof.
  induction l as [|x r IH]; simpl; [reflexivity|].
  destruct (p x); [discriminate | exact IH].
Qed.

Lemma find_app_new {A : Type} (p : A -> bool) (l : list A) (x : A) :
  existsb p l = false -> p x = true -> find p (l ++ [x]) = Some x.
Proof.
  induction l as [|y r IH]; simpl; intros E P.
  - now rewrite P.
  - apply orb_false_iff in E as [Ey Er]. rewrite Ey. now apply IH.
Qed.

Lemma touch_id i now c : Conversation.id (touch i now c) = Conversation.id c.
Proof. unfold touch. now destruct (prisma.hasId i c). Qed.

Lemma touch_sessionId i now c :
  Conversation.sessionId (touch i now c) = Conversation.sessionId c.
Proof. unfold touch. now destruct (prisma.hasId i c). Qed.

Lemma map_touch_ids i now l :
  map Conversation.id (map (touch i now) l) = map Conversation.id l.
Proof. rewrite map_map. apply map_ext. intro c. apply touch_id. Qed.

Lemma map_touch_sessionIds i now l :
  map Conversation.sessionId (map (touch i now) l) = map Conversation.sessionId l.
Proof. rewrite map_map. apply map_ext. intro c. apply touch_sessionId. Qed.

Lemma find_map_touch s i now l :
  find (prisma.hasSessionId s) (map (touch i now) l)
  = option_map (touch i now) (find (prisma.hasSessionId s) l).
Proof.
  induction l as [|c r IH]; simpl; [reflexivity|].
  unfold prisma.hasSessionId at 1 3. rewrite touch_sessionId.
  destruct (String.eqb (Conversation.sessionId c) s); [reflexivity | exact IH].
Qed.

Lemma getOrCreateConversation_reuse env sessionId st c :
  matching sessionId st = Some c ->
  ChatService.getOrCreateConversation env sessionId st = (Returns c, st).
Proof.
  intro M.
  pose proof (getOrCreateConversation_resolved env sessionId st) as R.
  destruct (ChatService.getOrCreateConversation env sessionId st) as [o st1].
  simpl in R. inversion R; subst; congruence.
Qed.

Lemma getOrCreateConversation_create env sessionId st :
  matching sessionId st = None ->
  existsb (prisma.hasSessionId (ChatService.newSessionId env sessionId))
          (conversations st) = false ->
  ChatService.getOrCreateConversation env sessionId st
  = (Returns (createdConversation env sessionId st),
     {| conversations := conversations st ++ [createdConversation env sessionId st];
        messages := messages st;
        nextId := S (nextId st) |}).
Proof.
  intros M E.
  pose proof (getOrCreateConversation_resolved env sessionId st) as R.
  destruct (ChatService.getOrCreateConversation env sessionId st) as [o st1].
  simpl in R. inversion R; subst; congruence.
Qed.

(** After a resolution that returned [c], the session identifier of [c] is
    a usable key and looks [c] up. *)
Lemma Resolved_lookup env sessionId st c st1 :
  Resolved env sessionId st (Returns c) st1 ->
  matching (Some (Conversation.sessionId c)) st1 = Some c.
Proof.
  intro R. inversion R; subst.
  - destruct (matching_sessionId _ _ _ H0) as (E & T & _).
    rewrite <- E. exact H0.
  - cbn [matching createdConversation Conversation.sessionId conversations].
    rewrite newSessionId_truthy.
    apply find_app_new; [assumption|].
    unfold prisma.hasSessionId. apply String.eqb_refl.
Qed.

Lemma storeAfter_lookup self env request c st1 :
  matching (Some (Conversation.sessionId c)) st1 = Some c ->
  matching (Some (Conversation.sessionId c)) (storeAfter self env request c st1)
  = Some (touch (Conversation.id c) (timeTouch env) c).
Proof.
  cbn [matching storeAfter conversations].
  destruct (Js.truthy (Conversation.sessionId c)); [|discriminate].
  intro F. now rewrite find_map_touch, F.
Qed.

End Sessions.

(** C1, as the claim states it, fails: with the unknown session identifier
    abc on an empty store, the conversation that is created carries abc,
    the identifier the caller supplied, and not the minted one. *)
Lemma C1_supplied_unknown_session_counterexample :
  matching (Some "abc") emptyStore = None
  /\ map Conversation.sessionId
       (conversations
          (snd (ChatService.processMessage sampleService sampleEnv
                  {| ChatRequest.message := "hello";
                     ChatRequest.sessionId := Some "abc" |} emptyStore)))
     = ["abc"]
  /\ option_map ChatResponse.sessionId
       (returned
          (fst (ChatService.processMessage sampleService sampleEnv
                  {| ChatRequest.message := "hello";
                     ChatRequest.sessionId := Some "abc" |} emptyStore)))
     = Some "abc"
  /\ ChatService.mintSessionId sampleEnv = "session_1735516800000_k3x9q0abz"
  /\ "abc" <> ChatService.mintSessionId sampleEnv.
Proof.
  split; [reflexivity|].
  split; [vm_compute; reflexivity|].
  split; [vm_compute; reflexivity|].
  split; [vm_compute; reflexivity|].
  vm_compute. discriminate.
Qed.

(** C1 (amended): for every call of [processMessage] with an acceptable
    text, (a) a supplied session identifier that matches an existing
    conversation reuses it: no conversation is created and its identifier
    is returned; (b) a supplied (non-empty) session identifier that matches
    none creates a conversation carrying that caller-supplied identifier;
    (c) with no (or an empty) session identifier a conversation is created
    under the minted identifier session_<time>_<random>, when no
    conversation holds it yet; (d) a second call with the session
    identifier a first call returned returns the same conversation
    identifier. *)
Theorem C1_session_resolution (self : ChatService.t) (env : Env)
    (request : ChatRequest.t) (st : Store) :
  ChatService.validateMessage (ChatRequest.message request) = Returns tt ->
  (forall sid c,
      ChatRequest.sessionId request = Some sid ->
      Js.truthy sid = true ->
      find (prisma.hasSessionId sid) (conversations st) = Some c ->
      exists resp st',
        ChatService.processMessage self env request st = (Returns resp, st')
        /\ ChatResponse.conversationId resp = Conversation.id c
        /\ ChatResponse.sessionId resp = sid
        /\ map Conversation.id (conversations st') = map Conversation.id (conversations st)
        /\ map Conversation.sessionId (conversations st')
           = map Conversation.sessionId (conversations st))
  /\ (forall sid,
        ChatRequest.sessionId request = Some sid ->
        Js.truthy sid = true ->
        find (prisma.hasSessionId sid) (conversations st) = None ->
        exists resp st',
          ChatService.processMessage self env request st = (Returns resp, st')
          /\ ChatResponse.sessionId resp = sid
          /\ map Conversation.id (conversations st')
             = map Conversation.id (conversations st) ++ [ChatResponse.conversationId resp]
          /\ map Conversation.sessionId (conversations st')
             = map Conversation.sessionId (conversations st) ++ [sid])
  /\ (Js.truthyOpt (ChatRequest.sessionId request) = false ->
      find (prisma.hasSessionId (ChatService.mintSessionId env)) (conversations st) = None ->
      exists resp st',
        ChatService.processMessage self env request st = (Returns resp, st')
        /\ ChatResponse.sessionId resp = ChatService.mintSessionId env
        /\ map Conversation.id (conversations st')
           = map Conversation.id (conversations st) ++ [ChatResponse.conversationId resp]
        /\ map Conversation.sessionId (conversations st')
           = map Conversation.sessionId (conversations st) ++ [ChatService.mintSessionId env])
  /\ (forall resp st',
        ChatService.processMessage self env request st = (Returns resp, st') ->
        forall self2 env2 message2,
          ChatService.validateMessage message2 = Returns tt ->
          exists resp2 st2,
            ChatService.processMessage self2 env2
              {| ChatRequest.message := message2;
                 ChatRequest.sessionId := Some (ChatResponse.sessionId resp) |} st'
            = (Returns resp2, st2)
            /\ ChatResponse.conversationId resp2 = ChatResponse.conversationId resp
            /\ ChatResponse.sessionId resp2 = ChatResponse.sessionId resp).
Proof.
  intro V.
  assert (New : forall s,
             matching (ChatRequest.sessionId request) st = None ->
             ChatService.newSessionId env (ChatRequest.sessionId request) = s ->
             find (prisma.hasSessionId s) (conversations st) = None ->
             exists resp st',
               ChatService.processMessage self env request st = (Returns resp, st')
               /\ ChatResponse.sessionId resp = s
               /\ map Conversation.id (conversations st')
                  = map Conversation.id (conversations st) ++ [ChatResponse.conversationId resp]
               /\ map Conversation.sessionId (conversations st')
                  = map Conversation.sessionId (conversations st) ++ [s]).
  { intros s M N F. apply find_none_existsb in F. rewrite <- N in F.
    pose proof (getOrCreateConversation_create env _ st M F) as G.
    eexists. eexists. split.
    - apply (processMessage_resolved self env request st _ _ V G).
    - cbn [responseFor storeAfter ChatResponse.sessionId ChatResponse.conversationId
             conversations createdConversation Conversation.sessionId Conversation.id].
      rewrite map_touch_ids, map_touch_sessionIds, !map_app.
      subst s. repeat split. }
  split; [| split; [| split]].
  - intros sid c S T F.
    assert (M : matching (ChatRequest.sessionId request) st = Some c)
      by (rewrite S; simpl; now rewrite T).
    pose proof (getOrCreateConversation_reuse env _ st c M) as G.
    destruct (matching_sessionId _ _ _ M) as (E & _ & _).
    eexists. eexists. split.
    + apply (processMessage_resolved self env request st _ _ V G).
    + cbn [responseFor storeAfter ChatResponse.sessionId ChatResponse.conversationId
             conversations].
      rewrite map_touch_ids, map_touch_sessionIds.
      repeat split. congruence.
  - intros sid S T F. apply New; [| | exact F].
    + rewrite S. simpl. now rewrite T.
    + rewrite S. simpl. now rewrite T.
  - intros T F. apply New; [| | exact F].
    + destruct (ChatRequest.sessionId request) as [s|]; [|reflexivity].
      simpl in *. now rewrite T.
    + destruct (ChatRequest.sessionId request) as [s|]; [|reflexivity].
      simpl in *. now rewrite T.
  - intros resp st' H self2 env2 message2 V2.
    apply processMessage_ran in H. inversion H as [| |c st1 _ R]; subst.
    pose proof (storeAfter_lookup self env request c st1 (Resolved_lookup _ _ _ _ _ R)) as M.
    pose proof (getOrCreateConversation_reuse env2 _ _ _ M) as G.
    eexists. eexists. split.
    + apply (processMessage_resolved self2 env2
               {| ChatRequest.message := message2;
                  ChatRequest.sessionId := Some (Conversation.sessionId c) |}
               _ _ _ V2 G).
    + cbn [responseFor ChatResponse.sessionId ChatResponse.conversationId].
      now rewrite touch_id, touch_sessionId.
Qed.

Lemma C1_session_resolution_witness :
  (exists resp st',
      ChatService.processMessage sampleService sampleEnv
        (helloRequest (Some "session_1735516800000_k3x9q0abz")) storeAfterHello
      = (Returns resp, st')
      /\ ChatResponse.conversationId resp = 0
      /\ ChatResponse.sessionId resp = "session_1735516800000_k3x9q0abz"
      /\ map Conversation.id (conversations st')
         = map Conversation.id (conversations storeAfterHello)
      /\ map Conversation.sessionId (conversations st')
         = map Conversation.sessionId (conversations storeAfterHello))
  /\ (exists resp st',
        ChatService.processMessage sampleService sampleEnv
          (helloRequest (Some "abc")) emptyStore
        = (Returns resp, st')
        /\ ChatResponse.sessionId resp = "abc"
        /\ map Conversation.id (conversations st')
           = map Conversation.id (conversations emptyStore)
               ++ [ChatResponse.conversationId resp]
        /\ map Conversation.sessionId (conversations st')
           = map Conversation.sessionId (conversations emptyStore) ++ ["abc"])
  /\ (exists resp st',
        ChatService.processMessage sampleService sampleEnv (helloRequest None) emptyStore
        = (Returns resp, st')
        /\ ChatResponse.sessionId resp = ChatService.mintSessionId sampleEnv
        /\ map Conversation.id (conversations st')
           = map Conversation.id (conversations emptyStore)
               ++ [ChatResponse.conversationId resp]
        /\ map Conversation.sessionId (conversations st')
           = map Conversation.sessionId (conversations emptyStore)
               ++ [ChatService.mintSessionId sampleEnv]).
Proof.
  split; [| split].
  - apply (proj1 (C1_session_resolution sampleService sampleEnv
                    (helloRequest (Some "session_1735516800000_k3x9q0abz"))
                    storeAfterHello eq_refl)
             "session_1735516800000_k3x9q0abz" helloConversation).
    + reflexivity.
    + reflexivity.
    + vm_compute. reflexivity.
  - apply (proj1 (proj2 (C1_session_resolution sampleService sampleEnv
                           (helloRequest (Some "abc")) emptyStore eq_refl))
             "abc").
    + reflexivity.
    + reflexivity.
    + reflexivity.
  - apply (proj1 (proj2 (proj2 (C1_session_resolution sampleService sampleEnv
                                  (helloRequest None) emptyStore eq_refl)))).
    + reflexivity.
    + reflexivity.
Defined.

(* ------------------------------------------------------------------ *)
(** ** The fallback reply (C3) *)

(** C3: for every acceptable input whose conversation is resolved, if the
    call of the model throws, whatever the error, [processMessage] returns
    (the error does not reach the caller), the reply is the fixed fallback
    string, and the store gains exactly two messages of the conversation:
    the USER message with the text, then the AI message whose text is the
    fallback string and whose identifier is the returned message
    identifier. *)
Theorem C3_llm_failure_fallback (self : ChatService.t) (env : Env)
    (request : ChatRequest.t) (st : Store) (c : Conversation.t) (st1 : Store)
    (e : string) :
  ChatService.validateMessage (ChatRequest.message request) = Returns tt ->
  ChatService.getOrCreateConversation env (ChatRequest.sessionId request) st
  = (Returns c, st1) ->
  LLMService.generateReply env (ChatService.llmService self)
    (ChatRequest.message request) (historyRead env request c st1) = Throws e ->
  exists resp st' u a,
    ChatService.processMessage self env request st = (Returns resp, st')
    /\ ChatResponse.reply resp = ChatService.fallbackReply
    /\ ChatResponse.reply resp <> e
    /\ messages st' = messages st ++ [u; a]
    /\ List.length (messages st') = List.length (messages st) + 2
    /\ Message.sender u = USER
    /\ Message.text u = ChatRequest.message request
    /\ Message.sender a = AI
    /\ Message.text a = ChatService.fallbackReply
    /\ Message.conversationId u = ChatResponse.conversationId resp
    /\ Message.conversationId a = ChatResponse.conversationId resp
    /\ Message.id a = ChatResponse.messageId resp.
Proof.
  intros V G L.
  pose proof (Resolved_messages env _ _ _ _ (getOrCreateConversation_inv env _ _ _ _ G)) as M.
  exists (responseFor self env request c st1), (storeAfter self env request c st1),
         (userRow env request c st1), (aiRow self env request c st1).
  assert (R : replyText self env request c st1 = ChatService.fallbackReply).
  { unfold replyText, llmOutcome. now rewrite L. }
  split; [now apply processMessage_resolved|].
  cbn [responseFor storeAfter messages ChatResponse.reply ChatResponse.conversationId
         ChatResponse.messageId userRow aiRow Message.sender Message.text
         Message.conversationId Message.id].
  rewrite R, M.
  repeat split.
  - destruct (generateReply_throws_three _ _ _ _ _ L) as [-> | [-> | ->]]; discriminate.
  - rewrite length_app. reflexivity.
Qed.

Lemma C3_llm_failure_fallback_witness :
  exists resp st' u a,
    ChatService.processMessage sampleService llmDownEnv (helloRequest None) emptyStore
    = (Returns resp, st')
    /\ ChatResponse.reply resp = ChatService.fallbackReply
    /\ ChatResponse.reply resp <> LLMService.genericMessage
    /\ messages st' = messages emptyStore ++ [u; a]
    /\ List.length (messages st') = List.length (messages emptyStore) + 2
    /\ Message.sender u = USER
    /\ Message.text u = ChatRequest.message (helloRequest None)
    /\ Message.sender a = AI
    /\ Message.text a = ChatService.fallbackReply
    /\ Message.conversationId u = ChatResponse.conversationId resp
    /\ Message.conversationId a = ChatResponse.conversationId resp
    /\ Message.id a = ChatResponse.messageId resp.
Proof.
  apply (C3_llm_failure_fallback sampleService llmDownEnv (helloRequest None) emptyStore
           (createdConversation llmDownEnv None emptyStore)
           {| conversations := [createdConversation llmDownEnv None emptyStore];
              messages := [];
              nextId := 1 |}
           LLMService.genericMessage).
  - reflexivity.
  - reflexivity.
  - vm_compute. reflexivity.
Defined.

(* ------------------------------------------------------------------ *)
(** ** The frame of a successful call (C9) *)

Lemma touch_onlyTouched (owner : Id) (now : N) (c : Conversation.t) :
  onlyTouched owner now c (touch owner now c).
Proof.
  unfold onlyTouched, touch, prisma.hasId.
  destruct (Nat.eqb_spec (Conversation.id c) owner) as [E|NE]; simpl;
    repeat split; auto; intro; congruence.
Qed.

Lemma map_touch_onlyTouched (owner : Id) (now : N) (l : list Conversation.t) :
  Forall2 (onlyTouched owner now) l (map (touch owner now) l).
Proof.
  induction l as [|c r IH]; simpl; constructor; auto using touch_onlyTouched.
Qed.

(** C9: a successful call keeps every existing conversation row in place
    and changes nothing in it but [updatedAt], and that only in the
    conversation of the request; it adds at most one conversation row, the
    conversation of the request; it keeps every existing message as it is
    and adds exactly two, a USER message and then an AI message, both of
    the conversation of the request. *)
Theorem C9_frame_of_success (self : ChatService.t) (env : Env)
    (request : ChatRequest.t) (st st' : Store) (resp : ChatResponse.t) :
  ChatService.processMessage self env request st = (Returns resp, st') ->
  exists kept created u a,
    conversations st' = kept ++ created
    /\ Forall2 (onlyTouched (ChatResponse.conversationId resp) (timeTouch env))
               (conversations st) kept
    /\ List.length created <= 1
    /\ Forall (fun c => Conversation.id c = ChatResponse.conversationId resp
                        /\ Conversation.sessionId c = ChatResponse.sessionId resp)
              created
    /\ messages st' = messages st ++ [u; a]
    /\ Message.sender u = USER
    /\ Message.text u = ChatRequest.message request
    /\ Message.conversationId u = ChatResponse.conversationId resp
    /\ Message.sender a = AI
    /\ Message.text a = ChatResponse.reply resp
    /\ Message.conversationId a = ChatResponse.conversationId resp
    /\ Message.id a = ChatResponse.messageId resp.
Proof.
  intro H. apply processMessage_ran in H.
  inversion H as [| |c st1 V R]; subst.
  pose proof (Resolved_messages env _ _ _ _ R) as M.
  assert (K : exists kept created,
             map (touch (Conversation.id c) (timeTouch env)) (conversations st1)
             = kept ++ created
             /\ Forall2 (onlyTouched (Conversation.id c) (timeTouch env))
                        (conversations st) kept
             /\ List.length created <= 1
             /\ Forall (fun x => Conversation.id x = Conversation.id c
                                 /\ Conversation.sessionId x = Conversation.sessionId c)
                       created).
  { inversion R; subst.
    - exists (map (touch (Conversation.id c) (timeTouch env)) (conversations st1)), [].
      rewrite app_nil_r. repeat split; auto using map_touch_onlyTouched.
    - cbn [conversations]. rewrite map_app.
      eexists. eexists. split; [reflexivity|].
      split; [apply map_touch_onlyTouched|].
      split; [simpl; lia|].
      constructor; [|constructor].
      now rewrite touch_id, touch_sessionId. }
  destruct K as (kept & created & E & F & Len & New).
  exists kept, created, (userRow env request c st1), (aiRow self env request c st1).
  cbn [responseFor storeAfter conversations messages ChatResponse.reply
         ChatResponse.sessionId ChatResponse.conversationId ChatResponse.messageId
         userRow aiRow Message.sender Message.text Message.conversationId Message.id].
  rewrite M. repeat split; assumption.
Qed.

Lemma C9_frame_of_success_witness :
  exists kept created u a,
    conversations
      (snd (ChatService.processMessage sampleService sampleEnv
              (helloRequest (Some "abc")) storeAfterHello))
    = kept ++ created
    /\ Forall2 (onlyTouched 3 (timeTouch sampleEnv)) (conversations storeAfterHello) kept
    /\ List.length created <= 1
    /\ Forall (fun c => Conversation.id c = 3 /\ Conversation.sessionId c = "abc") created
    /\ messages
         (snd (ChatService.processMessage sampleService sampleEnv
                 (helloRequest (Some "abc")) storeAfterHello))
       = messages storeAfterHello ++ [u; a]
    /\ Message.sender u = USER
    /\ Message.text u = "hello"
    /\ Message.conversationId u = 3
    /\ Message.sender a = AI
    /\ Message.text a = "We ship in 3-5 business days."
    /\ Message.conversationId a = 3
    /\ Message.id a = 5.
Proof.
  apply (C9_frame_of_success sampleService sampleEnv (helloRequest (Some "abc"))
           storeAfterHello
           (snd (ChatService.processMessage sampleService sampleEnv
                   (helloRequest (Some "abc")) storeAfterHello))
           {| ChatResponse.reply := "We ship in 3-5 business days.";
              ChatResponse.sessionId := "abc";
              ChatResponse.messageId := 5;
              ChatResponse.conversationId := 3 |}).
  vm_compute. reflexivity.
Defined.

(* ------------------------------------------------------------------ *)
(** ** Session identifiers are unique (C8) *)

Section Uniqueness.

Lemma sessionsKept_refl (st : Store) : sessionsKept st st.
Proof. exists []. now rewrite app_nil_r. Qed.

Lemma existsb_hasSessionId_In (s : string) (l : list Conversation.t) :
  existsb (prisma.hasSessionId s) l = false ->
  ~ In s (map Conversation.sessionId l).
Proof.
  intros E I. apply in_map_iff in I as (c & <- & I).
  assert (T : existsb (prisma.hasSessionId (Conversation.sessionId c)) l = true).
  { apply existsb_exists. exists c. split; [exact I|].
    unfold prisma.hasSessionId. apply String.eqb_refl. }
  congruence.
Qed.

Lemma Resolved_unique env sessionId st o st1 :
  Resolved env sessionId st o st1 ->
  uniqueSessions st -> uniqueSessions st1 /\ sessionsKept st st1.
Proof.
  intros R U. inversion R; subst.
  - split; [exact U | apply sessionsKept_refl].
  - split.
    + unfold uniqueSessions. cbn [conversations]. rewrite map_app.
      apply NoDup_app; [exact U | |].
      * simpl. constructor; [intros [] | constructor].
      * intros s I [<-|[]]. revert I. now apply existsb_hasSessionId_In.
    + unfold sessionsKept. cbn [conversations]. rewrite map_app. eexists. reflexivity.
  - split; [exact U | apply sessionsKept_refl].
Qed.

Lemma storeAfter_sessions self env request c st1 :
  map (fun x => (Conversation.id x, Conversation.sessionId x))
      (conversations (storeAfter self env request c st1))
  = map (fun x => (Conversation.id x, Conversation.sessionId x)) (conversations st1).
Proof.
  cbn [storeAfter conversations]. rewrite map_map. apply map_ext.
  intro x. now rewrite touch_id, touch_sessionId.
Qed.

Lemma Ran_unique self env request st o st' :
  Ran self env request st o st' ->
  uniqueSessions st -> uniqueSessions st' /\ sessionsKept st st'.
Proof.
  intros R U. inversion R as [e V | e st1 V Rs | c st1 V Rs]; subst.
  - split; [exact U | apply sessionsKept_refl].
  - now apply (Resolved_unique _ _ _ _ _ Rs).
  - destruct (Resolved_unique _ _ _ _ _ Rs U) as [U1 K1]. split.
    + unfold uniqueSessions. cbn [storeAfter conversations].
      now rewrite map_touch_sessionIds.
    + unfold sessionsKept. now rewrite storeAfter_sessions.
Qed.

Lemma getConversation_store (sessionId : string) (st : Store) :
  snd (ChatService.getConversation sessionId st) = st.
Proof.
  unfold ChatService.getConversation, bind, prisma.conversation_findUnique, ret.
  now destruct (find (prisma.hasSessionId sessionId) (conversations st)).
Qed.

(** The message route leaves the store alone or runs [processMessage]. *)
Lemma postMessage_store self env body st :
  snd (Routes.postMessage self env body st) = st
  \/ exists request,
       snd (Routes.postMessage self env body st)
       = snd (ChatService.processMessage self env request st).
Proof.
  unfold Routes.postMessage, Routes.postMessageWith.
  destruct (ValidationMiddleware.validateMessage body) as [res|body']; [now left|].
  unfold ChatController.sendMessage.
  destruct (Body.message body') as [|message|]; [now left| |now left].
  destruct (negb (Js.truthy message)); [now left|].
  destruct (String.length (Js.trim message) =? 0); [now left|].
  right.
  exists {| ChatRequest.message := Js.trim message;
            ChatRequest.sessionId := Body.sessionId body' |}.
  destruct (ChatService.processMessage self env _ st) as [[r|e] st1]; reflexivity.
Qed.

Lemma operation_preserves (op : Operation) (st : Store) :
  uniqueSessions st ->
  uniqueSessions (storeAfterOperation op st)
  /\ sessionsKept st (storeAfterOperation op st).
Proof.
  intro U.
  assert (P : forall self env request,
             uniqueSessions (snd (ChatService.processMessage self env request st))
             /\ sessionsKept st (snd (ChatService.processMessage self env request st))).
  { intros self env request.
    destruct (ChatService.processMessage self env request st) as [o st'] eqn:E.
    apply processMessage_ran in E. now apply (Ran_unique _ _ _ _ _ _ E). }
  destruct op as [self env body | sid | env | self env request | env sid];
    cbn [storeAfterOperation].
  - destruct (postMessage_store self env body st) as [-> | [request ->]];
      [split; [exact U | apply sessionsKept_refl] | apply P].
  - rewrite getConversation_store. split; [exact U | apply sessionsKept_refl].
  - split; [exact U | apply sessionsKept_refl].
  - apply P.
  - now apply (Resolved_unique env sid st _ _ (getOrCreateConversation_resolved env sid st)).
Qed.

End Uniqueness.

(** C8: every operation preserves the invariant that a session identifier
    belongs to at most one conversation, and keeps every existing
    conversation under its identifier and session identifier; in
    particular [getOrCreateConversation] leaves the store as it is when the
    supplied session identifier already has a conversation. *)
Theorem C8_session_unique_invariant (op : Operation) (st : Store) :
  uniqueSessions st ->
  uniqueSessions (storeAfterOperation op st)
  /\ sessionsKept st (storeAfterOperation op st)
  /\ (forall env sessionId c,
        op = GetOrCreateConversation env sessionId ->
        matching sessionId st = Some c ->
        storeAfterOperation op st = st).
Proof.
  intro U. destruct (operation_preserves op st U) as [U' K].
  split; [exact U' | split; [exact K |]].
  intros env sessionId c -> M. cbn [storeAfterOperation].
  now rewrite (getOrCreateConversation_reuse env sessionId st c M).
Qed.

(** The invariant holds in every store reached from the empty one. *)
Corollary uniqueSessions_reachable (ops : list Operation) :
  uniqueSessions (fold_left (fun st op => storeAfterOperation op st) ops emptyStore).
Proof.
  assert (G : forall st, uniqueSessions st ->
              uniqueSessions (fold_left (fun st op => storeAfterOperation op st) ops st)).
  { induction ops as [|op r IH]; intros st U; simpl; [exact U|].
    apply IH. now apply operation_preserves. }
  apply G. constructor.
Qed.

Lemma C8_session_unique_invariant_witness :
  uniqueSessions
    (storeAfterOperation
       (GetOrCreateConversation sampleEnv (Some "session_1735516800000_k3x9q0abz"))
       storeAfterHello)
  /\ sessionsKept storeAfterHello
       (storeAfterOperation
          (GetOrCreateConversation sampleEnv (Some "session_1735516800000_k3x9q0abz"))
          storeAfterHello)
  /\ storeAfterOperation
       (GetOrCreateConversation sampleEnv (Some "session_1735516800000_k3x9q0abz"))
       storeAfterHello
     = storeAfterHello.
Proof.
  assert (U : uniqueSessions storeAfterHello).
  { unfold uniqueSessions. vm_compute.
    constructor; [intros [] | constructor]. }
  destruct (C8_session_unique_invariant
              (GetOrCreateConversation sampleEnv (Some "session_1735516800000_k3x9q0abz"))
              storeAfterHello U) as (A & B & C).
  split; [exact A | split; [exact B |]].
  apply (C sampleEnv (Some "session_1735516800000_k3x9q0abz") helloConversation eq_refl).
  vm_compute. reflexivity.
Defined.

(* ------------------------------------------------------------------ *)
(** ** The history read back for the prompt (C2) *)

Section History.

Lemma getConversationHistory_eq (cid : Id) (st : Store) :
  ChatService.getConversationHistory cid st
  = (Returns
       (map ChatService.toHistory
          (firstn 10
             (prisma.orderByCreatedAtAsc
                (filter (prisma.ofConversation cid) (messages st))))),
     st).
Proof. reflexivity. Qed.

(** The history never has more than ten entries. *)
Lemma history_at_most_ten (cid : Id) (st : Store) (h : list MessageHistory.t) :
  fst (ChatService.getConversationHistory cid st) = Returns h ->
  List.length h <= 10.
Proof.
  rewrite getConversationHistory_eq. cbn [fst].
  set (l := prisma.orderByCreatedAtAsc _).
  assert (L : List.length (firstn 10 l) <= 10)
    by (rewrite length_firstn; apply Nat.le_min_l).
  revert L. generalize (firstn 10 l). intros f L H.
  injection H as <-. now rewrite length_map.
Qed.

Lemma orderByCreatedAtAsc_sorted (l : list Message.t) :
  Sorted byCreatedAt l -> prisma.orderByCreatedAtAsc l = l.
Proof.
  induction 1 as [|m r S IH Hd]; [reflexivity|].
  change (prisma.insertByCreatedAt m (prisma.orderByCreatedAtAsc r) = m :: r).
  rewrite IH.
  destruct Hd as [|x r' Hx]; simpl; [reflexivity|].
  unfold byCreatedAt in Hx. apply N.leb_le in Hx. now rewrite Hx.
Qed.

Lemma filter_strongly_sorted (p : Message.t -> bool) (l : list Message.t) :
  StronglySorted byCreatedAt l ->
  StronglySorted byCreatedAt (filter p l).
Proof.
  induction 1 as [|m r S IH F]; simpl; [constructor|].
  destruct (p m); [|exact IH].
  constructor; [exact IH|].
  apply Forall_forall. intros x I. apply filter_In in I as [I _].
  rewrite Forall_forall in F. now apply F.
Qed.

(** With rows written at non-decreasing times, the history is the first
    ten messages of the conversation, the oldest ones. *)
Lemma history_is_oldest_ten (cid : Id) (st : Store) :
  StronglySorted byCreatedAt (messages st) ->
  fst (ChatService.getConversationHistory cid st)
  = Returns (map ChatService.toHistory
               (firstn 10 (filter (prisma.ofConversation cid) (messages st)))).
Proof.
  intro S. rewrite getConversationHistory_eq. cbn [fst].
  rewrite orderByCreatedAtAsc_sorted; [reflexivity|].
  apply StronglySorted_Sorted. now apply filter_strongly_sorted.
Qed.

End History.

(** C2 at a failing input: a conversation that already holds ten messages
    (five exchanges).  On the sixth request the history handed to the
    prompt builder is the ten oldest messages; the question just stored is
    not in it, and after the call the ten most recent messages of the
    conversation are a different list. *)
Theorem C2_history_keeps_oldest_ten :
  ChatService.getOrCreateConversation (envAt 5) (Some "s1") fiveExchanges
  = (Returns conversationS1, fiveExchanges)
  /\ map MessageHistory.text
       (historyRead (envAt 5) (questionAt 5) conversationS1 fiveExchanges)
     = ["question 0"; "answer 0"; "question 1"; "answer 1"; "question 2";
        "answer 2"; "question 3"; "answer 3"; "question 4"; "answer 4"]
  /\ map Message.text
       (filter (prisma.ofConversation 0) (messages sixExchanges))
     = ["question 0"; "answer 0"; "question 1"; "answer 1"; "question 2";
        "answer 2"; "question 3"; "answer 3"; "question 4"; "answer 4";
        "question 5"; "answer 5"]
  /\ option_map (map MessageHistory.text)
       (returned (fst (ChatService.getConversationHistory 0 sixExchanges)))
     = Some ["question 0"; "answer 0"; "question 1"; "answer 1"; "question 2";
             "answer 2"; "question 3"; "answer 3"; "question 4"; "answer 4"]
  /\ map Message.text
       (lastEntries 10 (filter (prisma.ofConversation 0) (messages sixExchanges)))
     = ["question 1"; "answer 1"; "question 2"; "answer 2"; "question 3";
        "answer 3"; "question 4"; "answer 4"; "question 5"; "answer 5"].
Proof.
  split; [vm_compute; reflexivity|].
  split; [vm_compute; reflexivity|].
  split; [vm_compute; reflexivity|].
  split; [vm_compute; reflexivity|].
  vm_compute; reflexivity.
Qed.

(* ------------------------------------------------------------------ *)
(** ** What the message route stores (C10) *)

Section Sanitizing.

Lemma hasChar_append (c : ascii) (a b : string) :
  hasChar c (a ++ b) = hasChar c a || hasChar c b.
Proof.
  induction a as [|d t IH]; simpl; [reflexivity|].
  now rewrite IH, orb_assoc.
Qed.

Lemma hasChar_replaceAll_same (c : ascii) (by_ s : string) :
  hasChar c by_ = false -> hasChar c (Js.replaceAll c by_ s) = false.
Proof.
  intro B. induction s as [|d t IH]; simpl; [reflexivity|].
  destruct (Ascii.eqb d c) eqn:E.
  - now rewrite hasChar_append, B, IH.
  - simpl. now rewrite E, IH.
Qed.

Lemma hasChar_replaceAll_other (d c : ascii) (by_ s : string) :
  hasChar d by_ = false -> hasChar d s = false ->
  hasChar d (Js.replaceAll c by_ s) = false.
Proof.
  intro B. induction s as [|x t IH]; simpl; [reflexivity|].
  intro H. apply orb_false_iff in H as [Hx Ht].
  destruct (Ascii.eqb x c).
  - now rewrite hasChar_append, B, IH.
  - simpl. now rewrite Hx, IH.
Qed.

Lemma hasChar_firstChars (c : ascii) (n : nat) (s : string) :
  hasChar c s = false -> hasChar c (firstChars n s) = false.
Proof.
  unfold firstChars. revert n.
  induction s as [|d t IH]; intros [|n] H; simpl in *; try reflexivity.
  apply orb_false_iff in H as [Hd Ht]. now rewrite Hd, IH.
Qed.

Lemma hasChar_substring0 (c : ascii) (n : nat) (s : string) :
  hasChar c s = false -> hasChar c (Js.substring0 n s) = false.
Proof. rewrite substring0_firstChars. apply hasChar_firstChars. Qed.

Lemma hasChar_trimStart (c : ascii) (s : string) :
  hasChar c s = false -> hasChar c (Js.trimStart s) = false.
Proof.
  induction s as [|d t IH]; simpl; [reflexivity|].
  intro H. destruct (Js.isWhiteSpace d); [|exact H].
  apply orb_false_iff in H as [_ Ht]. now apply IH.
Qed.

Lemma hasChar_trimEnd (c : ascii) (s : string) :
  hasChar c s = false -> hasChar c (Js.trimEnd s) = false.
Proof.
  induction s as [|d t IH]; simpl; [reflexivity|].
  intro H. apply orb_false_iff in H as [Hd Ht]. specialize (IH Ht).
  destruct (Js.trimEnd t) as [|e r].
  - destruct (Js.isWhiteSpace d); simpl; [reflexivity | now rewrite Hd].
  - simpl in *. now rewrite Hd, IH.
Qed.

Lemma hasChar_trim (c : ascii) (s : string) :
  hasChar c s = false -> hasChar c (Js.trim s) = false.
Proof. intro H. unfold Js.trim. now apply hasChar_trimEnd, hasChar_trimStart. Qed.

Lemma hasChar_trimmedMessage (c : ascii) (s : string) :
  hasChar c "..." = false -> hasChar c s = false ->
  hasChar c (LLMService.trimmedMessage s) = false.
Proof.
  intros D H. unfold LLMService.trimmedMessage.
  destruct (2000 <? String.length s); [|exact H].
  now rewrite hasChar_append, hasChar_substring0, D.
Qed.

Lemma hasChar_differs (c : ascii) (s m : string) :
  hasChar c s = false -> hasChar c m = true -> s <> m.
Proof. intros Hs Hm E. subst. congruence. Qed.

(** Neither angle bracket survives the replacements, capped or not. *)
Lemma sanitizeUncapped_clean (s : string) :
  hasChar "<" (ValidationMiddleware.sanitizeUncapped s) = false
  /\ hasChar ">" (ValidationMiddleware.sanitizeUncapped s) = false.
Proof.
  unfold ValidationMiddleware.sanitizeUncapped. split.
  - apply hasChar_replaceAll_other; [reflexivity|].
    now apply hasChar_replaceAll_same.
  - now apply hasChar_replaceAll_same.
Qed.

Lemma sanitize_clean (s : string) :
  hasChar "<" (ValidationMiddleware.sanitize s) = false
  /\ hasChar ">" (ValidationMiddleware.sanitize s) = false.
Proof.
  destruct (sanitizeUncapped_clean s) as [L G].
  unfold ValidationMiddleware.sanitize. split; now apply hasChar_substring0.
Qed.

Lemma statusCode_not_200 (e : string) : ChatController.statusCode e <> 200.
Proof.
  unfold ChatController.statusCode.
  destruct (Js.includes e "cannot be empty" || Js.includes e "too long"
            || Js.includes e "invalid content"); discriminate.
Qed.

(** A request answered with 200 went through the middleware and the
    controller, and [processMessage] returned on the text the chain of
    the middleware produced, trimmed once more by the controller. *)
Lemma postMessageWith_ok (chain : string -> string) self env body m st resp st' :
  Body.message body = JsString m ->
  Routes.postMessageWith (ValidationMiddleware.validateMessageWith chain)
    self env body st = (resp, st') ->
  Response.status resp = 200 ->
  exists result,
    ChatService.processMessage self env
      {| ChatRequest.message := Js.trim (chain (Js.trim m));
         ChatRequest.sessionId := Body.sessionId body |} st
    = (Returns result, st').
Proof.
  intros B H S.
  unfold Routes.postMessageWith, ValidationMiddleware.validateMessageWith in H.
  rewrite B in H.
  destruct (negb (Js.truthy m));
    [injection H as <- <-; discriminate|].
  destruct (String.length (Js.trim m) =? 0);
    [injection H as <- <-; discriminate|].
  destruct (5000 <? String.length (Js.trim m));
    [injection H as <- <-; discriminate|].
  unfold ChatController.sendMessage in H. cbn [Body.message Body.sessionId] in H.
  destruct (negb (Js.truthy (chain (Js.trim m))));
    [injection H as <- <-; discriminate|].
  destruct (String.length (Js.trim (chain (Js.trim m))) =? 0);
    [injection H as <- <-; discriminate|].
  destruct (ChatService.processMessage self env _ st) as [[result|e] st1].
  - injection H as <- <-. now exists result.
  - injection H as <- <-. cbn [Response.failed Response.status] in S.
    now apply statusCode_not_200 in S.
Qed.

(** The messages a returned [processMessage] leaves behind. *)
Lemma processMessage_messages self env request st result st' :
  ChatService.processMessage self env request st = (Returns result, st') ->
  exists u a,
    messages st' = messages st ++ [u; a]
    /\ Message.sender u = USER
    /\ Message.text u = ChatRequest.message request
    /\ Message.sender a = AI
    /\ Message.text a = ChatResponse.reply result.
Proof.
  intro H. apply processMessage_ran in H.
  inversion H as [| |c st1 V R]; subst.
  exists (userRow env request c st1), (aiRow self env request c st1).
  cbn [storeAfter messages]. rewrite (Resolved_messages env _ _ _ _ R).
  repeat split.
Qed.

End Sanitizing.

Section StoredText.

Variable chain : string -> string.
Hypothesis chain_clean :
  forall s, hasChar "<" (chain s) = false /\ hasChar ">" (chain s) = false.

(** Whatever sanitising chain without angle brackets the middleware applies,
    a request answered with 200 stored a USER text without them. *)
Lemma stored_text_clean self env body m st resp st' :
  Body.message body = JsString m ->
  hasChar "<" m = true \/ hasChar ">" m = true ->
  Routes.postMessageWith (ValidationMiddleware.validateMessageWith chain)
    self env body st = (resp, st') ->
  Response.status resp = 200 ->
  exists u a,
    messages st' = messages st ++ [u; a]
    /\ Message.sender u = USER
    /\ Message.text u = Js.trim (chain (Js.trim m))
    /\ Message.text u <> m
    /\ hasChar "<" (Message.text u) = false
    /\ hasChar ">" (Message.text u) = false
    /\ hasChar "<" (LLMService.trimmedMessage (Message.text u)) = false
    /\ hasChar ">" (LLMService.trimmedMessage (Message.text u)) = false
    /\ LLMService.trimmedMessage (Message.text u) <> m.
Proof.
  intros B A H S.
  destruct (postMessageWith_ok chain _ _ _ _ _ _ _ B H S) as [result P].
  destruct (processMessage_messages _ _ _ _ _ _ P) as (u & a & M & Su & Tu & _ & _).
  cbn [ChatRequest.message] in Tu.
  destruct (chain_clean (Js.trim m)) as [L G].
  assert (L' : hasChar "<" (Message.text u) = false)
    by (rewrite Tu; now apply hasChar_trim).
  assert (G' : hasChar ">" (Message.text u) = false)
    by (rewrite Tu; now apply hasChar_trim).
  assert (L'' : hasChar "<" (LLMService.trimmedMessage (Message.text u)) = false)
    by now apply hasChar_trimmedMessage.
  assert (G'' : hasChar ">" (LLMService.trimmedMessage (Message.text u)) = false)
    by now apply hasChar_trimmedMessage.
  exists u, a. repeat split; try assumption.
  - destruct A as [A|A]; [exact (hasChar_differs _ _ _ L' A) | exact (hasChar_differs _ _ _ G' A)].
  - destruct A as [A|A]; [exact (hasChar_differs _ _ _ L'' A) | exact (hasChar_differs _ _ _ G'' A)].
Qed.

End StoredText.

(** The same holds for the variant of the middleware without the cap. *)
Lemma stored_text_uncapped self env body m st resp st' :
  Body.message body = JsString m ->
  hasChar "<" m = true \/ hasChar ">" m = true ->
  Routes.postMessageWith ValidationMiddleware.validateMessageUncapped
    self env body st = (resp, st') ->
  Response.status resp = 200 ->
  exists u a,
    messages st' = messages st ++ [u; a]
    /\ Message.sender u = USER
    /\ Message.text u = Js.trim (ValidationMiddleware.sanitizeUncapped (Js.trim m))
    /\ Message.text u <> m.
Proof.
  intros B A H S.
  destruct (stored_text_clean _ sanitizeUncapped_clean _ _ _ _ _ _ _ B A H S)
    as (u & a & M & Su & Tu & D & _).
  now exists u, a.
Qed.

(** C10: on the message route the text handed to [processMessage] is the
    client text trimmed, with every < replaced by &lt; and every > by &gt;,
    cut to 5000 characters (and trimmed once more by the controller); so
    for every request whose text contains < or > and that is answered with
    200, the USER message stored, and the question put in the prompt, hold
    none of the two characters and differ from what the client sent. *)
Theorem C10_route_stores_sanitized_text (self : ChatService.t) (env : Env)
    (body : Body.t) (m : string) (st st' : Store) (resp : Response.t) :
  Body.message body = JsString m ->
  hasChar "<" m = true \/ hasChar ">" m = true ->
  Routes.postMessage self env body st = (resp, st') ->
  Response.status resp = 200 ->
  exists u a,
    messages st' = messages st ++ [u; a]
    /\ Message.sender u = USER
    /\ Message.text u
       = Js.trim (Js.substring0 5000
                    (Js.replaceAll ">" "&gt;" (Js.replaceAll "<" "&lt;" (Js.trim m))))
    /\ Message.text u <> m
    /\ hasChar "<" (Message.text u) = false
    /\ hasChar ">" (Message.text u) = false
    /\ hasChar "<" (LLMService.trimmedMessage (Message.text u)) = false
    /\ hasChar ">" (LLMService.trimmedMessage (Message.text u)) = false
    /\ LLMService.trimmedMessage (Message.text u) <> m.
Proof.
  intros B A H S.
  exact (stored_text_clean ValidationMiddleware.sanitize sanitize_clean
           self env body m st resp st' B A H S).
Qed.

Lemma C10_route_stores_sanitized_text_witness :
  exists u a,
    messages (snd (Routes.postMessage sampleService sampleEnv boldBody emptyStore))
    = messages emptyStore ++ [u; a]
    /\ Message.sender u = USER
    /\ Message.text u
       = Js.trim (Js.substring0 5000
                    (Js.replaceAll ">" "&gt;"
                       (Js.replaceAll "<" "&lt;" (Js.trim " <b>hi</b> "))))
    /\ Message.text u <> " <b>hi</b> "
    /\ hasChar "<" (Message.text u) = false
    /\ hasChar ">" (Message.text u) = false
    /\ hasChar "<" (LLMService.trimmedMessage (Message.text u)) = false
    /\ hasChar ">" (LLMService.trimmedMessage (Message.text u)) = false
    /\ LLMService.trimmedMessage (Message.text u) <> " <b>hi</b> ".
Proof.
  apply (C10_route_stores_sanitized_text sampleService sampleEnv boldBody
           " <b>hi</b> " emptyStore
           (snd (Routes.postMessage sampleService sampleEnv boldBody emptyStore))
           (fst (Routes.postMessage sampleService sampleEnv boldBody emptyStore))).
  - reflexivity.
  - left. reflexivity.
  - apply surjective_pairing.
  - vm_compute. reflexivity.
Defined.

Example boldBody_stored :
  map Message.text
    (messages (snd (Routes.postMessage sampleService sampleEnv boldBody emptyStore)))
  = ["&lt;b&gt;hi&lt;/b&gt;"; "We ship in 3-5 business days."].
Proof. vm_compute. reflexivity. Qed.

(* ================================================================== *)
(** * Further properties of the services *)

(* ------------------------------------------------------------------ *)
(** ** What a call returns and what a failed call leaves *)

Section Replies.

(** A reply of the model reaches the caller only as a non-empty text that
    the backend resolved with, for a service configured for Gemini. *)
Lemma generateReply_returns (env : Env) (self : LLMService.t)
    (userMessage : string) (history : list MessageHistory.t) (r : LLMResponse.t) :
  LLMService.generateReply env self userMessage history = Returns r ->
  Js.truthy (LLMResponse.content r) = true
  /\ LLMService.provider self = "gemini"
  /\ exists client,
       LLMService.geminiClient self = Some client
       /\ generateContent env client (LLMService.geminiModel self)
            (LLMService.buildPrompt history (LLMService.trimmedMessage userMessage))
          = GeminiResolves (Some (LLMResponse.content r)).
Proof.
  unfold LLMService.generateReply.
  destruct (LLMService.generateReply_try env self userMessage history) as [r'|e] eqn:T;
    [|discriminate].
  intro H. injection H as <-.
  unfold LLMService.generateReply_try in T.
  destruct (negb (Js.truthy userMessage) || (String.length (Js.trim userMessage) =? 0));
    [discriminate|].
  destruct (String.eqb_spec (LLMService.provider self) "gemini") as [P|P];
    [|discriminate].
  unfold LLMService.generateWithGemini in T.
  destruct (LLMService.geminiClient self) as [client|]; [|discriminate].
  destruct (generateContent env client (LLMService.geminiModel self) _)
    as [e|[txt|]] eqn:G; try discriminate.
  destruct (Js.truthy txt) eqn:Tt; [|discriminate].
  injection T as <-. cbn [LLMResponse.content].
  split; [exact Tt | split; [exact P |]].
  exists client. split; [reflexivity | exact G].
Qed.

Lemma fallbackReply_truthy : Js.truthy ChatService.fallbackReply = true.
Proof. reflexivity. Qed.

Lemma truthy_nonempty (s : string) : Js.truthy s = true <-> s <> "".
Proof.
  unfold Js.truthy. destruct (String.eqb_spec s ""); simpl; split; intro H;
    congruence.
Qed.


End Replies.

(** X1: the reply of a call that returned is never empty: it is either the
    fallback string or a non-empty text the backend resolved with. *)
Theorem processMessage_reply_nonempty (self : ChatService.t) (env : Env)
    (request : ChatRequest.t) (st st' : Store) (resp : ChatResponse.t) :
  ChatService.processMessage self env request st = (Returns resp, st') ->
  ChatResponse.reply resp <> ""
  /\ (ChatResponse.reply resp = ChatService.fallbackReply
      \/ exists client model prompt,
           generateContent env client model prompt
           = GeminiResolves (Some (ChatResponse.reply resp))).
Proof.
  intro H. apply processMessage_ran in H.
  inversion H as [| |c st1 V R]; subst.
  cbn [responseFor ChatResponse.reply]. unfold replyText, llmOutcome.
  destruct (LLMService.generateReply env (ChatService.llmService self)
              (ChatRequest.message request) (historyRead env request c st1))
    as [r|e] eqn:G; cbn [ChatService.replyOrFallback].
  - destruct (generateReply_returns _ _ _ _ _ G) as (T & _ & client & _ & A).
    split; [now apply truthy_nonempty|].
    right. eauto.
  - split; [discriminate | now left].
Qed.

Lemma processMessage_reply_nonempty_witness :
  ChatResponse.reply
    {| ChatResponse.reply := "We ship in 3-5 business days.";
       ChatResponse.sessionId := "abc";
       ChatResponse.messageId := 2;
       ChatResponse.conversationId := 0 |} <> "".
Proof.
  apply (processMessage_reply_nonempty sampleService sampleEnv
           (helloRequest (Some "abc")) emptyStore
           (snd (ChatService.processMessage sampleService sampleEnv
                   (helloRequest (Some "abc")) emptyStore))).
  vm_compute. reflexivity.
Defined.




(** X3: when the text is accepted, the conversation resolved and the
    backend resolves with a non-empty text, that text is returned as the
    reply, unchanged, and stored as the AI message after the USER
    message. *)
Theorem processMessage_returns_model_text (self : ChatService.t) (env : Env)
    (request : ChatRequest.t) (st : Store) (c : Conversation.t) (st1 : Store)
    (client : GoogleGenAI) (txt : string) :
  ChatService.validateMessage (ChatRequest.message request) = Returns tt ->
  ChatService.getOrCreateConversation env (ChatRequest.sessionId request) st
  = (Returns c, st1) ->
  LLMService.provider (ChatService.llmService self) = "gemini" ->
  LLMService.geminiClient (ChatService.llmService self) = Some client ->
  generateContent env client (LLMService.geminiModel (ChatService.llmService self))
    (LLMService.buildPrompt (historyRead env request c st1)
       (LLMService.trimmedMessage (ChatRequest.message request)))
  = GeminiResolves (Some txt) ->
  txt <> "" ->
  exists resp st' u a,
    ChatService.processMessage self env request st = (Returns resp, st')
    /\ ChatResponse.reply resp = txt
    /\ messages st' = messages st ++ [u; a]
    /\ Message.sender u = USER
    /\ Message.text u = ChatRequest.message request
    /\ Message.sender a = AI
    /\ Message.text a = txt
    /\ Message.id a = ChatResponse.messageId resp.
Proof.
  intros V G P C A N.
  pose proof (Resolved_messages env _ _ _ _ (getOrCreateConversation_inv env _ _ _ _ G)) as M.
  assert (W : whitespaceOnly (ChatRequest.message request) = false)
    by now apply validateMessage_ok_iff in V.
  assert (R : replyText self env request c st1 = txt).
  { unfold replyText, llmOutcome, LLMService.generateReply.
    rewrite (generateReply_try_gemini _ _ _ _ P W).
    unfold LLMService.generateWithGemini. rewrite C, A.
    apply truthy_nonempty in N. now rewrite N. }
  exists (responseFor self env request c st1), (storeAfter self env request c st1),
         (userRow env request c st1), (aiRow self env request c st1).
  split; [now apply processMessage_resolved|].
  cbn [responseFor storeAfter messages ChatResponse.reply ChatResponse.messageId
         userRow aiRow Message.sender Message.text Message.id].
  rewrite R, M. repeat split.
Qed.

Lemma processMessage_returns_model_text_witness :
  exists resp st' u a,
    ChatService.processMessage sampleService sampleEnv (helloRequest None) emptyStore
    = (Returns resp, st')
    /\ ChatResponse.reply resp = "We ship in 3-5 business days."
    /\ messages st' = messages emptyStore ++ [u; a]
    /\ Message.sender u = USER
    /\ Message.text u = "hello"
    /\ Message.sender a = AI
    /\ Message.text a = "We ship in 3-5 business days."
    /\ Message.id a = ChatResponse.messageId resp.
Proof.
  apply (processMessage_returns_model_text sampleService sampleEnv (helloRequest None)
           emptyStore (createdConversation sampleEnv None emptyStore)
           {| conversations := [createdConversation sampleEnv None emptyStore];
              messages := [];
              nextId := 1 |}
           {| apiKey := "test-key" |} "We ship in 3-5 business days.").
  - reflexivity.
  - reflexivity.
  - reflexivity.
  - reflexivity.
  - reflexivity.
  - discriminate.
Defined.

(* ------------------------------------------------------------------ *)
(** ** Reading messages back *)

Section ReadingBack.

Lemma insertByCreatedAt_perm (m : Message.t) (l : list Message.t) :
  Permutation (prisma.insertByCreatedAt m l) (m :: l).
Proof.
  induction l as [|x r IH]; simpl; [apply Permutation_refl|].
  destruct (Message.createdAt m <=? Message.createdAt x)%N.
  - apply Permutation_refl.
  - eapply perm_trans; [apply perm_skip, IH | apply perm_swap].
Qed.

Lemma orderByCreatedAtAsc_perm (l : list Message.t) :
  Permutation (prisma.orderByCreatedAtAsc l) l.
Proof.
  induction l as [|m r IH]; [apply Permutation_refl|].
  change (Permutation (prisma.insertByCreatedAt m (prisma.orderByCreatedAtAsc r)) (m :: r)).
  eapply perm_trans; [apply insertByCreatedAt_perm | now apply perm_skip].
Qed.

Lemma insertByCreatedAt_sorted (m : Message.t) (l : list Message.t) :
  Sorted byCreatedAt l -> Sorted byCreatedAt (prisma.insertByCreatedAt m l).
Proof.
  induction 1 as [|x r S IH Hd]; simpl.
  - repeat constructor.
  - destruct (Message.createdAt m <=? Message.createdAt x)%N eqn:E.
    + constructor; [now constructor|].
      constructor. unfold byCreatedAt. now apply N.leb_le.
    + apply N.leb_gt in E. constructor; [exact IH|].
      destruct Hd as [|y r' Hy]; simpl.
      * constructor. unfold byCreatedAt. now apply N.lt_le_incl.
      * destruct (Message.createdAt m <=? Message.createdAt y)%N;
          constructor; unfold byCreatedAt in *; [now apply N.lt_le_incl | exact Hy].
Qed.

Lemma orderByCreatedAtAsc_is_sorted (l : list Message.t) :
  Sorted byCreatedAt (prisma.orderByCreatedAtAsc l).
Proof.
  induction l as [|m r IH]; [constructor|].
  change (Sorted byCreatedAt
            (prisma.insertByCreatedAt m (prisma.orderByCreatedAtAsc r))).
  now apply insertByCreatedAt_sorted.
Qed.

Lemma firstn_sorted {A : Type} (R : A -> A -> Prop) (n : nat) (l : list A) :
  Sorted R l -> Sorted R (firstn n l).
Proof.
  revert l. induction n as [|n IH]; intros l S; [constructor|].
  destruct S as [|x r S Hd]; simpl; [constructor|].
  constructor; [now apply IH|].
  destruct Hd as [|y r' Hy]; [destruct n; constructor|].
  destruct n; simpl; now constructor.
Qed.

Lemma toHistory_sorted (l : list Message.t) :
  Sorted byCreatedAt l -> Sorted historyByCreatedAt (map ChatService.toHistory l).
Proof.
  induction 1 as [|x r S IH Hd]; simpl; constructor; [exact IH|].
  destruct Hd as [|y r' Hy]; simpl; constructor. exact Hy.
Qed.

Lemma firstn_In {A : Type} (n : nat) (l : list A) (x : A) :
  In x (firstn n l) -> In x l.
Proof.
  intro H. rewrite <- (firstn_skipn n l). apply in_or_app. now left.
Qed.

End ReadingBack.

(** X4: the history read for a conversation has at most ten entries, every
    entry is a message of that conversation in the store (never one of
    another conversation), the entries are in ascending order of creation
    time, and reading it does not change the store. *)
Theorem getConversationHistory_isolated (cid : Id) (st : Store) :
  exists h,
    ChatService.getConversationHistory cid st = (Returns h, st)
    /\ List.length h <= 10
    /\ (forall x, In x h ->
          exists m, In m (messages st)
                    /\ Message.conversationId m = cid
                    /\ x = ChatService.toHistory m)
    /\ Sorted historyByCreatedAt h.
Proof.
  eexists. split; [apply getConversationHistory_eq|].
  split; [| split].
  - rewrite length_map, length_firstn. apply Nat.le_min_l.
  - intros x I. apply in_map_iff in I as (m & <- & I).
    apply firstn_In in I.
    apply (Permutation_in _ (orderByCreatedAtAsc_perm _)) in I.
    apply filter_In in I as [I C].
    exists m. repeat split; [exact I|].
    unfold prisma.ofConversation in C. now apply Nat.eqb_eq in C.
  - apply toHistory_sorted, firstn_sorted, orderByCreatedAtAsc_is_sorted.
Qed.

Lemma getConversation_cases (sessionId : string) (st : Store) :
  snd (ChatService.getConversation sessionId st) = st
  /\ ((fst (ChatService.getConversation sessionId st) = Returns None
       /\ forall c, In c (conversations st) -> Conversation.sessionId c <> sessionId)
      \/ exists c msgs,
           fst (ChatService.getConversation sessionId st) = Returns (Some (c, msgs))
           /\ In c (conversations st)
           /\ Conversation.sessionId c = sessionId
           /\ (forall m, In m msgs <->
                         In m (messages st)
                         /\ Message.conversationId m = Conversation.id c)
           /\ Permutation msgs
                (filter (prisma.ofConversation (Conversation.id c)) (messages st))
           /\ Sorted byCreatedAt msgs).
Proof.
  split; [apply getConversation_store|].
  unfold ChatService.getConversation, bind, prisma.conversation_findUnique, ret.
  destruct (find (prisma.hasSessionId sessionId) (conversations st)) as [c|] eqn:F.
  - right. apply find_some in F as [I E].
    unfold prisma.hasSessionId in E. apply String.eqb_eq in E.
    eexists. eexists. split; [reflexivity|].
    split; [exact I | split; [exact E |]].
    split; [| split].
    + intro m. split.
      * intro H. apply (Permutation_in _ (orderByCreatedAtAsc_perm _)) in H.
        apply filter_In in H as [H C]. split; [exact H|].
        unfold prisma.ofConversation in C. now apply Nat.eqb_eq in C.
      * intros [H C].
        apply (Permutation_in _ (Permutation_sym (orderByCreatedAtAsc_perm _))).
        apply filter_In. split; [exact H|].
        unfold prisma.ofConversation. now apply Nat.eqb_eq.
    + apply orderByCreatedAtAsc_perm.
    + apply orderByCreatedAtAsc_is_sorted.
  - left. split; [reflexivity|].
    intros c I E.
    pose proof (find_none _ _ F c I) as N.
    unfold prisma.hasSessionId in N. rewrite E, String.eqb_refl in N. discriminate.
Qed.

(** X5: looking a conversation up by session identifier never changes the
    store; it finds nothing exactly when no conversation carries the
    identifier; what it finds carries the identifier, and comes with all
    the messages of that conversation and no others, in ascending order of
    creation time. *)
Theorem getConversation_result (sessionId : string) (st : Store) :
  snd (ChatService.getConversation sessionId st) = st
  /\ ((fst (ChatService.getConversation sessionId st) = Returns None
       /\ forall c, In c (conversations st) -> Conversation.sessionId c <> sessionId)
      \/ exists c msgs,
           fst (ChatService.getConversation sessionId st) = Returns (Some (c, msgs))
           /\ In c (conversations st)
           /\ Conversation.sessionId c = sessionId
           /\ (forall m, In m msgs <->
                         In m (messages st)
                         /\ Message.conversationId m = Conversation.id c)
           /\ Permutation msgs
                (filter (prisma.ofConversation (Conversation.id c)) (messages st))
           /\ Sorted byCreatedAt msgs).
Proof. exact (getConversation_cases sessionId st). Qed.

Lemma processMessage_lookup (self : ChatService.t) (env : Env)
    (request : ChatRequest.t) (st st' : Store) (resp : ChatResponse.t) :
  ChatService.processMessage self env request st = (Returns resp, st') ->
  exists c msgs u a,
    ChatService.getConversation (ChatResponse.sessionId resp) st'
    = (Returns (Some (c, msgs)), st')
    /\ Conversation.id c = ChatResponse.conversationId resp
    /\ Conversation.sessionId c = ChatResponse.sessionId resp
    /\ In u msgs /\ In a msgs
    /\ Message.sender u = USER
    /\ Message.text u = ChatRequest.message request
    /\ Message.sender a = AI
    /\ Message.text a = ChatResponse.reply resp
    /\ Message.id a = ChatResponse.messageId resp.
Proof.
  intro H. apply processMessage_ran in H.
  inversion H as [| |c st1 V R]; subst.
  pose proof (storeAfter_lookup self env request c st1 (Resolved_lookup _ _ _ _ _ R)) as M.
  cbn [matching] in M. rewrite (proj1 (proj2 (matching_sessionId _ _ _
                                   (Resolved_lookup _ _ _ _ _ R)))) in M.
  cbn [responseFor ChatResponse.sessionId ChatResponse.conversationId
         ChatResponse.reply ChatResponse.messageId].
  unfold ChatService.getConversation, bind, prisma.conversation_findUnique, ret.
  rewrite M.
  eexists. eexists.
  exists (userRow env request c st1), (aiRow self env request c st1).
  split; [reflexivity|].
  rewrite touch_id, touch_sessionId.
  assert (I : forall m, In m [userRow env request c st1; aiRow self env request c st1] ->
              Message.conversationId m = Conversation.id c ->
              In m (prisma.orderByCreatedAtAsc
                      (filter (prisma.ofConversation (Conversation.id c))
                              (messages (storeAfter self env request c st1))))).
  { intros m Im Cm.
    apply (Permutation_in _ (Permutation_sym (orderByCreatedAtAsc_perm _))).
    apply filter_In. split.
    - cbn [storeAfter messages]. apply in_or_app. now right.
    - unfold prisma.ofConversation. now apply Nat.eqb_eq. }
  repeat split.
  - apply I; [now left | reflexivity].
  - apply I; [right; now left | reflexivity].
Qed.

(** X6: the session identifier a call returned looks up, right after the
    call, the conversation whose identifier the call returned, together
    with the USER message of the request and the AI message of the
    reply. *)
Theorem processMessage_then_getConversation (self : ChatService.t) (env : Env)
    (request : ChatRequest.t) (st st' : Store) (resp : ChatResponse.t) :
  ChatService.processMessage self env request st = (Returns resp, st') ->
  exists c msgs u a,
    ChatService.getConversation (ChatResponse.sessionId resp) st'
    = (Returns (Some (c, msgs)), st')
    /\ Conversation.id c = ChatResponse.conversationId resp
    /\ Conversation.sessionId c = ChatResponse.sessionId resp
    /\ In u msgs /\ In a msgs
    /\ Message.sender u = USER
    /\ Message.text u = ChatRequest.message request
    /\ Message.sender a = AI
    /\ Message.text a = ChatResponse.reply resp
    /\ Message.id a = ChatResponse.messageId resp.
Proof. exact (processMessage_lookup self env request st st' resp). Qed.

Lemma processMessage_then_getConversation_witness :
  exists c msgs u a,
    ChatService.getConversation "abc"
      (snd (ChatService.processMessage sampleService sampleEnv
              (helloRequest (Some "abc")) emptyStore))
    = (Returns (Some (c, msgs)),
       snd (ChatService.processMessage sampleService sampleEnv
              (helloRequest (Some "abc")) emptyStore))
    /\ Conversation.id c = 0
    /\ Conversation.sessionId c = "abc"
    /\ In u msgs /\ In a msgs
    /\ Message.sender u = USER
    /\ Message.text u = "hello"
    /\ Message.sender a = AI
    /\ Message.text a = "We ship in 3-5 business days."
    /\ Message.id a = 2.
Proof.
  apply (processMessage_then_getConversation sampleService sampleEnv
           (helloRequest (Some "abc")) emptyStore
           (snd (ChatService.processMessage sampleService sampleEnv
                   (helloRequest (Some "abc")) emptyStore))
           {| ChatResponse.reply := "We ship in 3-5 business days.";
              ChatResponse.sessionId := "abc";
              ChatResponse.messageId := 2;
              ChatResponse.conversationId := 0 |}).
  vm_compute. reflexivity.
Defined.

(* ------------------------------------------------------------------ *)
(** ** The question just stored and the history *)

Section NewQuestion.

Lemma strongly_sorted_snoc {A : Type} (R : A -> A -> Prop) (l : list A) (u : A) :
  StronglySorted R l -> Forall (fun x => R x u) l -> StronglySorted R (l ++ [u]).
Proof.
  induction 1 as [|x r S IH F]; simpl; intro B.
  - repeat constructor.
  - inversion B as [|? ? Bx Br]; subst.
    constructor; [now apply IH|].
    apply Forall_app. split; [exact F | now constructor].
Qed.

Lemma message_create_inv now cid s txt st u st2 :
  prisma.message_create now cid s txt st = (Returns u, st2) ->
  messages st2 = messages st ++ [u]
  /\ conversations st2 = conversations st
  /\ Message.conversationId u = cid
  /\ Message.sender u = s
  /\ Message.text u = txt
  /\ Message.createdAt u = now.
Proof.
  unfold prisma.message_create.
  destruct (existsb (prisma.hasId cid) (conversations st)); [|discriminate].
  intro H. injection H as <- <-. repeat split.
Qed.

End NewQuestion.

(** X7: with the messages of a conversation stored at non-decreasing times,
    none later than the new USER message, the history read right after
    storing that message is the first ten of the old messages followed by
    the new one: with fewer than ten old messages it is the whole
    transcript ending with the new question, and with ten or more it is
    the ten oldest messages, without the new question. *)
Theorem history_after_user_message (now : N) (cid : Id) (txt : string)
    (st st2 : Store) (u : Message.t) :
  prisma.message_create now cid USER txt st = (Returns u, st2) ->
  StronglySorted byCreatedAt (filter (prisma.ofConversation cid) (messages st)) ->
  Forall (fun m => (Message.createdAt m <= now)%N)
         (filter (prisma.ofConversation cid) (messages st)) ->
  fst (ChatService.getConversationHistory cid st2)
  = Returns (map ChatService.toHistory
               (firstn 10 (filter (prisma.ofConversation cid) (messages st) ++ [u])))
  /\ (List.length (filter (prisma.ofConversation cid) (messages st)) < 10 ->
      fst (ChatService.getConversationHistory cid st2)
      = Returns (map ChatService.toHistory
                   (filter (prisma.ofConversation cid) (messages st))
                 ++ [ChatService.toHistory u]))
  /\ (10 <= List.length (filter (prisma.ofConversation cid) (messages st)) ->
      fst (ChatService.getConversationHistory cid st2)
      = Returns (map ChatService.toHistory
                   (firstn 10 (filter (prisma.ofConversation cid) (messages st))))).
Proof.
  intros C S B.
  destruct (message_create_inv _ _ _ _ _ _ _ C) as (M & _ & Cu & _ & _ & Tu).
  set (old := filter (prisma.ofConversation cid) (messages st)) in *.
  assert (E : fst (ChatService.getConversationHistory cid st2)
              = Returns (map ChatService.toHistory (firstn 10 (old ++ [u])))).
  { rewrite getConversationHistory_eq. cbn [fst]. rewrite M, filter_app.
    cbn [filter]. unfold prisma.ofConversation at 2. rewrite Cu, Nat.eqb_refl.
    fold old. rewrite orderByCreatedAtAsc_sorted; [reflexivity|].
    apply StronglySorted_Sorted, strongly_sorted_snoc; [exact S|].
    unfold byCreatedAt. now rewrite Tu. }
  split; [exact E | split].
  - intro L. rewrite E. rewrite firstn_all2.
    + now rewrite map_app.
    + rewrite length_app. simpl. lia.
  - intro L. rewrite E. rewrite firstn_app.
    replace (10 - List.length old) with 0 by lia.
    now rewrite firstn_O, app_nil_r.
Qed.

Lemma history_after_user_message_witness :
  fst (ChatService.getConversationHistory 0
         (snd (prisma.message_create 1735516800009%N 0 USER "and for Canada?"
                 storeAfterHello)))
  = Returns (map ChatService.toHistory
               (filter (prisma.ofConversation 0) (messages storeAfterHello))
             ++ [ChatService.toHistory
                   {| Message.id := 3;
                      Message.conversationId := 0;
                      Message.sender := USER;
                      Message.text := "and for Canada?";
                      Message.createdAt := 1735516800009%N |}]).
Proof.
  refine (proj1 (proj2 (history_after_user_message 1735516800009%N 0 "and for Canada?"
                         storeAfterHello
                         (snd (prisma.message_create 1735516800009%N 0 USER
                                 "and for Canada?" storeAfterHello))
                         {| Message.id := 3;
                            Message.conversationId := 0;
                            Message.sender := USER;
                            Message.text := "and for Canada?";
                            Message.createdAt := 1735516800009%N |}
                         _ _ _)) _).
  - vm_compute. reflexivity.
  - match goal with
    | |- StronglySorted ?R ?l =>
        let l' := eval vm_compute in l in change (StronglySorted R l')
    end.
    repeat constructor; cbv; discriminate.
  - match goal with
    | |- Forall ?P ?l =>
        let l' := eval vm_compute in l in change (Forall P l')
    end.
    repeat constructor; cbv; discriminate.
  - apply Nat.ltb_lt. vm_compute. reflexivity.
Defined.

(* ------------------------------------------------------------------ *)
(** ** The answers of the message controller *)

Section ControllerAnswers.

Lemma statusCode_cases (e : string) :
  (ChatController.statusCode e = 400
   /\ (ChatController.getErrorCode e = "EMPTY_MESSAGE"
       \/ ChatController.getErrorCode e = "MESSAGE_TOO_LONG"
       \/ ChatController.getErrorCode e = "INVALID_CONTENT"))
  \/ (ChatController.statusCode e = 500
      /\ (ChatController.getErrorCode e = "SERVICE_UNAVAILABLE"
          \/ ChatController.getErrorCode e = "RATE_LIMITED"
          \/ ChatController.getErrorCode e = "AUTH_ERROR"
          \/ ChatController.getErrorCode e = "INTERNAL_ERROR")).
Proof.
  unfold ChatController.statusCode, ChatController.getErrorCode.
  destruct (Js.includes e "cannot be empty"); simpl; [left; auto|].
  destruct (Js.includes e "too long"); simpl; [left; auto|].
  destruct (Js.includes e "invalid content"); simpl; [left; auto|].
  right. split; [reflexivity|].
  destruct (Js.includes e "unavailable"); auto.
  destruct (Js.includes e "Rate limit"); auto.
  destruct (Js.includes e "Authentication"); auto.
Qed.

End ControllerAnswers.

(** X8: the status and the code the message controller derives from an
    error message agree: the status is 400 exactly when the code is one of
    EMPTY_MESSAGE, MESSAGE_TOO_LONG and INVALID_CONTENT, and it is 500
    otherwise. *)
Theorem statusCode_agrees_with_getErrorCode (e : string) :
  (ChatController.statusCode e = 400 <->
   ChatController.getErrorCode e = "EMPTY_MESSAGE"
   \/ ChatController.getErrorCode e = "MESSAGE_TOO_LONG"
   \/ ChatController.getErrorCode e = "INVALID_CONTENT")
  /\ (ChatController.statusCode e <> 400 -> ChatController.statusCode e = 500).
Proof.
  destruct (statusCode_cases e) as [[S C] | [S C]]; rewrite S.
  - split; [split; auto | congruence].
  - split; [| reflexivity].
    split; [discriminate|].
    intros [H | [H | H]]; destruct C as [C | [C | [C | C]]];
      rewrite C in H; discriminate.
Qed.

Lemma statusCode_agrees_with_getErrorCode_witness :
  ChatController.statusCode "Unique constraint failed on the fields: (sessionId)" = 500.
Proof.
  apply (proj2 (statusCode_agrees_with_getErrorCode
                  "Unique constraint failed on the fields: (sessionId)")).
  vm_compute. discriminate.
Defined.




(* ------------------------------------------------------------------ *)
(** ** More facts about trimming and replacing *)

Section Trimming.

Lemma headOk_trimStart (s : string) : headOk (Js.trimStart s) = true.
Proof.
  induction s as [|c t IH]; simpl; [reflexivity|].
  destruct (Js.isWhiteSpace c) eqn:E; [exact IH | simpl; now rewrite E].
Qed.

Lemma trimStart_headOk (s : string) : headOk s = true -> Js.trimStart s = s.
Proof.
  destruct s as [|c t]; simpl; [reflexivity|].
  intro H. apply negb_true_iff in H. now rewrite H.
Qed.

Lemma headOk_trimEnd (s : string) : headOk s = true -> headOk (Js.trimEnd s) = true.
Proof.
  destruct s as [|c t]; simpl; [reflexivity|].
  intro H. destruct (Js.trimEnd t); [|exact H].
  apply negb_true_iff in H. rewrite H. simpl. now rewrite H.
Qed.

Lemma trimEnd_idem (s : string) : Js.trimEnd (Js.trimEnd s) = Js.trimEnd s.
Proof.
  induction s as [|c t IH]; simpl; [reflexivity|].
  destruct (Js.trimEnd t) as [|e r] eqn:E.
  - destruct (Js.isWhiteSpace c) eqn:W; simpl; [reflexivity | now rewrite W].
  - change (Js.trimEnd (String c (String e r)) = String c (String e r)).
    cbn [Js.trimEnd]. cbn [Js.trimEnd] in IH. now rewrite IH.
Qed.

Lemma trim_headOk (s : string) : headOk (Js.trim s) = true.
Proof. unfold Js.trim. apply headOk_trimEnd, headOk_trimStart. Qed.

Lemma trimEnd_trim (s : string) : Js.trimEnd (Js.trim s) = Js.trim s.
Proof. unfold Js.trim. apply trimEnd_idem. Qed.

(** A string with visible ends is its own trim. *)
Lemma trim_tight (s : string) :
  headOk s = true -> Js.trimEnd s = s -> Js.trim s = s.
Proof. intros H E. unfold Js.trim. now rewrite trimStart_headOk. Qed.

Lemma trim_idem (s : string) : Js.trim (Js.trim s) = Js.trim s.
Proof. apply trim_tight; [apply trim_headOk | apply trimEnd_trim]. Qed.

Lemma whitespaceOnly_trim (s : string) :
  whitespaceOnly (Js.trim s) = whitespaceOnly s.
Proof.
  rewrite <- (trim_length_eqb (Js.trim s)), trim_idem. apply trim_length_eqb.
Qed.

Lemma startsVisible_not_blank (s : string) :
  startsVisible s = true -> whitespaceOnly s = false.
Proof.
  destruct s as [|c t]; simpl; [discriminate|].
  intro H. apply negb_true_iff in H. now rewrite H.
Qed.

Lemma headOk_nonempty_visible (s : string) :
  headOk s = true -> s <> "" -> startsVisible s = true.
Proof. destruct s; simpl; [congruence | auto]. Qed.

Lemma length_trimStart_le (s : string) :
  String.length (Js.trimStart s) <= String.length s.
Proof.
  induction s as [|c t IH]; simpl; [lia|].
  destruct (Js.isWhiteSpace c); simpl; lia.
Qed.

Lemma length_trimEnd_le (s : string) :
  String.length (Js.trimEnd s) <= String.length s.
Proof.
  induction s as [|c t IH]; simpl; [lia|].
  destruct (Js.trimEnd t); [destruct (Js.isWhiteSpace c)|]; simpl in *; lia.
Qed.

Lemma length_trim_le (s : string) : String.length (Js.trim s) <= String.length s.
Proof.
  unfold Js.trim.
  pose proof (length_trimEnd_le (Js.trimStart s)).
  pose proof (length_trimStart_le s). lia.
Qed.

Lemma length_substring0_le (n : nat) (s : string) :
  String.length (Js.substring0 n s) <= n.
Proof.
  rewrite substring0_firstChars. unfold firstChars. revert n.
  induction s as [|c t IH]; intros [|n]; simpl; try lia.
  specialize (IH n). lia.
Qed.

Lemma startsVisible_replaceAll (c : ascii) (by_ s : string) :
  startsVisible by_ = true -> startsVisible s = true ->
  startsVisible (Js.replaceAll c by_ s) = true.
Proof.
  intros B H. destruct s as [|d t]; simpl in *; [discriminate|].
  destruct (Ascii.eqb d c); [|exact H].
  destruct by_; simpl in *; [discriminate | exact B].
Qed.

Lemma startsVisible_substring0 (n : nat) (s : string) :
  startsVisible s = true -> startsVisible (Js.substring0 (S n) s) = true.
Proof. destruct s; simpl; auto. Qed.

Lemma trimEnd_append (a b : string) :
  Js.trimEnd b <> "" -> Js.trimEnd (a ++ b) = (a ++ Js.trimEnd b)%string.
Proof.
  intro N. induction a as [|x a IH]; simpl; [reflexivity|].
  rewrite IH. destruct (a ++ Js.trimEnd b)%string eqn:E; [|reflexivity].
  destruct a; simpl in E; [congruence | discriminate].
Qed.

Lemma replaceAll_nonempty (c : ascii) (by_ s : string) :
  by_ <> "" -> s <> "" -> Js.replaceAll c by_ s <> "".
Proof.
  intros B N. destruct s as [|d t]; [congruence|]. simpl.
  destruct (Ascii.eqb d c); [|discriminate].
  destruct by_; [congruence | discriminate].
Qed.

Lemma trimEnd_replaceAll (c : ascii) (by_ s : string) :
  by_ <> "" -> Js.trimEnd by_ = by_ -> Js.trimEnd s = s ->
  Js.trimEnd (Js.replaceAll c by_ s) = Js.replaceAll c by_ s.
Proof.
  intros B Tb. induction s as [|d t IH]; [reflexivity|].
  intro T. cbn [Js.trimEnd] in T.
  destruct (Js.trimEnd t) as [|e r] eqn:E.
  - destruct (Js.isWhiteSpace d) eqn:W; [discriminate|].
    injection T as <-. simpl.
    destruct (Ascii.eqb d c); [now rewrite append_empty_r|].
    simpl. now rewrite W.
  - injection T as T. specialize (IH T).
    assert (N : Js.replaceAll c by_ t <> "")
      by (apply replaceAll_nonempty; [exact B | rewrite <- T; discriminate]).
    simpl. destruct (Ascii.eqb d c).
    + rewrite trimEnd_append; rewrite IH; [reflexivity | exact N].
    + cbn [Js.trimEnd]. rewrite IH.
      destruct (Js.replaceAll c by_ t); [congruence | reflexivity].
Qed.

Lemma occurrences_append (c : ascii) (a b : string) :
  occurrences c (a ++ b) = occurrences c a + occurrences c b.
Proof. induction a as [|d t IH]; simpl; [reflexivity | rewrite IH; lia]. Qed.

Lemma occurrences_replaceAll_other (d c : ascii) (by_ s : string) :
  Ascii.eqb c d = false -> occurrences d by_ = 0 ->
  occurrences d (Js.replaceAll c by_ s) = occurrences d s.
Proof.
  intros N B. induction s as [|x t IH]; simpl; [reflexivity|].
  destruct (Ascii.eqb x c) eqn:E.
  - apply Ascii.eqb_eq in E. subst x. rewrite N.
    rewrite occurrences_append, B, IH. reflexivity.
  - simpl. now rewrite IH.
Qed.

Lemma length_replaceAll (c : ascii) (by_ s : string) :
  String.length (Js.replaceAll c by_ s) + occurrences c s
  = String.length s + occurrences c s * String.length by_.
Proof.
  induction s as [|d t IH]; simpl; [reflexivity|].
  destruct (Ascii.eqb d c); simpl.
  - rewrite length_append. lia.
  - lia.
Qed.

(** Each angle bracket is replaced by four characters. *)
Lemma length_sanitizeUncapped (s : string) :
  String.length (ValidationMiddleware.sanitizeUncapped s)
  = String.length s + 3 * (occurrences "<" s + occurrences ">" s).
Proof.
  unfold ValidationMiddleware.sanitizeUncapped.
  pose proof (length_replaceAll ">" "&gt;" (Js.replaceAll "<" "&lt;" s)) as G.
  pose proof (length_replaceAll "<" "&lt;" s) as L.
  rewrite (occurrences_replaceAll_other ">" "<" "&lt;" s eq_refl eq_refl) in G.
  simpl String.length in *. lia.
Qed.

Lemma sanitizeUncapped_tight (t : string) :
  headOk t = true -> Js.trimEnd t = t -> t <> "" ->
  Js.trim (ValidationMiddleware.sanitizeUncapped t)
  = ValidationMiddleware.sanitizeUncapped t
  /\ startsVisible (ValidationMiddleware.sanitizeUncapped t) = true.
Proof.
  intros H E N. unfold ValidationMiddleware.sanitizeUncapped.
  assert (V : startsVisible
                (Js.replaceAll ">" "&gt;" (Js.replaceAll "<" "&lt;" t)) = true).
  { apply startsVisible_replaceAll; [reflexivity|].
    apply startsVisible_replaceAll; [reflexivity|].
    now apply headOk_nonempty_visible. }
  split; [|exact V].
  apply trim_tight.
  - destruct (Js.replaceAll ">" "&gt;" (Js.replaceAll "<" "&lt;" t));
      [reflexivity | exact V].
  - apply trimEnd_replaceAll; [discriminate | reflexivity |].
    apply trimEnd_replaceAll; [discriminate | reflexivity | exact E].
Qed.

End Trimming.

(* ------------------------------------------------------------------ *)
(** ** The middleware and the validation of the service *)

Section MiddlewareAndService.


Lemma validateMessageWith_accepts_iff (chain : string -> string) (body : Body.t)
    (m : string) :
  Body.message body = JsString m ->
  Js.trim m <> "" ->
  String.length (Js.trim m) <= 5000 ->
  ValidationMiddleware.validateMessageWith chain body
  = inr {| Body.message := JsString (chain (Js.trim m));
           Body.sessionId := Body.sessionId body |}.
Proof.
  intros B N L. unfold ValidationMiddleware.validateMessageWith. rewrite B.
  assert (T : Js.truthy m = true).
  { apply truthy_nonempty. intros ->. now apply N. }
  rewrite T. cbn [negb].
  assert (Z : (String.length (Js.trim m) =? 0) = false).
  { apply Nat.eqb_neq. intro Z. apply length_zero_iff in Z. now apply N. }
  rewrite Z. apply Nat.ltb_ge in L. now rewrite L.
Qed.

Lemma sanitize_of_trimmed_valid (m : string) :
  Js.trim m <> "" ->
  ChatService.validateMessage
    (Js.trim (ValidationMiddleware.sanitize (Js.trim m))) = Returns tt
  /\ Js.trim (ValidationMiddleware.sanitize (Js.trim m)) <> "".
Proof.
  intro N.
  assert (V : startsVisible (ValidationMiddleware.sanitize (Js.trim m)) = true).
  { unfold ValidationMiddleware.sanitize.
    apply (startsVisible_substring0 4999).
    apply startsVisible_replaceAll; [reflexivity|].
    apply startsVisible_replaceAll; [reflexivity|].
    apply headOk_nonempty_visible; [apply trim_headOk | exact N]. }
  assert (W : whitespaceOnly (Js.trim (ValidationMiddleware.sanitize (Js.trim m))) = false).
  { rewrite whitespaceOnly_trim. now apply startsVisible_not_blank. }
  split.
  - apply validateMessage_ok_iff. split; [exact W|].
    pose proof (length_trim_le (ValidationMiddleware.sanitize (Js.trim m))).
    pose proof (length_substring0_le 5000
                  (Js.replaceAll ">" "&gt;" (Js.replaceAll "<" "&lt;" (Js.trim m)))).
    unfold ValidationMiddleware.sanitize in *. lia.
  - intro E. rewrite E in W. discriminate.
Qed.


End MiddlewareAndService.



(** X11: in the variant of the middleware without the cap, the sanitised
    text is longer than the trimmed text by three characters for each angle
    bracket, and a body the middleware lets through whose sanitised text is
    longer than 5000 characters is then rejected by the service: the route
    answers 400 with MESSAGE_TOO_LONG and nothing is stored. *)
Theorem uncapped_middleware_then_too_long (self : ChatService.t) (env : Env)
    (body : Body.t) (m : string) (st : Store) :
  Body.message body = JsString m ->
  Js.trim m <> "" ->
  String.length (Js.trim m) <= 5000 ->
  5000 < String.length (Js.trim m)
         + 3 * (occurrences "<" (Js.trim m) + occurrences ">" (Js.trim m)) ->
  String.length (ValidationMiddleware.sanitizeUncapped (Js.trim m))
  = String.length (Js.trim m)
    + 3 * (occurrences "<" (Js.trim m) + occurrences ">" (Js.trim m))
  /\ Routes.postMessageWith ValidationMiddleware.validateMessageUncapped
       self env body st
     = (Response.failed 400 ChatService.tooLongMessageError "MESSAGE_TOO_LONG", st).
Proof.
  intros B N L G. split; [apply length_sanitizeUncapped|].
  rewrite <- length_sanitizeUncapped in G.
  destruct (sanitizeUncapped_tight (Js.trim m) (trim_headOk m) (trimEnd_trim m) N)
    as [Tt V].
  unfold Routes.postMessageWith, ValidationMiddleware.validateMessageUncapped.
  rewrite (validateMessageWith_accepts_iff _ body m B N L).
  unfold ChatController.sendMessage. cbn [Body.message Body.sessionId].
  set (x := ValidationMiddleware.sanitizeUncapped (Js.trim m)) in *.
  assert (T : Js.truthy x = true).
  { apply truthy_nonempty. intro E. rewrite E in V. discriminate. }
  rewrite T, Tt. cbn [negb].
  assert (Z : (String.length x =? 0) = false) by (apply Nat.eqb_neq; lia).
  rewrite Z.
  rewrite (processMessage_invalid self env _ st ChatService.tooLongMessageError).
  - reflexivity.
  - cbn [ChatRequest.message]. apply validateMessage_too_long; [|exact G].
    now apply startsVisible_not_blank.
Qed.

Lemma uncapped_middleware_then_too_long_witness :
  String.length (ValidationMiddleware.sanitizeUncapped (Js.trim (Js.repeat "<" 1300)))
  = String.length (Js.trim (Js.repeat "<" 1300))
    + 3 * (occurrences "<" (Js.trim (Js.repeat "<" 1300))
           + occurrences ">" (Js.trim (Js.repeat "<" 1300)))
  /\ Routes.postMessageWith ValidationMiddleware.validateMessageUncapped
       sampleService sampleEnv manyBrackets emptyStore
     = (Response.failed 400 ChatService.tooLongMessageError "MESSAGE_TOO_LONG",
        emptyStore).
Proof.
  apply (uncapped_middleware_then_too_long sampleService sampleEnv manyBrackets
           (Js.repeat "<" 1300) emptyStore).
  - reflexivity.
  - vm_compute. discriminate.
  - apply Nat.leb_le. vm_compute. reflexivity.
  - apply Nat.ltb_lt. vm_compute. reflexivity.
Defined.

(* ------------------------------------------------------------------ *)
(** ** The configuration of the LLM service *)

Section Configuration.

Lemma LLMService_new_cases (pe : ProcessEnv) :
  (orDefault (LLM_PROVIDER pe) "gemini" = "gemini"
   /\ orDefault (GEMINI_API_KEY pe) "" = ""
   /\ LLMService.new pe = Throws "GEMINI_API_KEY is required in environment variables")
  \/ (orDefault (LLM_PROVIDER pe) "gemini" = "gemini"
      /\ orDefault (GEMINI_API_KEY pe) "" <> ""
      /\ LLMService.new pe
         = Returns {| LLMService.provider := "gemini";
                      LLMService.geminiClient :=
                        Some {| apiKey := orDefault (GEMINI_API_KEY pe) "" |};
                      LLMService.geminiApiKey := orDefault (GEMINI_API_KEY pe) "";
                      LLMService.geminiModel :=
                        orDefault (GEMINI_MODEL pe) "gemini-2.0-flash-exp" |})
  \/ (orDefault (LLM_PROVIDER pe) "gemini" <> "gemini"
      /\ LLMService.new pe
         = Returns {| LLMService.provider := orDefault (LLM_PROVIDER pe) "gemini";
                      LLMService.geminiClient := None;
                      LLMService.geminiApiKey := orDefault (GEMINI_API_KEY pe) "";
                      LLMService.geminiModel :=
                        orDefault (GEMINI_MODEL pe) "gemini-2.0-flash-exp" |}).
Proof.
  unfold LLMService.new.
  destruct (String.eqb_spec (orDefault (LLM_PROVIDER pe) "gemini") "gemini") as [P|P].
  - destruct (Js.truthy (orDefault (GEMINI_API_KEY pe) "")) eqn:K; cbn [negb andb].
    + right. left. apply truthy_nonempty in K. rewrite P. auto.
    + left. split; [exact P | split; [|reflexivity]].
      unfold Js.truthy in K. apply negb_false_iff in K. now apply String.eqb_eq in K.
  - right. right. cbn [andb]. auto.
Qed.

(** A service without client never returns a reply of the model. *)
Lemma generateReply_unsupported (env : Env) (self : LLMService.t)
    (userMessage : string) (history : list MessageHistory.t) :
  LLMService.provider self <> "gemini" ->
  exists e, LLMService.generateReply env self userMessage history = Throws e.
Proof.
  intro P.
  destruct (LLMService.generateReply env self userMessage history) as [r|e] eqn:G;
    [|now exists e].
  apply generateReply_returns in G as (_ & Q & _). congruence.
Qed.

End Configuration.

(** X12: building the service from the environment fails exactly when the
    provider (gemini unless LLM_PROVIDER names another) is gemini and
    GEMINI_API_KEY is missing or empty; a service built for gemini calls
    the backend with that key and the configured model on the assembled
    prompt; a service built for any other provider starts without error,
    never calls the backend, and every reply it returns is the fallback
    string. *)
Theorem service_configuration (pe : ProcessEnv) :
  (ChatService.new pe = Throws "GEMINI_API_KEY is required in environment variables"
   <-> orDefault (LLM_PROVIDER pe) "gemini" = "gemini"
       /\ orDefault (GEMINI_API_KEY pe) "" = "")
  /\ (forall self,
        ChatService.new pe = Returns self ->
        orDefault (LLM_PROVIDER pe) "gemini" = "gemini" ->
        forall env userMessage history,
          whitespaceOnly userMessage = false ->
          LLMService.generateReply_try env (ChatService.llmService self) userMessage history
          = match generateContent env
                    {| apiKey := orDefault (GEMINI_API_KEY pe) "" |}
                    (orDefault (GEMINI_MODEL pe) "gemini-2.0-flash-exp")
                    (LLMService.buildPrompt history (LLMService.trimmedMessage userMessage))
            with
            | GeminiRejects e => Throws e
            | GeminiResolves None => Throws "Empty response from Gemini"
            | GeminiResolves (Some txt) =>
                if Js.truthy txt
                then Returns {| LLMResponse.content := txt;
                                LLMResponse.provider := "gemini";
                                LLMResponse.model :=
                                  orDefault (GEMINI_MODEL pe) "gemini-2.0-flash-exp" |}
                else Throws "Empty response from Gemini"
            end)
  /\ (forall self,
        ChatService.new pe = Returns self ->
        orDefault (LLM_PROVIDER pe) "gemini" <> "gemini" ->
        forall env request st resp st',
          ChatService.processMessage self env request st = (Returns resp, st') ->
          ChatResponse.reply resp = ChatService.fallbackReply).
Proof.
  unfold ChatService.new.
  destruct (LLMService_new_cases pe) as [(P & K & E) | [(P & K & E) | (P & E)]];
    rewrite E; split; [| split | | split | | split].
  - split; auto.
  - discriminate.
  - discriminate.
  - split; [discriminate | intros [_ K']; congruence].
  - intros self H _ env userMessage history W. injection H as <-.
    cbn [ChatService.llmService].
    rewrite generateReply_try_gemini; [reflexivity | reflexivity | exact W].
  - intros self _ Q. congruence.
  - split; [discriminate | intros [P' _]; congruence].
  - intros self _ Q. congruence.
  - intros self H _ env request st resp st' R. injection H as <-.
    apply processMessage_ran in R. inversion R as [| |c st1 V Rs]; subst.
    cbn [responseFor ChatResponse.reply]. unfold replyText, llmOutcome.
    destruct (generateReply_unsupported env
                {| LLMService.provider := orDefault (LLM_PROVIDER pe) "gemini";
                   LLMService.geminiClient := None;
                   LLMService.geminiApiKey := orDefault (GEMINI_API_KEY pe) "";
                   LLMService.geminiModel :=
                     orDefault (GEMINI_MODEL pe) "gemini-2.0-flash-exp" |}
                (ChatRequest.message request) (historyRead env request c st1) P)
      as [e G].
    cbn [ChatService.llmService]. now rewrite G.
Qed.

Lemma service_configuration_witness :
  ChatResponse.reply
    {| ChatResponse.reply := ChatService.fallbackReply;
       ChatResponse.sessionId := "abc";
       ChatResponse.messageId := 2;
       ChatResponse.conversationId := 0 |}
  = ChatService.fallbackReply.
Proof.
  apply (proj2 (proj2 (service_configuration openaiProcessEnv))
           openaiService eq_refl ltac:(discriminate) sampleEnv
           (helloRequest (Some "abc")) emptyStore _
           (snd (ChatService.processMessage openaiService sampleEnv
                   (helloRequest (Some "abc")) emptyStore))).
  vm_compute. reflexivity.
Defined.

(* ------------------------------------------------------------------ *)
(** ** The conversation route *)


Section RouteRoundTrip.


End RouteRoundTrip.



(* ================================================================== *)
(** * Properties of the client *)

(* ------------------------------------------------------------------ *)
(** ** The validation of the client and the one of the server *)

Section ClientValidation.

Lemma client_valid_iff (message : string) :
  ChatApi.Validation.valid (ChatApi.validateMessage message) = true
  <-> Js.trim message <> "" /\ String.length (Js.trim message) <= 4000.
Proof.
  unfold ChatApi.validateMessage, ChatApi.MAX_MESSAGE_LENGTH, ChatApi.WARNING_THRESHOLD.
  destruct (Js.truthy (Js.trim message)) eqn:T; cbn [negb].
  - apply truthy_nonempty in T.
    destruct (4000 <? String.length (Js.trim message)) eqn:L.
    + apply Nat.ltb_lt in L. cbn. split; [discriminate | intros [_ H]; lia].
    + apply Nat.ltb_ge in L.
      destruct (3500 <? String.length (Js.trim message)); cbn; split; auto.
  - cbn. split; [discriminate|].
    intros [N _]. apply truthy_nonempty in N. congruence.
Qed.

Lemma client_warning_iff (message : string) :
  (exists w, ChatApi.Validation.warning (ChatApi.validateMessage message) = Some w)
  <-> 3500 < String.length (Js.trim message) <= 4000.
Proof.
  unfold ChatApi.validateMessage, ChatApi.MAX_MESSAGE_LENGTH, ChatApi.WARNING_THRESHOLD.
  destruct (Js.truthy (Js.trim message)) eqn:T; cbn [negb].
  - destruct (4000 <? String.length (Js.trim message)) eqn:L.
    + apply Nat.ltb_lt in L. cbn. split; [intros [w H]; discriminate | lia].
    + apply Nat.ltb_ge in L.
      destruct (3500 <? String.length (Js.trim message)) eqn:W; cbn.
      * apply Nat.ltb_lt in W. split; [lia | eauto].
      * apply Nat.ltb_ge in W. split; [intros [w H]; discriminate | lia].
  - cbn. split; [intros [w H]; discriminate|].
    intros [H _]. unfold Js.truthy in T. apply negb_false_iff in T.
    apply String.eqb_eq in T. rewrite T in H. simpl in H. lia.
Qed.

End ClientValidation.

(** X15: the client accepts a text exactly when its trim is not empty and
    has at most 4000 characters; the trimmed text of every accepted message
    passes the middleware of the server, which hands its sanitised form
    on; and a text whose trim has between 4001 and 5000 characters is
    rejected by the client although the server would accept it. *)
Theorem client_validation_within_server_limits (message : string)
    (sessionId : option string) :
  (ChatApi.Validation.valid (ChatApi.validateMessage message) = true
   <-> Js.trim message <> "" /\ String.length (Js.trim message) <= 4000)
  /\ (ChatApi.Validation.valid (ChatApi.validateMessage message) = true ->
      ValidationMiddleware.validateMessage
        {| Body.message := JsString (Js.trim message); Body.sessionId := sessionId |}
      = inr {| Body.message :=
                 JsString (ValidationMiddleware.sanitize (Js.trim message));
               Body.sessionId := sessionId |})
  /\ (4000 < String.length (Js.trim message) <= 5000 ->
      ChatApi.Validation.valid (ChatApi.validateMessage message) = false
      /\ ValidationMiddleware.validateMessage
           {| Body.message := JsString (Js.trim message); Body.sessionId := sessionId |}
         = inr {| Body.message :=
                    JsString (ValidationMiddleware.sanitize (Js.trim message));
                  Body.sessionId := sessionId |}).
Proof.
  assert (A : Js.trim message <> "" -> String.length (Js.trim message) <= 5000 ->
              ValidationMiddleware.validateMessage
                {| Body.message := JsString (Js.trim message);
                   Body.sessionId := sessionId |}
              = inr {| Body.message :=
                         JsString (ValidationMiddleware.sanitize (Js.trim message));
                       Body.sessionId := sessionId |}).
  { intros N L. unfold ValidationMiddleware.validateMessage.
    rewrite (validateMessageWith_accepts_iff ValidationMiddleware.sanitize
               {| Body.message := JsString (Js.trim message);
                  Body.sessionId := sessionId |}
               (Js.trim message) eq_refl);
      rewrite trim_idem; auto. }
  split; [apply client_valid_iff | split].
  - intro V. apply client_valid_iff in V as [N L]. apply A; [exact N | lia].
  - intros [L U]. split.
    + destruct (ChatApi.Validation.valid (ChatApi.validateMessage message)) eqn:V;
        [|reflexivity].
      apply client_valid_iff in V as [_ V]. lia.
    + apply A; [|exact U].
      intro E. rewrite E in L. simpl in L. lia.
Qed.

Lemma client_validation_within_server_limits_witness :
  ValidationMiddleware.validateMessage
    {| Body.message := JsString (Js.trim longText); Body.sessionId := None |}
  = inr {| Body.message := JsString (ValidationMiddleware.sanitize (Js.trim longText));
           Body.sessionId := None |}
  /\ ChatApi.Validation.valid (ChatApi.validateMessage longerText) = false.
Proof.
  split.
  - apply (proj1 (proj2 (client_validation_within_server_limits longText None))).
    vm_compute. reflexivity.
  - apply (proj2 (proj2 (client_validation_within_server_limits longerText None))).
    split; [apply Nat.ltb_lt | apply Nat.leb_le]; vm_compute; reflexivity.
Defined.

(* ------------------------------------------------------------------ *)
(** ** The input box *)

Section InputBox.

Lemma client_valid_trim (message : string) :
  ChatApi.Validation.valid (ChatApi.validateMessage (Js.trim message))
  = ChatApi.Validation.valid (ChatApi.validateMessage message).
Proof.
  unfold ChatApi.validateMessage. now rewrite trim_idem.
Qed.

Lemma handleSubmit_cases (disabled : bool) (s : ChatInput.State) :
  (ChatInput.isDisabled disabled s = true
   /\ ChatInput.handleSubmit disabled s = (None, s))
  \/ (ChatInput.isDisabled disabled s = false
      /\ disabled = false
      /\ ChatApi.Validation.valid
           (ChatApi.validateMessage (Js.trim (ChatInput.message s))) = true
      /\ ChatInput.handleSubmit disabled s
         = (Some (Js.trim (ChatInput.message s)),
            {| ChatInput.message := ""; ChatInput.charWarning := None |})).
Proof.
  unfold ChatInput.isDisabled, ChatInput.handleSubmit.
  rewrite <- (client_valid_trim (ChatInput.message s)).
  destruct disabled; cbn [orb].
  - left. rewrite orb_true_r. auto.
  - rewrite orb_false_r.
    destruct (Js.truthy (Js.trim (ChatInput.message s))); cbn [negb orb]; [|now left].
    destruct (ChatApi.Validation.valid
                (ChatApi.validateMessage (Js.trim (ChatInput.message s))));
      cbn [negb]; [right | left]; auto.
Qed.

End InputBox.

(** X16: the send button is disabled exactly when submitting would send
    nothing; and what a submission sends is the trimmed content of the box,
    which is its own trim and which the validation of the client accepts,
    so [sendMessage] does not turn it down and puts exactly this text in
    the request; the box is emptied. *)
Theorem handleSubmit_sends_valid_text (disabled : bool) (s : ChatInput.State) :
  (ChatInput.isDisabled disabled s = true
   <-> fst (ChatInput.handleSubmit disabled s) = None)
  /\ (ChatInput.isDisabled disabled s = true -> snd (ChatInput.handleSubmit disabled s) = s)
  /\ (forall text s',
        ChatInput.handleSubmit disabled s = (Some text, s') ->
        text = Js.trim (ChatInput.message s)
        /\ Js.trim text = text
        /\ ChatApi.Validation.valid (ChatApi.validateMessage text) = true
        /\ ChatInput.message s' = ""
        /\ forall url fetch sessionId,
             ChatApi.sendMessage url fetch text sessionId
             = match fetch {| ChatApi.ChatRequestInit.url := (url ++ "/chat/message")%string;
                              ChatApi.ChatRequestInit.method := "POST";
                              ChatApi.ChatRequestInit.message := text;
                              ChatApi.ChatRequestInit.sessionId :=
                                if Js.truthyOpt sessionId then sessionId else None |}
               with
               | FetchRejects e => ChatApi.caught sessionId e
               | FetchResolves response =>
                   ChatApi.sendMessage url (fun _ => FetchResolves response) text sessionId
               end).
Proof.
  destruct (handleSubmit_cases disabled s) as [[D E] | (D & F & V & E)]; rewrite D, E.
  - split; [split; auto | split; [auto|]]. intros text s' H. discriminate.
  - split; [split; discriminate | split; [discriminate|]].
    intros text s' H. injection H as <- <-.
    split; [reflexivity | split; [apply trim_idem | split; [exact V | split; [reflexivity|]]]].
    intros url fetch sessionId. unfold ChatApi.sendMessage.
    rewrite V. cbn [negb]. rewrite trim_idem.
    destruct (fetch _); reflexivity.
Qed.

Lemma handleSubmit_sends_valid_text_witness :
  ChatInput.handleSubmit false
    {| ChatInput.message := "  hello  "; ChatInput.charWarning := None |}
  = (Some "hello", {| ChatInput.message := ""; ChatInput.charWarning := None |})
  /\ ChatApi.Validation.valid (ChatApi.validateMessage "hello") = true.
Proof.
  destruct (proj2 (proj2 (handleSubmit_sends_valid_text false
                            {| ChatInput.message := "  hello  ";
                               ChatInput.charWarning := None |}))
              "hello" {| ChatInput.message := ""; ChatInput.charWarning := None |}
              eq_refl) as (_ & _ & V & _).
  split; [reflexivity | exact V].
Defined.

(* ------------------------------------------------------------------ *)
(** ** What [sendMessage] returns *)

Section SendMessage.

Lemma orDefault_nonempty (a : option string) (d : string) :
  d <> "" -> orDefault a d <> "".
Proof.
  intro D. unfold orDefault. destruct a as [s|]; [|exact D].
  destruct (Js.truthy s) eqn:T; [now apply truthy_nonempty | exact D].
Qed.

Lemma statusMessage_nonempty (status : nat) : ChatApi.statusMessage status <> "".
Proof.
  unfold ChatApi.statusMessage.
  destruct (status =? 429); [discriminate|].
  destruct (status =? 503); [discriminate|].
  destruct (500 <=? status); [discriminate|].
  destruct (status =? 400); discriminate.
Qed.

Lemma client_error_nonempty (message : string) :
  ChatApi.Validation.valid (ChatApi.validateMessage message) = false ->
  exists e, ChatApi.Validation.error (ChatApi.validateMessage message) = Some e
            /\ e <> "".
Proof.
  unfold ChatApi.validateMessage.
  destruct (negb (Js.truthy (Js.trim message))).
  - intros _. eexists. split; [reflexivity | discriminate].
  - destruct (ChatApi.MAX_MESSAGE_LENGTH <? String.length (Js.trim message)).
    + intros _. eexists. split; [reflexivity | discriminate].
    + destruct (ChatApi.WARNING_THRESHOLD <? String.length (Js.trim message));
        discriminate.
Qed.

Lemma failure_shape (sessionId : option string) (e : string) :
  e <> "" ->
  ChatApi.ChatResponse.success (ChatApi.failure sessionId (Some e)) = Some false
  /\ (exists e', ChatApi.ChatResponse.error (ChatApi.failure sessionId (Some e)) = Some e'
                 /\ e' <> "")
  /\ exists sid, ChatApi.ChatResponse.data (ChatApi.failure sessionId (Some e))
                 = Some (blankData sid).
Proof.
  intro N. split; [reflexivity | split]; eexists; [split; [reflexivity | exact N] |].
  reflexivity.
Qed.

Lemma caught_shape (sessionId : option string) (e : Thrown.t) :
  ChatApi.ChatResponse.success (ChatApi.caught sessionId e) = Some false
  /\ (exists e', ChatApi.ChatResponse.error (ChatApi.caught sessionId e) = Some e'
                 /\ e' <> "")
  /\ exists sid, ChatApi.ChatResponse.data (ChatApi.caught sessionId e)
                 = Some (blankData sid).
Proof.
  unfold ChatApi.caught.
  destruct (Thrown.isTypeError e && _); [apply failure_shape; discriminate|].
  destruct (Thrown.isError e && _); apply failure_shape; discriminate.
Qed.

End SendMessage.

(** X17: a message the client finds invalid is answered without regard to
    the network; and whatever happens, [sendMessage] returns either the
    JSON of a response with an ok status to the request it made, or a
    failure it built itself: [success] false, a non-empty error message,
    and empty reply, message and conversation identifiers. *)
Theorem sendMessage_outcomes (url : string)
    (fetch : ChatApi.ChatRequestInit.t -> FetchOutcome ChatApi.ChatResponse.t)
    (message : string) (sessionId : option string) :
  (ChatApi.Validation.valid (ChatApi.validateMessage message) = false ->
   forall fetch',
     ChatApi.sendMessage url fetch' message sessionId
     = ChatApi.sendMessage url fetch message sessionId)
  /\ ((exists response,
         ChatApi.Validation.valid (ChatApi.validateMessage message) = true
         /\ fetch (chatRequestInit url message sessionId) = FetchResolves response
         /\ HttpResponse.ok response = true
         /\ HttpResponse.json response
            = Some (ChatApi.sendMessage url fetch message sessionId))
      \/ (ChatApi.ChatResponse.success (ChatApi.sendMessage url fetch message sessionId)
          = Some false
          /\ (exists e,
                ChatApi.ChatResponse.error
                  (ChatApi.sendMessage url fetch message sessionId) = Some e
                /\ e <> "")
          /\ exists sid,
               ChatApi.ChatResponse.data
                 (ChatApi.sendMessage url fetch message sessionId)
               = Some (blankData sid))).
Proof.
  unfold ChatApi.sendMessage. fold (chatRequestInit url message sessionId).
  destruct (ChatApi.Validation.valid (ChatApi.validateMessage message)) eqn:V;
    cbn [negb].
  - split; [discriminate|].
    destruct (fetch (chatRequestInit url message sessionId)) as [e|response] eqn:F.
    + right. apply caught_shape.
    + destruct (HttpResponse.ok response) eqn:O; cbn [negb].
      * destruct (HttpResponse.json response) as [data|] eqn:J.
        -- left. exists response. auto.
        -- right. apply caught_shape.
      * right. apply failure_shape.
        destruct (HttpResponse.json response) as [errorData|].
        -- unfold ChatApi.orElse. apply orDefault_nonempty, orDefault_nonempty.
           discriminate.
        -- apply statusMessage_nonempty.
  - split; [reflexivity|].
    right. destruct (client_error_nonempty message V) as (e & E & N).
    rewrite E. split; [reflexivity | split].
    + exists e. auto.
    + exists "". reflexivity.
Qed.

Lemma sendMessage_outcomes_witness :
  ChatApi.sendMessage "http://localhost:7000/api"
    (fun _ => FetchResolves {| HttpResponse.status := 200;
                               HttpResponse.json := Some sampleAnswer |})
    "   " None
  = ChatApi.sendMessage "http://localhost:7000/api" unavailableFetch "   " None.
Proof.
  apply (proj1 (sendMessage_outcomes "http://localhost:7000/api" unavailableFetch
                  "   " None)).
  reflexivity.
Defined.

(* ------------------------------------------------------------------ *)
(** ** The session identifier in the browser *)

Section SessionStorage.

Lemma getItem_removeItem_same (key : string) (items : list (string * string)) :
  Browser.getItem key (Browser.removeItem key items) = None.
Proof.
  induction items as [|[k v] r IH]; simpl; [reflexivity|].
  destruct (String.eqb k key) eqn:E; [exact IH|].
  simpl. now rewrite E.
Qed.

Lemma getItem_removeItem_other (key other : string) (items : list (string * string)) :
  other <> key ->
  Browser.getItem other (Browser.removeItem key items) = Browser.getItem other items.
Proof.
  intro N. induction items as [|[k v] r IH]; simpl; [reflexivity|].
  destruct (String.eqb_spec k key) as [->|K].
  - rewrite IH. destruct (String.eqb_spec key other); [congruence | reflexivity].
  - simpl. now rewrite IH.
Qed.

Lemma getItem_setItem_same (key value : string) (items : list (string * string)) :
  Browser.getItem key (Browser.setItem key value items) = Some value.
Proof. unfold Browser.setItem. simpl. now rewrite String.eqb_refl. Qed.

Lemma getItem_setItem_other (key value other : string)
    (items : list (string * string)) :
  other <> key ->
  Browser.getItem other (Browser.setItem key value items) = Browser.getItem other items.
Proof.
  intro N. unfold Browser.setItem. simpl.
  destruct (String.eqb_spec key other); [congruence|].
  now apply getItem_removeItem_other.
Qed.

Lemma storeSessionId_stored (sessionId : string) (b : Browser.t) :
  Browser.hasWindow b = true -> Browser.storageThrows b = false ->
  ChatApi.getStoredSessionId (ChatApi.storeSessionId sessionId b) = Some sessionId.
Proof.
  intros W T. unfold ChatApi.getStoredSessionId, ChatApi.storeSessionId.
  rewrite W, T. cbn [negb Browser.hasWindow Browser.storageThrows Browser.localStorage].
  apply getItem_setItem_same.
Qed.

End SessionStorage.

(** X18: in a browser with a working [localStorage], a stored session
    identifier is what is read back, whatever was stored before, and
    nothing is read back after the session is cleared; neither touches
    another key; and without [window], or with a [localStorage] that
    throws, storing and clearing change nothing and nothing is read. *)
Theorem session_storage_round_trip (sessionId : string) (b : Browser.t) :
  (Browser.hasWindow b = true -> Browser.storageThrows b = false ->
   ChatApi.getStoredSessionId (ChatApi.storeSessionId sessionId b) = Some sessionId
   /\ ChatApi.getStoredSessionId (ChatApi.clearSession b) = None
   /\ ChatApi.getStoredSessionId (ChatApi.clearSession (ChatApi.storeSessionId sessionId b))
      = None
   /\ forall other,
        other <> ChatApi.SESSION_KEY ->
        Browser.getItem other (Browser.localStorage (ChatApi.storeSessionId sessionId b))
        = Browser.getItem other (Browser.localStorage b)
        /\ Browser.getItem other (Browser.localStorage (ChatApi.clearSession b))
           = Browser.getItem other (Browser.localStorage b))
  /\ (Browser.hasWindow b = false \/ Browser.storageThrows b = true ->
      ChatApi.storeSessionId sessionId b = b
      /\ ChatApi.clearSession b = b
      /\ ChatApi.getStoredSessionId b = None).
Proof.
  unfold ChatApi.getStoredSessionId, ChatApi.storeSessionId, ChatApi.clearSession.
  split.
  - intros W T. rewrite W, T.
    cbn [negb Browser.hasWindow Browser.storageThrows Browser.localStorage].
    split; [apply getItem_setItem_same|].
    split; [apply getItem_removeItem_same|].
    split; [apply getItem_removeItem_same|].
    intros other N. split.
    + now apply getItem_setItem_other.
    + now apply getItem_removeItem_other.
  - intros [W|T].
    + rewrite W. cbn. auto.
    + rewrite T. destruct (Browser.hasWindow b); cbn; auto.
Qed.

Lemma session_storage_round_trip_witness :
  ChatApi.getStoredSessionId (ChatApi.storeSessionId "s1" sampleBrowser) = Some "s1"
  /\ Browser.getItem "theme" (Browser.localStorage (ChatApi.storeSessionId "s1" sampleBrowser))
     = Some "dark".
Proof.
  destruct (proj1 (session_storage_round_trip "s1" sampleBrowser) eq_refl eq_refl)
    as (A & _ & _ & O).
  split; [exact A|].
  rewrite (proj1 (O "theme" ltac:(discriminate))). reflexivity.
Defined.

(* ------------------------------------------------------------------ *)
(** ** The history request of the client *)

Section HistoryRequest.

Lemma getConversationHistory_not_ok (url : string)
    (fetch : ChatApi.HistoryRequestInit.t
             -> FetchOutcome ChatApi.ConversationHistoryResponse.t)
    (sessionId : string) :
  (forall req,
      match fetch req with
      | FetchRejects _ => True
      | FetchResolves response => HttpResponse.ok response = false
      end) ->
  ChatApi.getConversationHistory url fetch sessionId = ChatApi.emptyHistory.
Proof.
  intro H. unfold ChatApi.getConversationHistory.
  match goal with |- context [fetch ?r] => specialize (H r); destruct (fetch r) end;
    [reflexivity|].
  now rewrite H.
Qed.

Lemma initSession_empty_history loadedAt parseDate getHistory s b :
  (forall sid, getHistory sid = ChatApi.emptyHistory) ->
  ChatWidget.messages (ChatWidget.initSession loadedAt parseDate getHistory s b)
  = ChatWidget.messages s
  /\ ChatWidget.isInitialized (ChatWidget.initSession loadedAt parseDate getHistory s b)
     = true.
Proof.
  intro H. unfold ChatWidget.initSession.
  destruct (ChatApi.getStoredSessionId b) as [sid|]; [|split; reflexivity].
  destruct (Js.truthy sid); [|split; reflexivity].
  rewrite H. split; reflexivity.
Qed.

Lemma history_request_answer self env rest body limited st :
  snd (App.handle self env (historyRequest rest body limited) st) = st
  /\ (App.answerStatus (fst (App.handle self env (historyRequest rest body limited) st))
      = 404
      \/ App.answerStatus (fst (App.handle self env (historyRequest rest body limited) st))
         = 429).
Proof.
  unfold App.handle, historyRequest. cbn [App.Request.path App.Request.method].
  change (App.segmentIs "api" "api") with true. cbv iota.
  unfold App.chatRoutes. cbn [App.Request.rateLimited App.Request.method].
  destruct limited.
  - split; [reflexivity | right; reflexivity].
  - destruct rest as [|x rest]; [|split; [reflexivity | left; reflexivity]].
    change (App.segmentIs "conversation" "chat") with false. cbv iota.
    split; [reflexivity | left; reflexivity].
Qed.

End HistoryRequest.

(** X19: the server has no route for the history request of the client
    (GET on a path starting with /api/chat/history): it answers 404, or 429
    when the rate limiter steps in, and changes nothing; the client takes
    any such answer for an empty history, so when the page is loaded again
    the widget keeps the messages it starts with: the earlier messages of
    the session are not restored. *)
Theorem history_request_not_routed (self : ChatService.t) (env : Env)
    (rest : list string) (body : Body.t) (limited : bool) (st : Store) :
  snd (App.handle self env (historyRequest rest body limited) st) = st
  /\ (App.answerStatus (fst (App.handle self env (historyRequest rest body limited) st))
      = 404
      \/ App.answerStatus (fst (App.handle self env (historyRequest rest body limited) st))
         = 429)
  /\ forall url fetch,
       (forall req, exists j,
           fetch req
           = FetchResolves
               {| HttpResponse.status :=
                    App.answerStatus
                      (fst (App.handle self env (historyRequest rest body limited) st));
                  HttpResponse.json := j |}) ->
       (forall sessionId,
           ChatApi.getConversationHistory url fetch sessionId = ChatApi.emptyHistory)
       /\ forall loadedAt parseDate s b,
            ChatWidget.messages
              (ChatWidget.initSession loadedAt parseDate
                 (ChatApi.getConversationHistory url fetch) s b)
            = ChatWidget.messages s.
Proof.
  destruct (history_request_answer self env rest body limited st) as [S A].
  split; [exact S | split; [exact A|]].
  intros url fetch F.
  assert (E : forall sessionId,
             ChatApi.getConversationHistory url fetch sessionId = ChatApi.emptyHistory).
  { intro sessionId. apply getConversationHistory_not_ok. intro req.
    destruct (F req) as [j ->]. unfold HttpResponse.ok. cbn [HttpResponse.status].
    destruct A as [-> | ->]; reflexivity. }
  split; [exact E|].
  intros loadedAt parseDate s b. now apply initSession_empty_history.
Qed.

Lemma history_request_not_routed_witness :
  ChatApi.getConversationHistory "http://localhost:7000/api"
    (fun _ =>
       FetchResolves
         {| HttpResponse.status :=
              App.answerStatus
                (fst (App.handle sampleService sampleEnv
                        (historyRequest ["s1"] helloBody false) storeAfterHello));
            HttpResponse.json := None |})
    "s1"
  = ChatApi.emptyHistory.
Proof.
  apply (proj1 (proj2 (proj2 (history_request_not_routed sampleService sampleEnv
                                ["s1"] helloBody false storeAfterHello))
                  "http://localhost:7000/api" _
                  (fun _ => ex_intro _ None eq_refl))).
Defined.

(* ------------------------------------------------------------------ *)
(** ** The widget *)

(** X20: sending a text from the widget always adds the USER bubble with
    that text after the messages shown and ends with the loading flag off.
    When [sendMessage] reports success with data, the AI bubble with the
    reply follows, no error is shown, and a non-empty session identifier of
    the answer becomes the one of the widget and, with a working
    [localStorage], the one a reloaded page starts from.  Otherwise no
    bubble follows, an error is shown, and the session identifier and the
    browser are as before.  Starting a new conversation forgets the session
    identifier in the widget and in the browser. *)
Theorem handleSendMessage_effect (clock : ChatWidget.Clock)
    (sendMessage : string -> option string -> ChatApi.ChatResponse.t)
    (text : string) (s : ChatWidget.State) (b : Browser.t) :
  ChatWidget.isLoading (fst (ChatWidget.handleSendMessage clock sendMessage text s b))
  = false
  /\ (forall data,
        ChatApi.ChatResponse.success (sendMessage text (sessionArgument s)) = Some true ->
        ChatApi.ChatResponse.data (sendMessage text (sessionArgument s)) = Some data ->
        (exists bubble,
            ChatWidget.messages
              (fst (ChatWidget.handleSendMessage clock sendMessage text s b))
            = ChatWidget.messages s ++ [userBubble clock text; bubble]
            /\ ChatApi.Message.sender bubble = ChatApi.ai
            /\ ChatApi.Message.text bubble = ChatApi.ChatData.reply data)
        /\ ChatWidget.error
             (fst (ChatWidget.handleSendMessage clock sendMessage text s b)) = None
        /\ (ChatApi.ChatData.sessionId data <> "" ->
            ChatWidget.sessionId
              (fst (ChatWidget.handleSendMessage clock sendMessage text s b))
            = Some (ChatApi.ChatData.sessionId data)
            /\ (Browser.hasWindow b = true -> Browser.storageThrows b = false ->
                forall loadedAt parseDate getHistory,
                  ChatWidget.sessionId
                    (ChatWidget.initSession loadedAt parseDate getHistory
                       (ChatWidget.initialState loadedAt)
                       (snd (ChatWidget.handleSendMessage clock sendMessage text s b)))
                  = Some (ChatApi.ChatData.sessionId data))))
  /\ (ChatApi.ChatResponse.success (sendMessage text (sessionArgument s)) <> Some true ->
      ChatWidget.messages (fst (ChatWidget.handleSendMessage clock sendMessage text s b))
      = ChatWidget.messages s ++ [userBubble clock text]
      /\ (exists e,
             ChatWidget.error
               (fst (ChatWidget.handleSendMessage clock sendMessage text s b)) = Some e
             /\ e <> "")
      /\ ChatWidget.sessionId
           (fst (ChatWidget.handleSendMessage clock sendMessage text s b))
         = ChatWidget.sessionId s
      /\ snd (ChatWidget.handleSendMessage clock sendMessage text s b) = b)
  /\ (forall now,
        ChatWidget.sessionId (fst (ChatWidget.handleNewConversation now s b)) = None
        /\ ChatApi.getStoredSessionId (snd (ChatWidget.handleNewConversation now s b))
           = None).
Proof.
  unfold ChatWidget.handleSendMessage. fold (sessionArgument s). fold (userBubble clock text).
  split; [| split; [| split]].
  - destruct (ChatApi.ChatResponse.success (sendMessage text (sessionArgument s)))
      as [[|]|]; try reflexivity.
    destruct (ChatApi.ChatResponse.data (sendMessage text (sessionArgument s)));
      [|reflexivity].
    destruct (Js.truthy (ChatApi.ChatData.sessionId t)); reflexivity.
  - intros data S D. rewrite S, D.
    destruct (Js.truthy (ChatApi.ChatData.sessionId data)) eqn:T; cbn [fst snd].
    + split; [| split; [reflexivity|]].
      * eexists. cbn [ChatWidget.messages]. rewrite <- app_assoc.
        split; [reflexivity | split; reflexivity].
      * intros _. split; [reflexivity|].
        intros W Th loadedAt parseDate getHistory.
        unfold ChatWidget.initSession.
        rewrite (storeSessionId_stored _ _ W Th), T.
        destruct (ChatApi.ConversationHistoryResponse.success (getHistory _))
          as [[|]|]; try reflexivity.
        destruct (ChatApi.ConversationHistoryResponse.data (getHistory _));
          [|reflexivity].
        destruct (0 <? List.length (ChatApi.HistoryData.messages t)); reflexivity.
    + split; [| split; [reflexivity|]].
      * eexists. cbn [ChatWidget.messages]. rewrite <- app_assoc.
        split; [reflexivity | split; reflexivity].
      * intro N. apply truthy_nonempty in N. congruence.
  - intro N.
    assert (E : orDefault (ChatApi.ChatResponse.error (sendMessage text (sessionArgument s)))
                  "Failed to get a response. Please try again." <> "")
      by (apply orDefault_nonempty; discriminate).
    destruct (ChatApi.ChatResponse.success (sendMessage text (sessionArgument s)))
      as [[|]|]; [congruence | |]; cbn [fst snd ChatWidget.messages ChatWidget.error
                                              ChatWidget.sessionId]; eauto 6.
  - intro now. unfold ChatWidget.handleNewConversation. cbn [fst snd ChatWidget.sessionId].
    split; [reflexivity|].
    unfold ChatApi.getStoredSessionId, ChatApi.clearSession.
    destruct (Browser.hasWindow b) eqn:W; cbn [negb]; [|now rewrite W].
    destruct (Browser.storageThrows b) eqn:T; [now rewrite W, T|].
    cbn [negb Browser.hasWindow Browser.storageThrows Browser.localStorage].
    apply getItem_removeItem_same.
Qed.

Lemma handleSendMessage_effect_witness :
  ChatWidget.sessionId
    (fst (ChatWidget.handleSendMessage sampleClock (fun _ _ => sampleAnswer) "hello"
            (ChatWidget.initialState 0%N) sampleBrowser))
  = Some "session_1735516800000_k3x9q0abz"
  /\ ChatWidget.messages
       (fst (ChatWidget.handleSendMessage sampleClock
               (fun _ _ => ChatApi.failure None (Some "Request timed out. Please try again."))
               "hello" (ChatWidget.initialState 0%N) sampleBrowser))
     = ChatWidget.messages (ChatWidget.initialState 0%N)
       ++ [userBubble sampleClock "hello"].
Proof.
  split.
  - destruct (proj1 (proj2 (handleSendMessage_effect sampleClock (fun _ _ => sampleAnswer)
                              "hello" (ChatWidget.initialState 0%N) sampleBrowser))
                _ eq_refl eq_refl) as (_ & _ & S).
    apply S. discriminate.
  - apply (proj1 (proj2 (proj2 (handleSendMessage_effect sampleClock
                                  (fun _ _ => ChatApi.failure None
                                                (Some "Request timed out. Please try again."))
                                  "hello" (ChatWidget.initialState 0%N) sampleBrowser)))).
    discriminate.
Defined.

(* ------------------------------------------------------------------ *)
(** ** The widget against the server *)

Section EndToEnd.

Variable self : ChatService.t.
Variable url : string.

Lemma sessionArgument_idem (s : ChatWidget.State) :
  (if Js.truthyOpt (sessionArgument s) then sessionArgument s else None)
  = sessionArgument s.
Proof.
  unfold sessionArgument.
  destruct (Js.truthyOpt (ChatWidget.sessionId s)) eqn:T; [now rewrite T | reflexivity].
Qed.

(** The message request, when the limiter lets it pass, is answered by the
    message route. *)
Lemma handle_chat_message env req st :
  App.handle self env (serverRequest false req) st
  = (App.ChatAnswer
       (fst (Routes.postMessage self env
               {| Body.message := JsString (ChatApi.ChatRequestInit.message req);
                  Body.sessionId := ChatApi.ChatRequestInit.sessionId req |} st)),
     snd (Routes.postMessage self env
            {| Body.message := JsString (ChatApi.ChatRequestInit.message req);
               Body.sessionId := ChatApi.ChatRequestInit.sessionId req |} st)).
Proof.
  unfold App.handle, serverRequest. cbn [App.Request.path App.Request.method].
  change (App.segmentIs "api" "api") with true. cbv iota.
  unfold App.chatRoutes.
  cbn [App.Request.rateLimited App.Request.method App.Request.body].
  change (App.segmentIs "chat" "chat" && App.segmentIs "message" "message") with true.
  cbv iota.
  destruct (Routes.postMessage self env _ st). reflexivity.
Qed.

(** The message route on the trimmed text of a message the client
    accepts. *)
Lemma postMessage_of_client_text env text sessionId st :
  ChatApi.Validation.valid (ChatApi.validateMessage text) = true ->
  Routes.postMessage self env
    {| Body.message := JsString (Js.trim text); Body.sessionId := sessionId |} st
  = match ChatService.processMessage self env (requestFor text sessionId) st with
    | (Returns result, st') => (Response.ok result, st')
    | (Throws e, st') =>
        (Response.failed (ChatController.statusCode e)
           (if Js.truthy e then e else "Internal server error")
           (ChatController.getErrorCode e), st')
    end.
Proof.
  intro V. apply client_valid_iff in V as [N L].
  unfold Routes.postMessage, Routes.postMessageWith, ValidationMiddleware.validateMessage.
  rewrite (validateMessageWith_accepts_iff ValidationMiddleware.sanitize
             {| Body.message := JsString (Js.trim text); Body.sessionId := sessionId |}
             (Js.trim text) eq_refl); rewrite trim_idem; [| exact N | lia].
  destruct (sanitize_of_trimmed_valid text N) as [_ NE].
  unfold ChatController.sendMessage. cbn [Body.message Body.sessionId].
  assert (T : Js.truthy (ValidationMiddleware.sanitize (Js.trim text)) = true).
  { apply truthy_nonempty. intro E. rewrite E in NE. now apply NE. }
  rewrite T. cbn [negb].
  assert (Z : (String.length (Js.trim (ValidationMiddleware.sanitize (Js.trim text))) =? 0)
              = false).
  { apply Nat.eqb_neq. intro Z. apply length_zero_iff in Z. now apply NE. }
  rewrite Z. reflexivity.
Qed.

Lemma statusCode_not_ok (e : string) :
  (200 <=? ChatController.statusCode e) && (ChatController.statusCode e <=? 299) = false.
Proof.
  unfold ChatController.statusCode.
  destruct (Js.includes e "cannot be empty" || Js.includes e "too long"
            || Js.includes e "invalid content"); reflexivity.
Qed.

(** The answer the client gets for the trimmed text of a message it
    accepts. *)
Lemma serve_client_text env text s st :
  ChatApi.Validation.valid (ChatApi.validateMessage text) = true ->
  serve self env false st (chatRequestInit url text (sessionArgument s))
  = match ChatService.processMessage self env (requestFor text (sessionArgument s)) st with
    | (Returns result, st') =>
        (FetchResolves (answerJson (App.ChatAnswer (Response.ok result))), st')
    | (Throws e, st') =>
        (FetchResolves
           (answerJson
              (App.ChatAnswer
                 (Response.failed (ChatController.statusCode e)
                    (if Js.truthy e then e else "Internal server error")
                    (ChatController.getErrorCode e)))), st')
    end.
Proof.
  intro V. unfold serve. rewrite handle_chat_message.
  unfold chatRequestInit.
  cbn [fst snd ChatApi.ChatRequestInit.message ChatApi.ChatRequestInit.sessionId].
  rewrite sessionArgument_idem.
  rewrite (postMessage_of_client_text env text (sessionArgument s) st V).
  destruct (ChatService.processMessage self env (requestFor text (sessionArgument s)) st)
    as [[result|e] st']; reflexivity.
Qed.

(** What [sendMessage] returns, and what the store becomes, when the
    server is asked. *)
Lemma sendMessage_against_server env text s st :
  ChatApi.Validation.valid (ChatApi.validateMessage text) = true ->
  match ChatService.processMessage self env (requestFor text (sessionArgument s)) st with
  | (Returns result, st') =>
      ChatApi.sendMessage url (fun req => fst (serve self env false st req)) text
        (sessionArgument s)
      = {| ChatApi.ChatResponse.success := Some true;
           ChatApi.ChatResponse.data := Some (chatDataOf result);
           ChatApi.ChatResponse.error := None;
           ChatApi.ChatResponse.message := None |}
      /\ snd (serve self env false st (chatRequestInit url text (sessionArgument s))) = st'
  | (Throws e, st') =>
      ChatApi.ChatResponse.success
        (ChatApi.sendMessage url (fun req => fst (serve self env false st req)) text
           (sessionArgument s))
      = Some false
      /\ snd (serve self env false st (chatRequestInit url text (sessionArgument s))) = st'
  end.
Proof.
  intro V.
  unfold ChatApi.sendMessage. rewrite V. cbn [negb].
  fold (chatRequestInit url text (sessionArgument s)). cbv beta.
  rewrite (serve_client_text env text s st V).
  destruct (ChatService.processMessage self env (requestFor text (sessionArgument s)) st)
    as [[result|e] st']; cbn [fst snd].
  - split; reflexivity.
  - unfold HttpResponse.ok.
    cbn [answerJson Response.failed Response.status HttpResponse.status HttpResponse.json].
    rewrite statusCode_not_ok. cbn [negb]. split; reflexivity.
Qed.

(** One message sent from the widget, according to what [processMessage]
    does with the request. *)
Lemma widgetSend_cases env clock text s b st :
  ChatApi.Validation.valid (ChatApi.validateMessage text) = true ->
  match ChatService.processMessage self env (requestFor text (sessionArgument s)) st with
  | (Returns result, st') =>
      exists bubble,
        widgetSend self env false url clock text (s, b, st)
        = ({| ChatWidget.messages :=
                ChatWidget.messages s ++ [userBubble clock text; bubble];
              ChatWidget.isLoading := false;
              ChatWidget.error := None;
              ChatWidget.sessionId :=
                if Js.truthy (ChatResponse.sessionId result)
                then Some (ChatResponse.sessionId result)
                else ChatWidget.sessionId s;
              ChatWidget.isInitialized := ChatWidget.isInitialized s |},
           if Js.truthy (ChatResponse.sessionId result)
           then ChatApi.storeSessionId (ChatResponse.sessionId result) b
           else b,
           st')
        /\ ChatApi.Message.sender bubble = ChatApi.ai
        /\ ChatApi.Message.text bubble = ChatResponse.reply result
  | (Throws e, st') =>
      exists s' m,
        widgetSend self env false url clock text (s, b, st) = (s', b, st')
        /\ ChatWidget.error s' = Some m
  end.
Proof.
  intro V. pose proof (sendMessage_against_server env text s st V) as A.
  unfold widgetSend. cbn [fst snd]. rewrite V.
  unfold ChatWidget.handleSendMessage. fold (sessionArgument s). fold (userBubble clock text).
  destruct (ChatService.processMessage self env (requestFor text (sessionArgument s)) st)
    as [[result|e] st'].
  - destruct A as [-> ->].
    cbn [ChatApi.ChatResponse.success ChatApi.ChatResponse.data chatDataOf
           ChatApi.ChatData.sessionId ChatApi.ChatData.reply ChatApi.ChatData.messageId].
    eexists.
    destruct (Js.truthy (ChatResponse.sessionId result));
      rewrite <- app_assoc; cbn [app];
      (split; [reflexivity | split; reflexivity]).
  - destruct A as [F ->]. rewrite F. eexists. eexists. split; reflexivity.
Qed.

(** The session identifier a returned call reports is not empty. *)
Lemma returned_sessionId_truthy env request st result st' :
  ChatService.processMessage self env request st = (Returns result, st') ->
  Js.truthy (ChatResponse.sessionId result) = true.
Proof.
  intro P. apply processMessage_ran in P. inversion P as [| |c st1 V R]; subst.
  cbn [responseFor ChatResponse.sessionId].
  now destruct (matching_sessionId _ _ _ (Resolved_lookup _ _ _ _ _ R)) as (_ & T & _).
Qed.

(** A second call with the session identifier of a first one. *)
Lemma processMessage_again env request st result st' env2 message2 :
  ChatService.processMessage self env request st = (Returns result, st') ->
  ChatService.validateMessage message2 = Returns tt ->
  exists result2 st2 u1 a1 u2 a2,
    ChatService.processMessage self env2
      {| ChatRequest.message := message2;
         ChatRequest.sessionId := Some (ChatResponse.sessionId result) |} st'
    = (Returns result2, st2)
    /\ messages st' = messages st ++ [u1; a1]
    /\ messages st2 = messages st' ++ [u2; a2]
    /\ Message.conversationId u1 = ChatResponse.conversationId result
    /\ Message.conversationId a1 = ChatResponse.conversationId result
    /\ Message.conversationId u2 = ChatResponse.conversationId result
    /\ Message.conversationId a2 = ChatResponse.conversationId result
    /\ Message.text a1 = ChatResponse.reply result
    /\ Message.text a2 = ChatResponse.reply result2
    /\ ChatResponse.sessionId result2 = ChatResponse.sessionId result.
Proof.
  intros P V2. apply processMessage_ran in P. inversion P as [| |c st1 V R]; subst.
  pose proof (storeAfter_lookup self env request c st1 (Resolved_lookup _ _ _ _ _ R)) as M.
  pose proof (getOrCreateConversation_reuse env2 _ _ _ M) as G.
  pose proof (processMessage_resolved self env2
                {| ChatRequest.message := message2;
                   ChatRequest.sessionId := Some (Conversation.sessionId c) |}
                _ _ _ V2 G) as P2.
  cbn [responseFor ChatResponse.sessionId ChatResponse.conversationId ChatResponse.reply].
  eexists. eexists.
  exists (userRow env request c st1), (aiRow self env request c st1).
  exists (userRow env2
            {| ChatRequest.message := message2;
               ChatRequest.sessionId := Some (Conversation.sessionId c) |}
            (touch (Conversation.id c) (timeTouch env) c)
            (storeAfter self env request c st1)),
         (aiRow self env2
            {| ChatRequest.message := message2;
               ChatRequest.sessionId := Some (Conversation.sessionId c) |}
            (touch (Conversation.id c) (timeTouch env) c)
            (storeAfter self env request c st1)).
  split; [exact P2|].
  cbn [storeAfter messages responseFor ChatResponse.sessionId ChatResponse.reply
         userRow aiRow Message.conversationId Message.text].
  rewrite (Resolved_messages env _ _ _ _ R), !touch_id, touch_sessionId.
  repeat split.
Qed.

End EndToEnd.

(** X21: two texts the client accepts, sent one after the other from the
    widget to the server, with the limiter letting both pass: if the first
    leaves no error in the widget, the second goes through as well, the
    server has stored the four messages in one conversation, in the order
    USER, AI, USER, AI, and the widget shows the two texts, each followed
    by the reply stored for it. *)
Theorem widget_messages_share_conversation (self : ChatService.t) (url : string)
    (env1 env2 : Env) (clock1 clock2 : ChatWidget.Clock) (text1 text2 : string)
    (s : ChatWidget.State) (b : Browser.t) (st : Store) :
  ChatApi.Validation.valid (ChatApi.validateMessage text1) = true ->
  ChatApi.Validation.valid (ChatApi.validateMessage text2) = true ->
  ChatWidget.error
    (fst (fst (widgetSend self env1 false url clock1 text1 (s, b, st)))) = None ->
  exists u1 a1 u2 a2 bubble1 bubble2,
    messages
      (snd (widgetSend self env2 false url clock2 text2
              (widgetSend self env1 false url clock1 text1 (s, b, st))))
    = messages st ++ [u1; a1; u2; a2]
    /\ Message.sender u1 = USER /\ Message.sender a1 = AI
    /\ Message.sender u2 = USER /\ Message.sender a2 = AI
    /\ Message.conversationId a1 = Message.conversationId u1
    /\ Message.conversationId u2 = Message.conversationId u1
    /\ Message.conversationId a2 = Message.conversationId u1
    /\ ChatWidget.messages
         (fst (fst (widgetSend self env2 false url clock2 text2
                      (widgetSend self env1 false url clock1 text1 (s, b, st)))))
       = ChatWidget.messages s
         ++ [userBubble clock1 text1; bubble1; userBubble clock2 text2; bubble2]
    /\ ChatApi.Message.text bubble1 = Message.text a1
    /\ ChatApi.Message.text bubble2 = Message.text a2
    /\ ChatWidget.error
         (fst (fst (widgetSend self env2 false url clock2 text2
                      (widgetSend self env1 false url clock1 text1 (s, b, st)))))
       = None.
Proof.
  intros V1 V2 E1.
  pose proof (widgetSend_cases self url env1 clock1 text1 s b st V1) as W1.
  destruct (ChatService.processMessage self env1 (requestFor text1 (sessionArgument s)) st)
    as [[result1|e1] st1] eqn:P1.
  2:{ destruct W1 as (s' & m & W & Em). rewrite W in E1. cbn [fst] in E1. congruence. }
  destruct W1 as (bubble1 & W1 & B1s & B1t).
  pose proof (returned_sessionId_truthy _ _ _ _ _ _ P1) as T1.
  rewrite T1 in W1. rewrite W1.
  set (s1 := {| ChatWidget.messages := _ |}).
  assert (A1 : sessionArgument s1 = Some (ChatResponse.sessionId result1)).
  { unfold sessionArgument, s1. cbn [ChatWidget.sessionId Js.truthyOpt]. now rewrite T1. }
  assert (N2 : Js.trim text2 <> "") by (now apply client_valid_iff in V2).
  destruct (sanitize_of_trimmed_valid text2 N2) as [Vs2 _].
  destruct (processMessage_again self env1 _ _ _ _ env2 _ P1 Vs2)
    as (result2 & st2 & u1 & a1 & u2 & a2 & P2 & M1 & M2 & Cu1 & Ca1 & Cu2 & Ca2
        & Ta1 & Ta2 & S2).
  pose proof (widgetSend_cases self url env2 clock2 text2 s1
                (ChatApi.storeSessionId (ChatResponse.sessionId result1) b) st1 V2) as W2.
  unfold requestFor in W2. rewrite A1 in W2. fold (requestFor text2 None) in W2.
  unfold requestFor in P2. rewrite P2 in W2.
  destruct W2 as (bubble2 & W2 & B2s & B2t).
  rewrite W2. cbn [fst snd ChatWidget.messages ChatWidget.error].
  apply processMessage_ran in P1. inversion P1 as [| |c st1' Vv R]; subst.
  pose proof P2 as P2'.
  apply processMessage_ran in P2'. inversion P2' as [| |c2 st2' Vv2 R2]; subst.
  exists u1, a1, u2, a2, bubble1, bubble2.
  unfold s1. cbn [ChatWidget.messages].
  rewrite M2, M1, <- !app_assoc. cbn [app].
  cbn [storeAfter messages] in M1, M2.
  rewrite (Resolved_messages _ _ _ _ _ R) in M1.
  apply app_inv_head in M1. injection M1 as <- <-.
  rewrite (Resolved_messages _ _ _ _ _ R2) in M2.
  apply app_inv_head in M2. injection M2 as <- <-.
  cbn [userRow aiRow Message.sender Message.conversationId Message.text] in *.
  repeat split; try congruence.
Qed.

Lemma widget_messages_share_conversation_witness :
  exists u1 a1 u2 a2 bubble1 bubble2,
    messages
      (snd (widgetSend sampleService (envAt 1) false "http://localhost:7000/api"
              laterClock "And for Canada?"
              (widgetSend sampleService (envAt 0) false "http://localhost:7000/api"
                 sampleClock "What's your return policy?" freshWidget)))
    = messages emptyStore ++ [u1; a1; u2; a2]
    /\ Message.sender u1 = USER /\ Message.sender a1 = AI
    /\ Message.sender u2 = USER /\ Message.sender a2 = AI
    /\ Message.conversationId a1 = Message.conversationId u1
    /\ Message.conversationId u2 = Message.conversationId u1
    /\ Message.conversationId a2 = Message.conversationId u1
    /\ ChatWidget.messages
         (fst (fst (widgetSend sampleService (envAt 1) false "http://localhost:7000/api"
                      laterClock "And for Canada?"
                      (widgetSend sampleService (envAt 0) false
                         "http://localhost:7000/api" sampleClock
                         "What's your return policy?" freshWidget))))
       = ChatWidget.messages (ChatWidget.initialState 1735516790000%N)
         ++ [userBubble sampleClock "What's your return policy?"; bubble1;
             userBubble laterClock "And for Canada?"; bubble2]
    /\ ChatApi.Message.text bubble1 = Message.text a1
    /\ ChatApi.Message.text bubble2 = Message.text a2
    /\ ChatWidget.error
         (fst (fst (widgetSend sampleService (envAt 1) false "http://localhost:7000/api"
                      laterClock "And for Canada?"
                      (widgetSend sampleService (envAt 0) false
                         "http://localhost:7000/api" sampleClock
                         "What's your return policy?" freshWidget))))
       = None.
Proof.
  apply (widget_messages_share_conversation sampleService "http://localhost:7000/api"
           (envAt 0) (envAt 1) sampleClock laterClock
           "What's your return policy?" "And for Canada?"
           (ChatWidget.initialState 1735516790000%N) sampleBrowser emptyStore).
  - vm_compute. reflexivity.
  - vm_compute. reflexivity.
  - vm_compute. reflexivity.
Defined.

Example widget_two_messages_stored :
  map (fun m => (Message.conversationId m, Message.sender m, Message.text m))
    (messages
       (snd (widgetSend sampleService (envAt 1) false "http://localhost:7000/api"
               laterClock "And for Canada?"
               (widgetSend sampleService (envAt 0) false "http://localhost:7000/api"
                  sampleClock "What's your return policy?" freshWidget))))
  = [(0, USER, "What's your return policy?"); (0, AI, "answer 0");
     (0, USER, "And for Canada?"); (0, AI, "answer 1")].
Proof. vm_compute. reflexivity. Qed.

(* ------------------------------------------------------------------ *)
(** ** The note under the input box *)

Lemma client_validation_blank (m : string) :
  Js.trim m = "" ->
  ChatApi.validateMessage m
  = {| ChatApi.Validation.valid := false;
       ChatApi.Validation.error := Some "Message cannot be empty";
       ChatApi.Validation.warning := None |}.
Proof. intro E. unfold ChatApi.validateMessage. now rewrite E. Qed.

Lemma client_validation_long (m : string) :
  4000 < String.length (Js.trim m) ->
  ChatApi.validateMessage m
  = {| ChatApi.Validation.valid := false;
       ChatApi.Validation.error :=
         Some ("Message too long (" ++ Js.ofNat (String.length (Js.trim m))
                 ++ "/4000 characters). Please shorten your message.")%string;
       ChatApi.Validation.warning := None |}.
Proof.
  intro L. unfold ChatApi.validateMessage.
  assert (T : Js.truthy (Js.trim m) = true).
  { apply truthy_nonempty. intro E. rewrite E in L. simpl in L. lia. }
  rewrite T. cbn [negb].
  apply Nat.ltb_lt in L. unfold ChatApi.MAX_MESSAGE_LENGTH in *. rewrite L.
  reflexivity.
Qed.

Lemma client_validation_warning (m : string) :
  3500 < String.length (Js.trim m) <= 4000 ->
  ChatApi.validateMessage m
  = {| ChatApi.Validation.valid := true;
       ChatApi.Validation.error := None;
       ChatApi.Validation.warning :=
         Some ("Your message is getting long (" ++ Js.ofNat (String.length (Js.trim m))
                 ++ "/4000 characters).")%string |}.
Proof.
  intros [W L]. unfold ChatApi.validateMessage.
  assert (T : Js.truthy (Js.trim m) = true).
  { apply truthy_nonempty. intro E. rewrite E in W. simpl in W. lia. }
  rewrite T. cbn [negb].
  apply Nat.ltb_ge in L. apply Nat.ltb_lt in W.
  unfold ChatApi.MAX_MESSAGE_LENGTH, ChatApi.WARNING_THRESHOLD in *. rewrite L, W.
  reflexivity.
Qed.

Lemma client_validation_short (m : string) :
  Js.trim m <> "" -> String.length (Js.trim m) <= 3500 ->
  ChatApi.validateMessage m
  = {| ChatApi.Validation.valid := true;
       ChatApi.Validation.error := None;
       ChatApi.Validation.warning := None |}.
Proof.
  intros N W. unfold ChatApi.validateMessage.
  apply truthy_nonempty in N. rewrite N. cbn [negb].
  assert (L : (4000 <? String.length (Js.trim m)) = false) by (apply Nat.ltb_ge; lia).
  apply Nat.ltb_ge in W.
  unfold ChatApi.MAX_MESSAGE_LENGTH, ChatApi.WARNING_THRESHOLD in *. rewrite L, W.
  reflexivity.
Qed.

(** X22: typing into the box stores the text as typed and shows, under the
    box, nothing while the trimmed text has at most 3500 characters (an
    empty or blank box included: the empty-message error is never shown),
    the length warning from 3501 to 4000 characters, and the too-long error
    above 4000. *)
Theorem handleChange_note (value : string) (s : ChatInput.State) :
  ChatInput.message (ChatInput.handleChange value s) = value
  /\ (String.length (Js.trim value) <= 3500 ->
      ChatInput.charWarning (ChatInput.handleChange value s) = None)
  /\ (3500 < String.length (Js.trim value) <= 4000 ->
      ChatInput.charWarning (ChatInput.handleChange value s)
      = Some ("Your message is getting long (" ++ Js.ofNat (String.length (Js.trim value))
                ++ "/4000 characters).")%string)
  /\ (4000 < String.length (Js.trim value) ->
      ChatInput.charWarning (ChatInput.handleChange value s)
      = Some ("Message too long (" ++ Js.ofNat (String.length (Js.trim value))
                ++ "/4000 characters). Please shorten your message.")%string)
  /\ ChatInput.charWarning (ChatInput.handleChange value s)
     <> Some "Message cannot be empty".
Proof.
  assert (Blank : Js.trim value = "" ->
                  ChatInput.charWarning (ChatInput.handleChange value s) = None).
  { intro E. unfold ChatInput.handleChange.
    rewrite (client_validation_blank value E), E. reflexivity. }
  assert (Short : Js.trim value <> "" -> String.length (Js.trim value) <= 3500 ->
                  ChatInput.charWarning (ChatInput.handleChange value s) = None).
  { intros N W. unfold ChatInput.handleChange.
    now rewrite (client_validation_short value N W). }
  assert (Warn : 3500 < String.length (Js.trim value) <= 4000 ->
                 ChatInput.charWarning (ChatInput.handleChange value s)
                 = Some ("Your message is getting long ("
                           ++ Js.ofNat (String.length (Js.trim value))
                           ++ "/4000 characters).")%string).
  { intro W. unfold ChatInput.handleChange.
    now rewrite (client_validation_warning value W). }
  assert (Long : 4000 < String.length (Js.trim value) ->
                 ChatInput.charWarning (ChatInput.handleChange value s)
                 = Some ("Message too long ("
                           ++ Js.ofNat (String.length (Js.trim value))
                           ++ "/4000 characters). Please shorten your message.")%string).
  { intro L. unfold ChatInput.handleChange.
    rewrite (client_validation_long value L).
    cbn [ChatApi.Validation.warning ChatApi.Validation.error ChatInput.charWarning].
    assert (P : (0 <? String.length (Js.trim value)) = true)
      by (apply Nat.ltb_lt; lia).
    now rewrite P. }
  split; [reflexivity|].
  split; [| split; [exact Warn | split; [exact Long|]]].
  - intro W. destruct (String.eqb_spec (Js.trim value) ""); auto.
  - destruct (String.eqb_spec (Js.trim value) "") as [E|N];
      [rewrite (Blank E); discriminate|].
    destruct (Nat.le_gt_cases (String.length (Js.trim value)) 3500) as [W|W];
      [rewrite (Short N W); discriminate|].
    destruct (Nat.le_gt_cases (String.length (Js.trim value)) 4000) as [L|L].
    + rewrite (Warn (conj W L)). discriminate.
    + rewrite (Long L). discriminate.
Qed.

Lemma handleChange_note_witness :
  ChatInput.charWarning
    (ChatInput.handleChange longText
       {| ChatInput.message := ""; ChatInput.charWarning := None |})
  = Some "Your message is getting long (3600/4000 characters)."
  /\ ChatInput.charWarning
       (ChatInput.handleChange "   "
          {| ChatInput.message := ""; ChatInput.charWarning := None |})
     = None.
Proof.
  split.
  - rewrite (proj1 (proj2 (proj2 (handleChange_note longText
                                    {| ChatInput.message := "";
                                       ChatInput.charWarning := None |})))).
    + vm_compute. reflexivity.
    + split; [apply Nat.ltb_lt | apply Nat.leb_le]; vm_compute; reflexivity.
  - apply (proj1 (proj2 (handleChange_note "   "
                           {| ChatInput.message := ""; ChatInput.charWarning := None |}))).
    apply Nat.leb_le. vm_compute. reflexivity.
Defined.
